(** * Execution orchestrator of the code artifact: a shallow embedding

  The development follows the TypeScript sources:
  - [lib/utils/code-markers] : the language classifier
    ([parseCodeBlockMarkers], [detectLanguageFromContent]);
  - [lib/webcontainer/provider.tsx] : the script sandbox
    ([getWebContainer], [compileTsWithTsc], [executeTypeScript],
    [executeJsCode]);
  - [artifacts/code/client.tsx] : the run action ([executeJsOrTs], the
    [onClick] handler of the Run action) and the run records it writes
    into the artifact metadata.

  Definitions come first, statements about them afterwards. *)

From Stdlib Require Import ZArith NArith List String Ascii Bool Lia.
From Stdlib Require Import DecimalString DecimalN DecimalFacts.
From stdpp Require Import base decidable countable list gmap.

Import ListNotations.
Local Open Scope N_scope.

(* ===================================================================== *)
(** * JavaScript strings and the string and array methods the code uses *)
(* ===================================================================== *)

Module Js.

(** A JavaScript string is a sequence of UTF-16 code units; a code unit
    is kept as a number. *)
Abbreviation jsstring := (list N).

(** String literals of the source, written as Rocq string literals. *)
Definition lit (s : string) : jsstring :=
  map N_of_ascii (list_ascii_of_string s).

(** The double-quote character, code unit 34. *)
Definition dquote : jsstring := [34].

Definition LF : N := 10.

(** [\s] of a regular expression without the [u] flag: the WhiteSpace and
    LineTerminator code points of ECMAScript. *)
Definition is_space (c : N) : bool :=
  ((9 <=? c) && (c <=? 13)) || (c =? 32) || (c =? 160) || (c =? 5760)
  || ((8192 <=? c) && (c <=? 8202)) || (c =? 8232) || (c =? 8233)
  || (c =? 8239) || (c =? 8287) || (c =? 12288) || (c =? 65279).

(** [\w] : [A-Za-z0-9_]. *)
Definition is_word (c : N) : bool :=
  ((48 <=? c) && (c <=? 57)) || ((65 <=? c) && (c <=? 90))
  || (c =? 95) || ((97 <=? c) && (c <=? 122)).

Definition is_upper (c : N) : bool := (65 <=? c) && (c <=? 90).

(** [String.prototype.toLowerCase].  The source applies it to the text
    captured by the group of word characters only, which holds ASCII
    letters, digits and underscores; on those the method maps [A-Z] to
    [a-z] and leaves the rest alone. *)
Definition toLowerCase (s : jsstring) : jsstring :=
  map (fun c => if is_upper c then c + 32 else c) s.

Fixpoint trimStart (s : jsstring) : jsstring :=
  match s with
  | c :: s' => if is_space c then trimStart s' else s
  | [] => []
  end.

(** [String.prototype.trim]. *)
Definition trim (s : jsstring) : jsstring :=
  rev (trimStart (rev (trimStart s))).

Fixpoint startsWith (s prefix : jsstring) {struct prefix} : bool :=
  match prefix, s with
  | [], _ => true
  | p :: prefix', c :: s' => (p =? c) && startsWith s' prefix'
  | _ :: _, [] => false
  end.

(** [String.prototype.includes]. *)
Fixpoint includes (s needle : jsstring) : bool :=
  startsWith s needle ||
  match s with
  | [] => false
  | _ :: s' => includes s' needle
  end.

(** [s.split('\n')] : the lines of [s]; never empty. *)
Fixpoint split_lines (s : jsstring) : list jsstring :=
  match s with
  | [] => [[]]
  | c :: s' =>
      if c =? LF then [] :: split_lines s'
      else match split_lines s' with
           | l :: ls => (c :: l) :: ls
           | [] => [[c]]
           end
  end.

(** [Array.prototype.join]. *)
Fixpoint join (sep : jsstring) (parts : list jsstring) : jsstring :=
  match parts with
  | [] => []
  | [p] => p
  | p :: ps => p ++ sep ++ join sep ps
  end.

(** [Array.prototype.slice(start, end)] with the relative (negative)
    indices of ECMAScript. *)
Definition slice {A} (start end_ : Z) (l : list A) : list A :=
  let len := Z.of_nat (length l) in
  let k := if (start <? 0)%Z then Z.max (len + start) 0 else Z.min start len in
  let final := if (end_ <? 0)%Z then Z.max (len + end_) 0 else Z.min end_ len in
  firstn (Z.to_nat (final - k)) (skipn (Z.to_nat k) l).

(** [a || b] on strings: the empty string is falsy. *)
Definition or_else (a b : jsstring) : jsstring :=
  match a with
  | [] => b
  | _ :: _ => a
  end.

(** Truthiness of an optional string ([undefined] and [''] are falsy). *)
Definition truthy (o : option jsstring) : bool :=
  match o with
  | Some (_ :: _) => true
  | _ => false
  end.

(** A template literal [`${n}`] of a non-negative integer: its decimal
    digits. *)
Definition number_toString (n : N) : jsstring :=
  lit (NilZero.string_of_uint (N.to_uint n)).

(** ** Regular expressions

    A pattern is run the way the engine runs it: a starred class is
    greedy, takes the longest run first and gives characters back one at
    a time while the rest of the pattern fails.  [k] is the rest of the
    pattern; it receives the text the star consumed. *)
Section Backtracking.
Context {R : Type}.

Fixpoint re_star (cls : N -> bool) (k : jsstring -> jsstring -> option R)
    (taken s : jsstring) : option R :=
  match s with
  | c :: s' =>
      if cls c then
        match re_star cls k (taken ++ [c]) s' with
        | Some r => Some r
        | None => k taken s
        end
      else k taken s
  | [] => k taken s
  end.

(** One given character, then the rest of the pattern. *)
Definition re_char (c : N) (k : jsstring -> option R) (s : jsstring)
    : option R :=
  match s with
  | c' :: s' => if c' =? c then k s' else None
  | [] => None
  end.
End Backtracking.

(** The text does not go on with a character of the class. *)
Definition stops (cls : N -> bool) (s : jsstring) : Prop :=
  match s with
  | c :: _ => cls c = false
  | [] => True
  end.

End Js.

(* ===================================================================== *)
(** * The language classifier (lib/utils/code-markers) *)
(* ===================================================================== *)

Module CodeMarkers.
Import Js.

(** [type CodeLanguage = 'python' | 'javascript' | 'typescript'] *)
Inductive CodeLanguage := python | javascript | typescript.

Record CodeBlockInfo := {
  cleanedCode : jsstring;
  language : CodeLanguage
}.

(** The backtick, code unit 96. *)
Definition BACKTICK : N := 96.

(** [code.match(codeBlockRegex)] : [Some] of the captured group 1 when
    the pattern matches, [None] otherwise.  The pattern is: start of
    text, a run of [\s], three backticks, a captured run of [\w], a run
    of [\s], a line feed.  It has no flag, so its anchor is the start of
    the text. *)
Definition codeBlockRegex (code : jsstring) : option jsstring :=
  re_star is_space (fun _ s1 =>
    re_char BACKTICK (re_char BACKTICK (re_char BACKTICK (fun s2 =>
      re_star is_word (fun tag s3 =>
        re_star is_space (fun _ s4 =>
          re_char LF (fun _ => Some tag) s4) [] s3) [] s2))) s1) [] code.

Definition main_guard : jsstring :=
  lit "if __name__ == " ++ dquote ++ lit "__main__" ++ dquote.

Definition detectLanguageFromContent (content : jsstring) : CodeLanguage :=
  if includes content (lit "def ")
     || includes content (lit "import ")
     || includes content (lit "print(")
     || includes content main_guard
  then python
  else if includes content (lit ": string")
     || includes content (lit ": number")
     || includes content (lit ": boolean")
     || includes content (lit "interface ")
     || includes content (lit "type ")
     || (includes content (lit "<")
         && includes content (lit ">")
         && includes content (lit "extends"))
  then typescript
  else javascript.

(** [a === b] on strings. *)
Definition jsstring_eqb (a b : jsstring) : bool := bool_decide (a = b).

Definition parseCodeBlockMarkers (code : jsstring) : CodeBlockInfo :=
  match codeBlockRegex code with
  | Some group1 =>
      let langTag := trim (toLowerCase group1) in
      let cleanedCode := join [LF] (slice 1 (-1) (split_lines code)) in
      if jsstring_eqb langTag (lit "python") || jsstring_eqb langTag (lit "py")
      then {| cleanedCode := cleanedCode; language := python |}
      else if jsstring_eqb langTag (lit "typescript")
              || jsstring_eqb langTag (lit "ts")
      then {| cleanedCode := cleanedCode; language := typescript |}
      else if jsstring_eqb langTag (lit "javascript")
              || jsstring_eqb langTag (lit "js")
      then {| cleanedCode := cleanedCode; language := javascript |}
      else {| cleanedCode := cleanedCode;
              language := detectLanguageFromContent cleanedCode |}
  | None =>
      {| cleanedCode := code; language := detectLanguageFromContent code |}
  end.

End CodeMarkers.

(* ===================================================================== *)
(** * Effects: a state and exception monad *)
(* ===================================================================== *)

Module Eff.
Import Js.

(** A thrown value.  What the WebContainer API, the module loader and
    Pyodide throw are [Error] instances; the handlers of the source read
    their [message]. *)
Record Error := { message : jsstring }.

Inductive Result (A : Type) :=
| Ok (a : A)
| Throw (e : Error).
Arguments Ok {A} a.
Arguments Throw {A} e.

(** A computation over a mutable state [S] that returns or throws. *)
Definition M (S A : Type) : Type := S -> Result A * S.

Definition ret {S A} (a : A) : M S A := fun s => (Ok a, s).

Definition throw {S A} (e : Error) : M S A := fun s => (Throw e, s).

Definition bind {S A B} (c : M S A) (k : A -> M S B) : M S B :=
  fun s =>
    match c s with
    | (Ok a, s') => k a s'
    | (Throw e, s') => (Throw e, s')
    end.

(** [try { c } catch (err) { h err }] *)
Definition try_catch {S A} (c : M S A) (h : Error -> M S A) : M S A :=
  fun s =>
    match c s with
    | (Ok a, s') => (Ok a, s')
    | (Throw e, s') => h e s'
    end.

Definition get {S} : M S S := fun s => (Ok s, s).

Definition modify {S} (f : S -> S) : M S unit := fun s => (Ok tt, f s).

(** [await] of an operation whose outcome the environment decides. *)
Definition await {S A} (r : Result A) : M S A := fun s => (r, s).

(** A computation on a part of the state. *)
Definition zoom {S T A} (proj : S -> T) (upd : T -> S -> S) (c : M T A)
    : M S A :=
  fun s => let '(r, t) := c (proj s) in (r, upd t s).

(** [promise.catch(() => {})] *)
Definition ignore_rejection {S} (c : M S unit) : M S unit :=
  try_catch c (fun _ => ret tt).

End Eff.

(** Notation for sequencing: [do x <- c ;; k] and [run c ;; k]. *)
Module EffNotations.
Declare Scope eff_scope.
Delimit Scope eff_scope with eff.
Notation "'do' x <- c ;; k" := (Eff.bind c (fun x => k))
  (at level 10, x name, c at level 99, k at level 200) : eff_scope.
Notation "'run' c ;; k" := (Eff.bind c (fun _ => k))
  (at level 10, c at level 99, k at level 200) : eff_scope.
End EffNotations.

(* ===================================================================== *)
(** * The script sandbox (lib/webcontainer/provider.tsx) *)
(* ===================================================================== *)

Module Provider.
Import Js Eff EffNotations.
Local Open Scope eff_scope.

(** ** The memoized sandbox instance *)

(** Promise objects are told apart by their identity. *)
Definition promise : Type := nat.

Inductive PromiseState := Pending | Fulfilled | Rejected.

(** The module-level variables of provider.tsx, with two counters of the
    model: the promise objects allocated and the calls of
    [WebContainer.boot] made so far. *)
Record ModuleState := {
  webcontainerInstance : option promise;
  instance_state : PromiseState;
  loaded : bool;                    (* webcontainerContext.loaded *)
  boot_calls : nat;
  next_promise : promise
}.

(** [let webcontainerInstance = null] and [loaded: false]. *)
Definition module_init : ModuleState :=
  {| webcontainerInstance := None; instance_state := Pending;
     loaded := false; boot_calls := 0%nat; next_promise := 0%nat |}.

(** [getWebContainer()].  [window_defined] is the outcome of the test
    [typeof window === 'undefined'], negated.  Without a window the
    function returns a fresh promise that never settles.  Otherwise the
    first call stores the promise [WebContainer.boot(..).then(..)] (two
    promise objects, the second one is kept) and every call returns the
    stored promise. *)
Definition getWebContainer (window_defined : bool) (st : ModuleState)
    : promise * ModuleState :=
  if negb window_defined then
    (next_promise st,
     {| webcontainerInstance := webcontainerInstance st;
        instance_state := instance_state st;
        loaded := loaded st;
        boot_calls := boot_calls st;
        next_promise := S (next_promise st) |})
  else
    match webcontainerInstance st with
    | None =>
        let chained := S (next_promise st) in
        (chained,
         {| webcontainerInstance := Some chained;
            instance_state := Pending;
            loaded := loaded st;
            boot_calls := S (boot_calls st);
            next_promise := S chained |})
    | Some p => (p, st)
    end.

(** What happens at the module between two turns of the event loop: some
    caller asks for the sandbox, or the stored promise settles (the
    callback given to [then] ran to its end and set [loaded], or the boot
    or the mount was rejected). *)
Inductive Event :=
| CallGetWebContainer
| BootSettles (ok : bool).

Definition settle (ok : bool) (st : ModuleState) : ModuleState :=
  match webcontainerInstance st, instance_state st with
  | Some _, Pending =>
      {| webcontainerInstance := webcontainerInstance st;
         instance_state := if ok then Fulfilled else Rejected;
         loaded := if ok then true else loaded st;
         boot_calls := boot_calls st;
         next_promise := next_promise st |}
  | _, _ => st
  end.

(** One event: the promise handed to the caller, if the event is a call,
    and the next state. *)
Definition step (window_defined : bool) (ev : Event) (st : ModuleState)
    : option promise * ModuleState :=
  match ev with
  | CallGetWebContainer =>
      let '(p, st') := getWebContainer window_defined st in (Some p, st')
  | BootSettles ok => (None, settle ok st)
  end.

(** A sequence of events: the promises handed out, in order, and the
    final state. *)
Fixpoint run_events (window_defined : bool) (evs : list Event)
    (st : ModuleState) : list promise * ModuleState :=
  match evs with
  | [] => ([], st)
  | ev :: evs' =>
      let '(r, st') := step window_defined ev st in
      let '(ps, st'') := run_events window_defined evs' st' in
      (match r with Some p => p :: ps | None => ps end, st'')
  end.

(** ** The sandbox as the runs see it *)

(** The file system of the sandbox: path to contents. *)
Abbreviation FS := (gmap (list N) (list N)).

(** A spawned process when its [exit] promise resolves: the chunks its
    output stream has written to the sink so far, and the exit code. *)
Record Process := {
  output_chunks : list jsstring;
  exit : Z
}.

(** What one run cannot decide itself: how the stored boot promise
    settles, the reading of the clock, and what a spawned program does
    (its outcome and the files it leaves).  A run that waits for a promise
    that never settles has no result and is not described. *)
Record Sandbox := {
  boot : Result unit;
  Date_now : N;
  spawn : jsstring -> list jsstring -> list (jsstring * jsstring) -> FS ->
          Result Process * FS
}.

Definition ENOENT : Error :=
  {| message := lit "ENOENT: no such file or directory" |}.

(** [webcontainer.fs.writeFile(path, contents)] : the runs write into the
    working directory of the sandbox, where writing succeeds. *)
Definition fs_writeFile (path contents : jsstring) : M FS unit :=
  modify (fun fs : FS => <[path := contents]> fs).

(** [webcontainer.fs.readFile(path)] : rejected when there is no file. *)
Definition fs_readFile (path : jsstring) : M FS jsstring :=
  fun fs : FS =>
    match fs !! path with
    | Some contents => (Ok contents, fs)
    | None => (Throw ENOENT, fs)
    end.

(** [webcontainer.fs.rm(path)] : rejected when there is no file. *)
Definition fs_rm (path : jsstring) : M FS unit :=
  fun fs : FS =>
    match fs !! path with
    | Some _ => (Ok tt, delete path fs)
    | None => (Throw ENOENT, fs)
    end.

(** [webcontainer.spawn(command, args, { env })] followed by
    [await process.exit]. *)
Definition spawn_and_wait (sb : Sandbox) (command : jsstring)
    (args : list jsstring) (env : list (jsstring * jsstring))
    : M FS Process :=
  fun fs : FS => spawn sb command args env fs.

(** The result object of the two executors:
    [{ output: string; error?: string }]. *)
Record ExecResult := {
  output : jsstring;
  error : option jsstring
}.

Definition quoted (s : string) : jsstring := dquote ++ lit s ++ dquote.

(** [JSON.stringify(tsconfig)] for the object literal of
    [compileTsWithTsc]. *)
Definition tsconfig_json : jsstring :=
  lit "{" ++ quoted "compilerOptions" ++ lit ":{"
  ++ quoted "target" ++ lit ":" ++ quoted "ES2020" ++ lit ","
  ++ quoted "module" ++ lit ":" ++ quoted "CommonJS" ++ lit ","
  ++ quoted "esModuleInterop" ++ lit ":true,"
  ++ quoted "skipLibCheck" ++ lit ":true,"
  ++ quoted "noImplicitAny" ++ lit ":false}}".

(** [tsFilename.replace(/\.ts$/, '.js')] : the pattern has no flag, so
    its [$] is the end of the text. *)
Definition replace_ts_extension (tsFilename : jsstring) : jsstring :=
  if startsWith (rev tsFilename) (rev (lit ".ts"))
  then rev (skipn 3 (rev tsFilename)) ++ lit ".js"
  else tsFilename.

Definition tsc_args (tsFilename : jsstring) : list jsstring :=
  [lit "tsc"; tsFilename; lit "--outDir"; lit "."; lit "--target";
   lit "ES2020"; lit "--module"; lit "CommonJS"; lit "--esModuleInterop";
   lit "--skipLibCheck"; lit "--noImplicitAny"; lit "false"].

(** [compileTsWithTsc(webcontainer, tsCode, tsFilename)] : the name of
    the compiled file, or [undefined].  The diagnostics of the compiler
    ([errorChunks.join('')]) go to the console only. *)
Definition compileTsWithTsc (sb : Sandbox) (tsCode tsFilename : jsstring)
    : M FS (option jsstring) :=
  try_catch
    (let jsFilename := replace_ts_extension tsFilename in
     run fs_writeFile tsFilename tsCode ;;
     run fs_writeFile (lit "tsconfig.json") tsconfig_json ;;
     do tscProcess <- spawn_and_wait sb (lit "npx") (tsc_args tsFilename) [] ;;
     let errorChunks := output_chunks tscProcess in
     let exitCode := exit tscProcess in
     if negb (exitCode =? 0)%Z then
       let errorMessage := join [] errorChunks in
       try_catch
         (run fs_readFile jsFilename ;; ret (Some jsFilename))
         (fun _ => ret None)
     else
       try_catch
         (run fs_readFile jsFilename ;; ret (Some jsFilename))
         (fun _ => ret None))
    (fun _ => ret None).

Definition node_env : list (jsstring * jsstring) :=
  [(lit "NODE_DISABLE_COLORS", lit "1")].

Definition no_output_text : jsstring :=
  lit "Code executed successfully (no output)".

(** The names of the temporary files: [`code-${timestamp}.ts`] and
    [`code-${timestamp}.js`]. *)
Definition ts_temp_filename (timestamp : N) : jsstring :=
  lit "code-" ++ number_toString timestamp ++ lit ".ts".

Definition js_temp_filename (timestamp : N) : jsstring :=
  lit "code-" ++ number_toString timestamp ++ lit ".js".

Definition compilation_failed_text : jsstring :=
  lit "TypeScript compilation failed - could not generate JavaScript file".

(** [executeTypeScript(code)] *)
Definition executeTypeScript (sb : Sandbox) (code : jsstring)
    : M FS ExecResult :=
  try_catch
    (run await (boot sb) ;;
     let timestamp := Date_now sb in
     let tsFilename := ts_temp_filename timestamp in
     do jsFilename <- compileTsWithTsc sb code tsFilename ;;
     if negb (truthy jsFilename) then
       ret {| output := []; error := Some compilation_failed_text |}
     else
       let jsFilename := default [] jsFilename in
       run try_catch (run fs_readFile jsFilename ;; ret tt)
                     (fun _ => ret tt) ;;
       do process <- spawn_and_wait sb (lit "node") [jsFilename] node_env ;;
       let outputChunks := output_chunks process in
       let exitCode := exit process in
       run ignore_rejection (fs_rm tsFilename) ;;
       run ignore_rejection (fs_rm jsFilename) ;;
       let stdout := join [] outputChunks in
       if negb (exitCode =? 0)%Z then
         ret {| output := or_else stdout [];
                error := Some (lit "Execution failed") |}
       else
         ret {| output := or_else stdout no_output_text;
                error := None |})
    (fun err => ret {| output := []; error := Some (message err) |}).

(** [executeJsCode(code)] *)
Definition executeJsCode (sb : Sandbox) (code : jsstring)
    : M FS ExecResult :=
  try_catch
    (run await (boot sb) ;;
     let timestamp := Date_now sb in
     let jsFilename := js_temp_filename timestamp in
     run fs_writeFile jsFilename code ;;
     do process <- spawn_and_wait sb (lit "node") [jsFilename] node_env ;;
     let outputChunks := output_chunks process in
     let exitCode := exit process in
     run ignore_rejection (fs_rm jsFilename) ;;
     let stdout := join [] outputChunks in
     if negb (exitCode =? 0)%Z then
       ret {| output := or_else stdout [];
              error := Some (lit "Execution failed") |}
     else
       ret {| output := or_else stdout no_output_text;
              error := None |})
    (fun err => ret {| output := []; error := Some (message err) |}).

End Provider.

(* ===================================================================== *)
(** * The run action (artifacts/code/client.tsx) *)
(* ===================================================================== *)

Module Client.
Import Js Eff EffNotations Provider.
Local Open Scope eff_scope.

(** ** Run records

    [ConsoleOutput] and [ConsoleOutputContent] are declared in
    components/console, which client.tsx imports; the fields and the
    literals below are the ones client.tsx writes. *)
Inductive ConsoleOutputStatus :=
| in_progress
| loading_packages
| completed
| failed.

(** The string literal of a status, as written in the source. *)
Definition status_literal (s : ConsoleOutputStatus) : jsstring :=
  match s with
  | in_progress => lit "in_progress"
  | loading_packages => lit "loading_packages"
  | completed => lit "completed"
  | failed => lit "failed"
  end.

Definition is_terminal (s : ConsoleOutputStatus) : bool :=
  match s with
  | completed | failed => true
  | in_progress | loading_packages => false
  end.

Inductive ContentType := text | image.

Record ConsoleOutputContent := {
  type : ContentType;
  value : jsstring
}.

Record ConsoleOutput := {
  id : jsstring;
  contents : list ConsoleOutputContent;
  status : ConsoleOutputStatus
}.

(** [interface Metadata] *)
Record Metadata := {
  outputs : list ConsoleOutput;
  language : CodeMarkers.CodeLanguage
}.

(** The two shapes of the argument of [setMetadata] in [onClick]:
    [{...metadata, outputs: [...metadata.outputs, r]}] and
    [{...metadata, outputs:
        [...metadata.outputs.filter((output) => output.id !== r.id), r]}]. *)
Inductive Updater :=
| AppendRun (r : ConsoleOutput)
| ReplaceRun (r : ConsoleOutput).

Definition updated_run (u : Updater) : ConsoleOutput :=
  match u with
  | AppendRun r | ReplaceRun r => r
  end.

Definition apply_updater (u : Updater) (metadata : Metadata) : Metadata :=
  match u with
  | AppendRun r =>
      {| outputs := outputs metadata ++ [r];
         language := language metadata |}
  | ReplaceRun r =>
      {| outputs :=
           filter (fun output => id output <> id r) (outputs metadata) ++ [r];
         language := language metadata |}
  end.

(** The metadata after a sequence of [setMetadata] calls, oldest first. *)
Definition apply_updaters (us : list Updater) (metadata : Metadata)
    : Metadata :=
  fold_left (fun m u => apply_updater u m) us metadata.

(** The record the tracker shows for a run id. *)
Definition find_run (runId : jsstring) (metadata : Metadata)
    : option ConsoleOutput :=
  List.find (fun output => bool_decide (id output = runId))
            (outputs metadata).

(** ** Output handlers of the Python path *)

Inductive Handler := basic | matplotlib.

Definition matplotlib_handler : jsstring :=
  join [LF]
    [[];
     lit "    import io";
     lit "    import base64";
     lit "    from matplotlib import pyplot as plt";
     [];
     lit "    # Clear any existing plots";
     lit "    plt.clf()";
     lit "    plt.close('all')";
     [];
     lit "    # Switch to agg backend";
     lit "    plt.switch_backend('agg')";
     [];
     lit "    def setup_matplotlib_output():";
     lit "        def custom_show():";
     lit "            if plt.gcf().get_size_inches().prod() * plt.gcf().dpi ** 2 > 25_000_000:";
     lit "                print(" ++ dquote ++ lit "Warning: Plot size too large, reducing quality" ++ dquote ++ lit ")";
     lit "                plt.gcf().set_dpi(100)";
     [];
     lit "            png_buf = io.BytesIO()";
     lit "            plt.savefig(png_buf, format='png')";
     lit "            png_buf.seek(0)";
     lit "            png_base64 = base64.b64encode(png_buf.read()).decode('utf-8')";
     lit "            print(f'data:image/png;base64,{png_base64}')";
     lit "            png_buf.close()";
     [];
     lit "            plt.clf()";
     lit "            plt.close('all')";
     [];
     lit "        plt.show = custom_show";
     lit "  "].

Definition basic_handler : jsstring :=
  join [LF]
    [[];
     lit "    # Basic output capture setup";
     lit "  "].

Definition OUTPUT_HANDLERS (h : Handler) : jsstring :=
  match h with
  | matplotlib => matplotlib_handler
  | basic => basic_handler
  end.

Definition detectRequiredHandlers (code : jsstring) : list Handler :=
  [basic] ++
  (if includes code (lit "matplotlib") || includes code (lit "plt.")
   then [matplotlib] else []).

(** ** The interpreter

    What [globalThis.loadPyodide] and the instance it returns do is the
    environment's: whether loading throws, the messages the package
    loader passes to [messageCallback] and how it ends, and, for a source
    text run after the given earlier ones, the batches written to stdout
    and how the run ends. *)
Record Pyodide := {
  loadPyodide : Result unit;
  loadPackagesFromImports : jsstring -> list jsstring * Result unit;
  runPythonAsync : list jsstring -> jsstring -> list jsstring * Result unit
}.

(** ** State of one click *)
Record ClientState := {
  outputContent : list ConsoleOutputContent;
  issued : list Updater;    (* the calls of setMetadata so far, oldest first *)
  container_fs : FS;
  py_ran : list jsstring    (* the sources the interpreter ran, oldest first *)
}.

Definition initial_state (fs : FS) : ClientState :=
  {| outputContent := []; issued := []; container_fs := fs; py_ran := [] |}.

Definition setMetadata (u : Updater) : M ClientState unit :=
  modify (fun s =>
    {| outputContent := outputContent s; issued := issued s ++ [u];
       container_fs := container_fs s; py_ran := py_ran s |}).

(** The [batched] callback given to [setStdout]. *)
Definition batched (out : jsstring) : ConsoleOutputContent :=
  {| type := if startsWith out (lit "data:image/png;base64")
             then image else text;
     value := out |}.

Definition in_sandbox {A} (c : M FS A) : M ClientState A :=
  zoom container_fs
       (fun fs s => {| outputContent := outputContent s; issued := issued s;
                       container_fs := fs; py_ran := py_ran s |})
       c.

(** [await currentPyodideInstance.runPythonAsync(src)], with the stdout
    batches it writes pushed on [outputContent]. *)
Definition run_python (py : Pyodide) (src : jsstring) : M ClientState unit :=
  fun s =>
    let '(lines, r) := runPythonAsync py (py_ran s) src in
    (r, {| outputContent := outputContent s ++ map batched lines;
           issued := issued s;
           container_fs := container_fs s;
           py_ran := py_ran s ++ [src] |}).

(** [executeJsOrTs(code, language)] ; [import_provider] is the outcome of
    the dynamic import of the provider module. *)
Definition executeJsOrTs (import_provider : Result unit) (sb : Sandbox)
    (code : jsstring) (lang : CodeMarkers.CodeLanguage)
    : M FS ExecResult :=
  try_catch
    (run await import_provider ;;
     match lang with
     | CodeMarkers.typescript => executeTypeScript sb code
     | _ => executeJsCode sb code
     end)
    (fun err => ret {| output := []; error := Some (message err) |}).

Definition loading (runId message : jsstring) : Updater :=
  ReplaceRun {| id := runId;
                contents := [{| type := text; value := message |}];
                status := loading_packages |}.

(** [await loadPackagesFromImports(content, { messageCallback })] *)
Definition load_packages (py : Pyodide) (runId content : jsstring)
    : M ClientState unit :=
  let '(messages, r) := loadPackagesFromImports py content in
  run fold_right
        (fun message rest => run setMetadata (loading runId message) ;; rest)
        (ret tt) messages ;;
  await r.

(** The loop over [requiredHandlers]. *)
Fixpoint run_handlers (py : Pyodide) (handlers : list Handler)
    : M ClientState unit :=
  match handlers with
  | [] => ret tt
  | handler :: rest =>
      run (if truthy (Some (OUTPUT_HANDLERS handler)) then
             run run_python py (OUTPUT_HANDLERS handler) ;;
             match handler with
             | matplotlib => run_python py (lit "setup_matplotlib_output()")
             | basic => ret tt
             end
           else ret tt) ;;
      run_handlers py rest
  end.

Definition no_output_value : jsstring :=
  lit "Code executed successfully with no output".

(** The script branch of the [try] block of [onClick]. *)
Definition script_branch (import_provider : Result unit) (sb : Sandbox)
    (runId cleanedCode : jsstring) (lang : CodeMarkers.CodeLanguage)
    : M ClientState unit :=
  run setMetadata
        (loading runId (lit "Running JavaScript in WebContainer...")) ;;
  run setMetadata
        (loading runId
           (lit "Running "
            ++ match lang with
               | CodeMarkers.typescript => lit "TypeScript"
               | _ => lit "JavaScript"
               end
            ++ lit " code...")) ;;
  do result <- in_sandbox
                 (executeJsOrTs import_provider sb cleanedCode lang) ;;
  let success := negb (truthy (error result)) in
  setMetadata
    (ReplaceRun
       {| id := runId;
          contents :=
            [{| type := text;
                value :=
                  if truthy (error result)
                  then lit "Error: " ++ default [] (error result)
                  else or_else (output result) no_output_value |}];
          status := if success then completed else failed |}).

(** The Python branch up to the end of the user's code: loading the
    interpreter, the packages, the output handlers, then the code. *)
Definition python_execute (py : Pyodide) (runId content cleanedCode : jsstring)
    : M ClientState unit :=
  run await (loadPyodide py) ;;
  run load_packages py runId content ;;
  run run_handlers py (detectRequiredHandlers content) ;;
  run_python py cleanedCode.

(** The Python branch of the [try] block of [onClick]. *)
Definition python_branch (py : Pyodide) (runId content cleanedCode : jsstring)
    : M ClientState unit :=
  run python_execute py runId content cleanedCode ;;
  do s <- get ;;
  setMetadata
    (ReplaceRun {| id := runId;
                   contents := outputContent s;
                   status := completed |}).

(** The [onClick] handler of the Run action.  [runId] is the value of
    [generateUUID()]. *)
Definition onClick (import_provider : Result unit) (sb : Sandbox)
    (py : Pyodide) (runId content : jsstring) : M ClientState unit :=
  let info := CodeMarkers.parseCodeBlockMarkers content in
  let cleanedCode := CodeMarkers.cleanedCode info in
  let lang := CodeMarkers.language info in
  run setMetadata
        (AppendRun {| id := runId; contents := []; status := in_progress |}) ;;
  try_catch
    (match lang with
     | CodeMarkers.javascript | CodeMarkers.typescript =>
         script_branch import_provider sb runId cleanedCode lang
     | CodeMarkers.python =>
         python_branch py runId content cleanedCode
     end)
    (fun error =>
       setMetadata
         (ReplaceRun {| id := runId;
                        contents := [{| type := text; value := message error |}];
                        status := failed |})).

(** The state when the handler of one click has run to its end. *)
Definition click (import_provider : Result unit) (sb : Sandbox)
    (py : Pyodide) (runId content : jsstring) (fs : FS) : ClientState :=
  snd (onClick import_provider sb py runId content (initial_state fs)).

(** The calls of [setMetadata] one click makes, oldest first. *)
Definition click_updaters (import_provider : Result unit) (sb : Sandbox)
    (py : Pyodide) (runId content : jsstring) (fs : FS) : list Updater :=
  issued (click import_provider sb py runId content fs).

(** The run record of one click when its handler has run to its end,
    starting from a tracker without runs. *)
Definition run_record (import_provider : Result unit) (sb : Sandbox)
    (py : Pyodide) (runId content : jsstring) (fs : FS)
    : option ConsoleOutput :=
  find_run runId
    (apply_updaters
       (click_updaters import_provider sb py runId content fs)
       {| outputs := []; language := CodeMarkers.javascript |}).

End Client.

(* ===================================================================== *)
(** * Concrete environments *)
(* ===================================================================== *)

Module Scenarios.
Import Js Eff Provider Client.

(** A sandbox that has booted, with the clock at [now].  Its compiler
    writes [diagnostics], ends with [tsc_exit] and leaves the compiled file
    when [emits] is set; its runtime writes [stdout] and ends with
    [node_exit]. *)
Definition sandbox (now : N) (diagnostics : list jsstring) (tsc_exit : Z)
    (emits : bool) (stdout : list jsstring) (node_exit : Z) : Sandbox :=
  {| boot := Ok tt;
     Date_now := now;
     spawn := fun command args env (fs : FS) =>
       if bool_decide (command = lit "npx") then
         (Ok {| output_chunks := diagnostics; exit := tsc_exit |},
          if emits
          then <[replace_ts_extension (nth 1 args []) := lit "compiled"]> fs
          else fs)
       else (Ok {| output_chunks := stdout; exit := node_exit |}, fs) |}.

(** A runtime that writes the name of the file it is given. *)
Definition echo_sandbox (now : N) : Sandbox :=
  {| boot := Ok tt;
     Date_now := now;
     spawn := fun command args env (fs : FS) =>
       (Ok {| output_chunks := args; exit := 0 |}, fs) |}.

(** An interpreter that loads, passes [messages] to the package loader's
    callback, writes [lines] when it runs [user_code] and ends that run
    with [outcome]; the other sources it runs write nothing. *)
Definition interpreter (messages : list jsstring) (user_code : jsstring)
    (lines : list jsstring) (outcome : Result unit) : Pyodide :=
  {| loadPyodide := Ok tt;
     loadPackagesFromImports := fun _ => (messages, Ok tt);
     runPythonAsync := fun _ src =>
       if bool_decide (src = user_code) then (lines, outcome)
       else ([], Ok tt) |}.

Definition no_interpreter : Pyodide :=
  {| loadPyodide := Throw {| message := lit "loadPyodide is not a function" |};
     loadPackagesFromImports := fun _ => ([], Ok tt);
     runPythonAsync := fun _ _ => ([], Ok tt) |}.

Definition dead_sandbox : Sandbox :=
  {| boot := Throw {| message := lit "Unable to boot" |};
     Date_now := 0;
     spawn := fun _ _ _ (fs : FS) => (Throw ENOENT, fs) |}.

(** A clock reading, in milliseconds. *)
Definition noon : N := 1700000000000.

Definition ts_diagnostic : jsstring :=
  lit "code-1700000000000.ts(1,5): error TS2322: Type 'string' is not assignable to type 'number'.".

Definition fenced (tag code : string) : jsstring :=
  lit "```" ++ lit tag ++ [LF] ++ lit code ++ [LF] ++ lit "```".

Definition run1 : jsstring := lit "run-1".
Definition run2 : jsstring := lit "run-2".

End Scenarios.

(* ===================================================================== *)
(** * The specification's vocabulary *)
(* ===================================================================== *)

Module SpecWords.
Import Js CodeMarkers.

(** The canonical language of a lower-case fence tag, in the words of the
    specification: [py] is python, [ts] is typescript, [js] is javascript,
    the full names stand for themselves, any other tag is unrecognized. *)
Definition spec_canonical_tag (tag : jsstring) : option CodeLanguage :=
  if bool_decide (tag = lit "py") then Some python
  else if bool_decide (tag = lit "ts") then Some typescript
  else if bool_decide (tag = lit "js") then Some javascript
  else if bool_decide (tag = lit "python") then Some python
  else if bool_decide (tag = lit "typescript") then Some typescript
  else if bool_decide (tag = lit "javascript") then Some javascript
  else None.

(** The lines strictly between the first and the last line of a text. *)
Definition spec_lines_between (code : jsstring) : list jsstring :=
  removelast (tl (split_lines code)).

(** A character of a fence line around the marker: white space, but not
    the line feed that ends the line. *)
Definition inline_space (c : N) : Prop := is_space c = true /\ c <> LF.

(** The three backticks of a fence. *)
Definition fence : jsstring := [BACKTICK; BACKTICK; BACKTICK].

(** [needle] occurs in [s]. *)
Definition contains (s needle : jsstring) : Prop :=
  exists before after, s = before ++ needle ++ after.

(** Rule (1) of the content heuristics. *)
Definition python_marks (content : jsstring) : Prop :=
  contains content (lit "def ") \/ contains content (lit "import ")
  \/ contains content (lit "print(") \/ contains content main_guard.

(** Rule (2) of the content heuristics. *)
Definition typescript_marks (content : jsstring) : Prop :=
  contains content (lit ": string") \/ contains content (lit ": number")
  \/ contains content (lit ": boolean") \/ contains content (lit "interface ")
  \/ contains content (lit "type ")
  \/ (contains content (lit "<") /\ contains content (lit ">")
      /\ contains content (lit "extends")).

End SpecWords.

(* ===================================================================== *)
(** * Definitions for the analysis *)
(* ===================================================================== *)

Module Analysis.
Import Js Eff Provider Client.

(** What both executors return once the runtime has ended (the last lines
    of [executeJsCode] and of [executeTypeScript]). *)
Definition exit_result (process : Process) : ExecResult :=
  let stdout := join [] (output_chunks process) in
  if negb (exit process =? 0)%Z
  then {| output := stdout; error := Some (lit "Execution failed") |}
  else {| output := or_else stdout no_output_text; error := None |}.

(** What [executeTypeScript] returns when there is no compiled file. *)
Definition compilation_failed : ExecResult :=
  {| output := []; error := Some compilation_failed_text |}.

(** The same sandbox, except that its compiler always ends with exit
    code 0. *)
Definition with_compiler_exit_zero (sb : Sandbox) : Sandbox :=
  {| boot := boot sb;
     Date_now := Date_now sb;
     spawn := fun command args env (fs : FS) =>
       match spawn sb command args env fs with
       | (Ok p, fs') =>
           if bool_decide (command = lit "npx")
           then (Ok {| output_chunks := output_chunks p; exit := 0 |}, fs')
           else (Ok p, fs')
       | (Throw e, fs') => (Throw e, fs')
       end |}.

(** The text event of a terminal record of a script run. *)
Definition script_terminal (runId : jsstring) (result : ExecResult)
    : ConsoleOutput :=
  {| id := runId;
     contents :=
       [{| type := text;
           value := if truthy (error result)
                    then lit "Error: " ++ default [] (error result)
                    else or_else (output result) no_output_value |}];
     status := if negb (truthy (error result)) then completed else failed |}.

(** The statuses of the records a list of updaters writes. *)
Definition statuses (us : list Updater) : list ConsoleOutputStatus :=
  map (fun u => status (updated_run u)) us.

(** The updaters of a trace that write the record of one run. *)
Definition own_updaters (runId : jsstring) (trace : list Updater)
    : list Updater :=
  filter (fun u => id (updated_run u) = runId) trace.

(** The record of a run is first appended, then only replaced. *)
Definition appended_then_replaced (us : list Updater) : Prop :=
  match us with
  | [] => True
  | AppendRun _ :: rest =>
      Forall (fun u => match u with ReplaceRun _ => True | AppendRun _ => False end)
             rest
  | ReplaceRun _ :: _ => False
  end.

(** The first call of [setMetadata] in [onClick]. *)
Definition run_appended (runId : jsstring) : Updater :=
  AppendRun {| id := runId; contents := []; status := in_progress |}.

(** The calls of [setMetadata] of one run, in the order [onClick] makes
    them: the record is appended, progress records replace it, and one
    terminal record ends the sequence. *)
Definition run_shape (runId : jsstring) (progress : list jsstring)
    (final : ConsoleOutput) : list Updater :=
  run_appended runId :: map (loading runId) progress ++ [ReplaceRun final].

(** The state of a click when its [try] block begins. *)
Definition try_begins (runId : jsstring) (fs : FS) : ClientState :=
  {| outputContent := []; issued := [run_appended runId];
     container_fs := fs; py_ran := [] |}.

(** The record the Python branch ends with: on return from the [try]
    block, or from the [catch] block after a thrown [e]. *)
Definition python_terminal (runId : jsstring) (r : Result unit)
    (s : ClientState) : ConsoleOutput :=
  match r with
  | Ok _ => {| id := runId; contents := outputContent s; status := completed |}
  | Throw e =>
      {| id := runId;
         contents := [{| type := text; value := message e |}];
         status := failed |}
  end.

(** The two progress messages of a script run. *)
Definition script_progress (runId : jsstring) (lang : CodeMarkers.CodeLanguage)
    : list Updater :=
  [loading runId (lit "Running JavaScript in WebContainer...");
   loading runId
     (lit "Running "
      ++ match lang with
         | CodeMarkers.typescript => lit "TypeScript"
         | _ => lit "JavaScript"
         end
      ++ lit " code...")].

(** The status names the specification lists for a run record. *)
Definition spec_status_names : list jsstring :=
  [lit "queued"; lit "loading_packages"; lit "completed"; lit "failed"].

End Analysis.

(* ===================================================================== *)
(** * The editor's own detector (components/code-editor.tsx) *)
(* ===================================================================== *)

Module Editor.
Import Js CodeMarkers.

(** [detectLanguage(content)] *)
Definition detectLanguage (content : jsstring) : CodeLanguage :=
  if includes content (lit "def ")
     || includes content (lit "import ")
     || includes content (lit "print(")
  then python
  else if includes content (lit ": ")
     || includes content (lit "interface ")
     || (includes content (lit "<") && includes content (lit ">"))
  then typescript
  else javascript.

(** [language || detectLanguage(content)] : the [language] property is a
    language name or [undefined]. *)
Definition detectedLanguage (language : option CodeLanguage)
    (content : jsstring) : CodeLanguage :=
  match language with
  | Some l => l
  | None => detectLanguage content
  end.

End Editor.

(* ===================================================================== *)
(** * Booting the sandbox (the callback of getWebContainer) *)
(* ===================================================================== *)

Module Boot.
Import Js Eff EffNotations Provider.
Local Open Scope eff_scope.

(** The sandbox that [WebContainer.boot] resolved to, and the flag
    [webcontainerContext.loaded]. *)
Record BootState := {
  boot_fs : FS;
  context_loaded : bool
}.

Definition on_fs {A} (c : M FS A) : M BootState A :=
  zoom boot_fs
       (fun fs s => {| boot_fs := fs; context_loaded := context_loaded s |})
       c.

Definition npm_install_args : list jsstring :=
  [lit "install"; lit "typescript"; lit "ts-node"; lit "--no-package-lock"].

(** The callback given to [then] in [getWebContainer].  [mount] is what
    [webcontainer.mount(DEFAULT_NODE_MODULES)] does to the file system and
    how it ends.  The callback logs the outcome of the installation and
    goes on in every case. *)
Definition provision (mount : M FS unit) (sb : Sandbox) : M BootState unit :=
  run on_fs mount ;;
  run try_catch
        (do installProcess <-
            on_fs (spawn_and_wait sb (lit "npm") npm_install_args []) ;;
         let installExitCode := exit installProcess in
         if negb (installExitCode =? 0)%Z then ret tt else ret tt)
        (fun _ => ret tt) ;;
  modify (fun s => {| boot_fs := boot_fs s; context_loaded := true |}).

End Boot.

(* ===================================================================== *)
(** * Streaming into the artifact and clearing the console
      (artifacts/code/client.tsx) *)
(* ===================================================================== *)

Module Artifact.
Import Js CodeMarkers.

Inductive ArtifactStatus := streaming | idle.

(** The fields of the artifact that [onStreamPart] reads or writes; the
    others are carried over by the spread of [draftArtifact]. *)
Record UIArtifact := {
  content : jsstring;
  isVisible : bool;
  status : ArtifactStatus
}.

Record StreamPart := {
  part_type : jsstring;      (* streamPart.type *)
  part_content : jsstring    (* streamPart.content *)
}.

Definition is_streaming (st : ArtifactStatus) : bool :=
  match st with
  | streaming => true
  | idle => false
  end.

(** [onStreamPart] : the two updaters it passes to [setArtifact] and to
    [setMetadata], applied to the current artifact and metadata. *)
Definition onStreamPart (streamPart : StreamPart)
    (draftArtifact : UIArtifact) (metadata : Client.Metadata)
    : UIArtifact * Client.Metadata :=
  if jsstring_eqb (part_type streamPart) (lit "code-delta") then
    let rawContent := part_content streamPart in
    let info := parseCodeBlockMarkers rawContent in
    ({| content := cleanedCode info;
        isVisible :=
          if is_streaming (status draftArtifact)
             && (300 <? length (cleanedCode info))%nat
             && (length (cleanedCode info) <? 310)%nat
          then true
          else isVisible draftArtifact;
        status := streaming |},
     {| Client.outputs := Client.outputs metadata;
        Client.language := language info |})
  else (draftArtifact, metadata).

(** A sequence of stream parts, oldest first. *)
Definition stream (parts : list StreamPart) (draftArtifact : UIArtifact)
    (metadata : Client.Metadata) : UIArtifact * Client.Metadata :=
  fold_left (fun am streamPart => onStreamPart streamPart (fst am) (snd am))
            parts (draftArtifact, metadata).

(** The name of a language, as the source writes it. *)
Definition language_literal (l : CodeLanguage) : jsstring :=
  match l with
  | python => lit "python"
  | javascript => lit "javascript"
  | typescript => lit "typescript"
  end.

(** [names.includes(name)] on an array of strings. *)
Definition array_includes (names : list jsstring) (name : jsstring) : bool :=
  existsb (jsstring_eqb name) names.

(** [description] of the Run action. *)
Definition run_description (content : jsstring) : jsstring :=
  let language := language_literal (language (parseCodeBlockMarkers content)) in
  if jsstring_eqb language (lit "python") then lit "Execute Python code"
  else if jsstring_eqb language (lit "javascript")
  then lit "Execute JavaScript code"
  else if jsstring_eqb language (lit "typescript")
  then lit "Execute TypeScript code"
  else lit "Execute code".

(** [isDisabled] of the Run action. *)
Definition run_isDisabled (content : jsstring) : bool :=
  let language := language_literal (language (parseCodeBlockMarkers content)) in
  negb (array_includes [lit "python"; lit "javascript"; lit "typescript"]
                       language).

(** The callback [setConsoleOutputs] given to the console:
    [setMetadata({...metadata, outputs: []})], where [metadata] is the one
    the component was rendered with. *)
Definition clear_console (rendered : Client.Metadata) : Client.Metadata :=
  {| Client.outputs := []; Client.language := Client.language rendered |}.

End Artifact.

(* ===================================================================== *)
(** * More definitions for the analysis *)
(* ===================================================================== *)

Module Observations.
Import Js Eff Provider Client.

(** [name] ends with [suffix]. *)
Definition ends_with (name suffix : jsstring) : Prop :=
  exists stem, name = stem ++ suffix.

(** The sources the handler loop gives to the interpreter, in order. *)
Definition handler_sources (handlers : list Handler) : list jsstring :=
  concat (map (fun h =>
                 OUTPUT_HANDLERS h ::
                 match h with
                 | matplotlib => [lit "setup_matplotlib_output()"]
                 | basic => []
                 end) handlers).

(** The ids of the records in the tracker. *)
Definition run_ids (m : Metadata) : list jsstring := map id (outputs m).

(** An updater is a replacement. *)
Definition is_replace (u : Updater) : Prop :=
  match u with
  | ReplaceRun _ => True
  | AppendRun _ => False
  end.

(** A tracker without runs. *)
Definition no_runs : Metadata :=
  {| outputs := []; language := CodeMarkers.javascript |}.

(** An event is an image exactly when its value begins with the prefix of
    a PNG data URI. *)
Definition well_typed_event (c : ConsoleOutputContent) : Prop :=
  type c = if startsWith (value c) (lit "data:image/png;base64")
           then image else text.

(** What a computation of the Python branch may do to the state: run more
    sources, drawn in order from [todo], and append events that are
    well typed. *)
Definition advances (todo : list jsstring) (s s' : ClientState) : Prop :=
  (exists done, py_ran s' = py_ran s ++ done /\ exists rest, todo = done ++ rest)
  /\ (Forall well_typed_event (outputContent s) ->
      Forall well_typed_event (outputContent s')).

(** The messages a script run shows while it is in progress. *)
Definition script_messages (lang : CodeMarkers.CodeLanguage) : list jsstring :=
  [lit "Running JavaScript in WebContainer...";
   lit "Running "
   ++ match lang with
      | CodeMarkers.typescript => lit "TypeScript"
      | _ => lit "JavaScript"
      end
   ++ lit " code..."].

(** The messages the package loader passes to [messageCallback] in a
    Python run: those of [loadPackagesFromImports], or none when the
    interpreter could not be loaded and the loader is never called. *)
Definition python_messages (py : Pyodide) (content : jsstring)
    : list jsstring :=
  match loadPyodide py with
  | Ok _ => fst (loadPackagesFromImports py content)
  | Throw _ => []
  end.

(** The batches the interpreter writes to stdout when it is given the
    sources one after the other, [history] being what it ran before. *)
Fixpoint stdout_of (py : Pyodide) (history sources : list jsstring)
    : list jsstring :=
  match sources with
  | [] => []
  | src :: rest =>
      fst (runPythonAsync py history src)
      ++ stdout_of py (history ++ [src]) rest
  end.

End Observations.

(* ===================================================================== *)
(** * Properties *)
(* ===================================================================== *)

Import Js CodeMarkers SpecWords Analysis.

(** ** The definitions on concrete inputs *)

Example slice_examples :
  slice 1 (-1) [1; 2; 3; 4]%nat = [2; 3]%nat
  /\ slice 1 (-1) [1]%nat = []
  /\ slice (-2) 10 [1; 2; 3; 4]%nat = [3; 4]%nat
  /\ slice 0 2 [1; 2; 3; 4]%nat = [1; 2]%nat.
Proof. repeat split. Qed.

Example split_lines_examples :
  split_lines [] = [[]]
  /\ split_lines (lit "a" ++ [LF] ++ lit "b" ++ [LF]) = [lit "a"; lit "b"; []]
  /\ join [LF] [lit "a"; lit "b"; []] = lit "a" ++ [LF] ++ lit "b" ++ [LF].
Proof. repeat split. Qed.

Example codeBlockRegex_examples :
  codeBlockRegex (lit "```python" ++ [LF] ++ lit "x = 1") = Some (lit "python")
  /\ codeBlockRegex (lit "```" ++ [LF] ++ lit "x = 1") = Some []
  /\ codeBlockRegex (lit "```python") = None
  /\ codeBlockRegex (lit "```py  " ++ [LF; LF] ++ lit "  x") = Some (lit "py")
  /\ codeBlockRegex (lit "```python title" ++ [LF]) = None
  /\ codeBlockRegex ([LF] ++ lit " ```TS" ++ [LF]) = Some (lit "TS")
  /\ codeBlockRegex (lit "x = 1" ++ [LF] ++ lit "```js" ++ [LF]) = None.
Proof. repeat split. Qed.

Example temp_filename_examples :
  Provider.ts_temp_filename 1700000000000 = lit "code-1700000000000.ts"
  /\ Provider.js_temp_filename 0 = lit "code-0.js"
  /\ Provider.replace_ts_extension (lit "a.ts.ts") = lit "a.ts.js"
  /\ Provider.replace_ts_extension (lit "a.tsx") = lit "a.tsx".
Proof. repeat split. Qed.

(** ** Strings, lines and slices *)

Section Lines.

Lemma split_lines_nonempty (s : jsstring) : split_lines s <> [].
Proof.
  destruct s as [|c s]; simpl; [discriminate|].
  destruct (c =? LF); [discriminate|].
  destruct (split_lines s); discriminate.
Qed.

(** A line without line feed in front of a line feed is the first line. *)
Lemma split_lines_first (l rest : jsstring) :
  Forall (fun c => c <> LF) l ->
  split_lines (l ++ LF :: rest) = l :: split_lines rest.
Proof.
  induction 1 as [|c l Hc Hl IH]; simpl.
  - reflexivity.
  - destruct (N.eqb_spec c LF) as [->|_]; [congruence|].
    rewrite IH. reflexivity.
Qed.

Lemma split_lines_single (l : jsstring) :
  Forall (fun c => c <> LF) l -> split_lines l = [l].
Proof.
  induction 1 as [|c l Hc Hl IH]; simpl.
  - reflexivity.
  - destruct (N.eqb_spec c LF) as [->|_]; [congruence|].
    rewrite IH. reflexivity.
Qed.

(** A line without line feed behind a line feed is the last line. *)
Lemma split_lines_last (body l : jsstring) :
  Forall (fun c => c <> LF) l ->
  split_lines (body ++ LF :: l) = split_lines body ++ [l].
Proof.
  intros Hl. induction body as [|c body IH]; simpl.
  - rewrite (split_lines_single l Hl). reflexivity.
  - destruct (c =? LF).
    + rewrite IH. reflexivity.
    + rewrite IH. destruct (split_lines body) eqn:E.
      * exfalso. exact (split_lines_nonempty body E).
      * reflexivity.
Qed.

(** Joining the lines of a text with line feeds gives the text back. *)
Lemma join_split_lines (s : jsstring) : join [LF] (split_lines s) = s.
Proof.
  induction s as [|c s IH]; simpl.
  - reflexivity.
  - destruct (N.eqb_spec c LF) as [->|_].
    + destruct (split_lines s) eqn:E.
      * exfalso. exact (split_lines_nonempty s E).
      * simpl in *. rewrite IH. reflexivity.
    + destruct (split_lines s) as [|l ls] eqn:E.
      * exfalso. exact (split_lines_nonempty s E).
      * destruct ls; simpl in *; rewrite <- IH; reflexivity.
Qed.

(** [slice(1, -1)] drops the first and the last element. *)
Lemma slice_1_m1 {A} (l : list A) : slice 1 (-1) l = removelast (tl l).
Proof.
  unfold slice.
  change (1 <? 0)%Z with false. change (-1 <? 0)%Z with true. cbv iota.
  destruct l as [|a l]; [reflexivity|].
  cbn [length tl].
  assert (H1 : Z.to_nat (Z.min 1 (Z.of_nat (S (length l)))) = 1%nat) by lia.
  assert (H2 : Z.to_nat (Z.max (Z.of_nat (S (length l)) + -1) 0
                         - Z.min 1 (Z.of_nat (S (length l))))
               = Nat.pred (length l)) by lia.
  rewrite H1, H2. change (skipn 1 (a :: l)) with l. clear.
  induction l as [|a l IH]; [reflexivity|].
  destruct l as [|b l]; [reflexivity|].
  cbn [length Nat.pred firstn removelast] in *. f_equal. exact IH.
Qed.

End Lines.

(** ** Substrings *)

Lemma startsWith_spec (s prefix : jsstring) :
  startsWith s prefix = true <-> exists rest, s = prefix ++ rest.
Proof.
  revert s. induction prefix as [|p prefix IH]; intros s; simpl.
  - split; [intros _; exists s; reflexivity | reflexivity].
  - destruct s as [|c s].
    + split; [discriminate | intros [rest H]; discriminate].
    + rewrite andb_true_iff, IH, N.eqb_eq. split.
      * intros [-> [rest ->]]. exists rest. reflexivity.
      * intros [rest H]. injection H as -> ->. split; [reflexivity | eauto].
Qed.

Lemma includes_spec (s needle : jsstring) :
  includes s needle = true <-> contains s needle.
Proof.
  unfold contains. induction s as [|c s IH]; simpl.
  - rewrite orb_false_r, startsWith_spec. split.
    + intros [rest H]. exists [], rest. exact H.
    + intros [before [after H]]. destruct before; [eauto | discriminate].
  - rewrite orb_true_iff, IH, startsWith_spec. split.
    + intros [[rest H] | [before [after H]]].
      * exists [], rest. exact H.
      * exists (c :: before), after. rewrite H. reflexivity.
    + intros [[|b before] [after H]].
      * left. exists after. exact H.
      * right. injection H as -> ->. eauto.
Qed.

Lemma includes_false (s needle : jsstring) :
  includes s needle = false <-> ~ contains s needle.
Proof.
  rewrite <- includes_spec. destruct (includes s needle); split; congruence.
Qed.

(** ** The fence pattern *)

Section Regex.
Context {R : Type}.
Implicit Types (cls : N -> bool) (k : jsstring -> jsstring -> option R).

(** The longest run is tried first: when the rest of the pattern accepts
    it, that is the match. *)
Lemma re_star_longest cls k taken run rest x :
  Forall (fun c => cls c = true) run ->
  stops cls rest ->
  k (taken ++ run) rest = Some x ->
  re_star cls k taken (run ++ rest) = Some x.
Proof.
  intros Hrun Hstop. revert taken.
  induction Hrun as [|c run Hc Hrun IH]; intros taken Hk.
  - rewrite app_nil_r in Hk. simpl.
    destruct rest as [|c rest]; simpl in *; [exact Hk|].
    rewrite Hstop. exact Hk.
  - simpl. rewrite Hc. rewrite IH; [reflexivity|].
    rewrite <- app_assoc. exact Hk.
Qed.

(** A match of a star is a match of the rest of the pattern after some run
    of the class. *)
Lemma re_star_inv cls k taken s x :
  re_star cls k taken s = Some x ->
  exists run rest,
    s = run ++ rest /\ Forall (fun c => cls c = true) run /\
    k (taken ++ run) rest = Some x.
Proof.
  revert taken. induction s as [|c s IH]; intros taken; simpl.
  - intros H. exists [], []. rewrite (app_nil_r taken). auto.
  - destruct (cls c) eqn:Hc.
    + destruct (re_star cls k (taken ++ [c]) s) as [y|] eqn:E.
      * intros [= ->]. destruct (IH _ E) as (run & rest & -> & Hrun & Hk).
        exists (c :: run), rest. rewrite <- app_assoc in Hk.
        split; [reflexivity|]. split; [constructor; assumption | exact Hk].
      * intros H. exists [], (c :: s). rewrite (app_nil_r taken). auto.
    + intros H. exists [], (c :: s). rewrite (app_nil_r taken). auto.
Qed.

(** When the rest of the pattern can only answer [x], any run it accepts
    makes the star answer [x]. *)
Lemma re_star_any cls k taken run rest x :
  Forall (fun c => cls c = true) run ->
  (forall t r y, k t r = Some y -> y = x) ->
  k (taken ++ run) rest = Some x ->
  re_star cls k taken (run ++ rest) = Some x.
Proof.
  intros Hrun Hx. revert taken.
  induction Hrun as [|c run Hc Hrun IH]; intros taken Hk.
  - rewrite app_nil_r in Hk. simpl.
    destruct rest as [|c rest]; simpl; [exact Hk|].
    destruct (cls c); [|exact Hk].
    destruct (re_star cls k (taken ++ [c]) rest) as [y|] eqn:E; [|exact Hk].
    destruct (re_star_inv _ _ _ _ _ E) as (r1 & r2 & _ & _ & Hy).
    f_equal. exact (Hx _ _ _ Hy).
  - simpl. rewrite Hc. rewrite IH; [reflexivity|].
    rewrite <- app_assoc. exact Hk.
Qed.

End Regex.

Lemma is_space_not_word (c : N) : is_space c = true -> is_word c = false.
Proof.
  unfold is_space, is_word. intros H.
  repeat rewrite orb_true_iff in H. repeat rewrite andb_true_iff in H.
  repeat rewrite N.leb_le in H. repeat rewrite N.eqb_eq in H.
  repeat rewrite orb_false_iff. repeat rewrite andb_false_iff.
  repeat rewrite N.leb_gt. repeat rewrite N.eqb_neq. lia.
Qed.

Lemma is_space_LF : is_space LF = true.
Proof. reflexivity. Qed.

Lemma inline_space_is_space (ws : jsstring) :
  Forall inline_space ws -> Forall (fun c => is_space c = true) ws.
Proof. apply List.Forall_impl. intros c [H _]. exact H. Qed.

Lemma inline_space_no_LF (ws : jsstring) :
  Forall inline_space ws -> Forall (fun c => c <> LF) ws.
Proof. apply List.Forall_impl. intros c [_ H]. exact H. Qed.

Lemma is_word_no_LF (tag : jsstring) :
  Forall (fun c => is_word c = true) tag -> Forall (fun c => c <> LF) tag.
Proof. apply List.Forall_impl. intros c H ->. discriminate. Qed.

(** The pattern matches a text that begins with white space, the three
    backticks, a run of word characters, white space and a line feed; the
    group is the run of word characters. *)
Lemma codeBlockRegex_matches (ws tag ws' rest : jsstring) :
  Forall (fun c => is_space c = true) ws ->
  Forall (fun c => is_word c = true) tag ->
  Forall (fun c => is_space c = true) ws' ->
  codeBlockRegex (ws ++ fence ++ tag ++ ws' ++ LF :: rest) = Some tag.
Proof.
  intros Hws Htag Hws'. unfold codeBlockRegex.
  apply re_star_longest; [exact Hws | reflexivity |].
  cbn [fence app re_char]. rewrite !N.eqb_refl.
  apply re_star_longest; [exact Htag | |].
  - destruct ws' as [|c ws']; [reflexivity|].
    simpl. apply is_space_not_word. inversion Hws'; assumption.
  - apply re_star_any; [exact Hws' | |].
    + intros t r y. destruct r as [|c r]; simpl; [discriminate|].
      destruct (c =? LF); congruence.
    + simpl. reflexivity.
Qed.

(** Conversely a match comes from such a text. *)
Lemma codeBlockRegex_inv (code tag : jsstring) :
  codeBlockRegex code = Some tag ->
  exists ws ws' rest,
    Forall (fun c => is_space c = true) ws /\
    Forall (fun c => is_word c = true) tag /\
    Forall (fun c => is_space c = true) ws' /\
    code = ws ++ fence ++ tag ++ ws' ++ LF :: rest.
Proof.
  unfold codeBlockRegex. intros H.
  apply re_star_inv in H as (ws & r1 & -> & Hws & H).
  destruct r1 as [|b1 [|b2 [|b3 r1]]]; simpl in H; try discriminate;
    try (destruct (b1 =? BACKTICK); discriminate);
    try (destruct (b1 =? BACKTICK); destruct (b2 =? BACKTICK); discriminate).
  destruct (N.eqb_spec b1 BACKTICK) as [->|]; [|discriminate].
  destruct (N.eqb_spec b2 BACKTICK) as [->|]; [|discriminate].
  destruct (N.eqb_spec b3 BACKTICK) as [->|]; [|discriminate].
  apply re_star_inv in H as (tag' & r2 & -> & Htag & H).
  apply re_star_inv in H as (ws' & r3 & -> & Hws' & H).
  destruct r3 as [|c rest]; simpl in H; [discriminate|].
  destruct (N.eqb_spec c LF) as [->|]; [|discriminate].
  injection H as <-. simpl in Htag.
  exists ws, ws', rest. auto.
Qed.

(** ** The classifier *)

Lemma trimStart_word (s : jsstring) :
  Forall (fun c => is_word c = true) s -> trimStart s = s.
Proof.
  destruct 1 as [|c s Hc _]; simpl; [reflexivity|].
  destruct (is_space c) eqn:E; [|reflexivity].
  apply is_space_not_word in E. congruence.
Qed.

Lemma trim_word (s : jsstring) :
  Forall (fun c => is_word c = true) s -> trim s = s.
Proof.
  intros H. unfold trim. rewrite (trimStart_word s H).
  rewrite trimStart_word; [apply rev_involutive|].
  apply List.Forall_rev. exact H.
Qed.

Lemma toLowerCase_word (s : jsstring) :
  Forall (fun c => is_word c = true) s ->
  Forall (fun c => is_word c = true) (toLowerCase s).
Proof.
  unfold toLowerCase. induction 1 as [|c s Hc _ IH]; simpl; constructor; [|exact IH].
  destruct (is_upper c) eqn:E; [|exact Hc].
  unfold is_upper in E. unfold is_word.
  rewrite andb_true_iff, !N.leb_le in E.
  repeat rewrite orb_true_iff. repeat rewrite andb_true_iff.
  repeat rewrite N.leb_le. lia.
Qed.

(** The language the source picks for a lower-case tag is the canonical
    language of the specification, and content detection otherwise. *)
Lemma tag_dispatch (t cleaned : jsstring) :
  language
    (if jsstring_eqb t (lit "python") || jsstring_eqb t (lit "py")
     then {| cleanedCode := cleaned; language := python |}
     else if jsstring_eqb t (lit "typescript") || jsstring_eqb t (lit "ts")
     then {| cleanedCode := cleaned; language := typescript |}
     else if jsstring_eqb t (lit "javascript") || jsstring_eqb t (lit "js")
     then {| cleanedCode := cleaned; language := javascript |}
     else {| cleanedCode := cleaned;
             language := detectLanguageFromContent cleaned |})
  = match spec_canonical_tag t with
    | Some l => l
    | None => detectLanguageFromContent cleaned
    end
  /\
  cleanedCode
    (if jsstring_eqb t (lit "python") || jsstring_eqb t (lit "py")
     then {| cleanedCode := cleaned; language := python |}
     else if jsstring_eqb t (lit "typescript") || jsstring_eqb t (lit "ts")
     then {| cleanedCode := cleaned; language := typescript |}
     else if jsstring_eqb t (lit "javascript") || jsstring_eqb t (lit "js")
     then {| cleanedCode := cleaned; language := javascript |}
     else {| cleanedCode := cleaned;
             language := detectLanguageFromContent cleaned |})
  = cleaned.
Proof.
  unfold spec_canonical_tag, jsstring_eqb.
  repeat case_bool_decide; subst; simpl; try (split; reflexivity);
    exfalso;
    match goal with
    | H : lit _ = lit _ |- _ => vm_compute in H; discriminate H
    | H : lit ?a <> lit ?a |- _ => apply H; reflexivity
    end.
Qed.

(** With a fence, whatever the tag: the cleaned code is the lines strictly
    between the first and the last line, and the language follows the
    tag. *)
Lemma parse_fenced (code tag : jsstring) :
  codeBlockRegex code = Some tag ->
  parseCodeBlockMarkers code =
    {| cleanedCode := join [LF] (spec_lines_between code);
       language :=
         match spec_canonical_tag (toLowerCase tag) with
         | Some l => l
         | None => detectLanguageFromContent (join [LF] (spec_lines_between code))
         end |}.
Proof.
  intros H. unfold parseCodeBlockMarkers. rewrite H.
  destruct (codeBlockRegex_inv _ _ H) as (_ & _ & _ & _ & Htag & _).
  rewrite (trim_word _ (toLowerCase_word _ Htag)), slice_1_m1.
  fold (spec_lines_between code).
  destruct (tag_dispatch (toLowerCase tag) (join [LF] (spec_lines_between code)))
    as [Hl Hc].
  match goal with
  | |- ?x = _ => destruct x as [c l] eqn:E; simpl in Hl, Hc; subst; reflexivity
  end.
Qed.

Lemma parse_unfenced (code : jsstring) :
  codeBlockRegex code = None ->
  parseCodeBlockMarkers code =
    {| cleanedCode := code; language := detectLanguageFromContent code |}.
Proof. intros H. unfold parseCodeBlockMarkers. rewrite H. reflexivity. Qed.

(** The lines between the first and the last line of a text whose first
    line is a fence line. *)
Lemma lines_between_fenced (ws tag ws' rest : jsstring) :
  Forall inline_space ws ->
  Forall (fun c => is_word c = true) tag ->
  Forall inline_space ws' ->
  spec_lines_between (ws ++ fence ++ tag ++ ws' ++ LF :: rest)
  = removelast (split_lines rest).
Proof.
  intros Hws Htag Hws'. unfold spec_lines_between.
  replace (ws ++ fence ++ tag ++ ws' ++ LF :: rest)
    with ((ws ++ fence ++ tag ++ ws') ++ LF :: rest)
    by (rewrite <- !app_assoc; reflexivity).
  rewrite split_lines_first; [reflexivity|].
  repeat apply Forall_app_2;
    auto using inline_space_no_LF, is_word_no_LF.
  repeat constructor; discriminate.
Qed.

Lemma fenced_matches (ws tag ws' rest : jsstring) :
  Forall inline_space ws ->
  Forall (fun c => is_word c = true) tag ->
  Forall inline_space ws' ->
  codeBlockRegex (ws ++ fence ++ tag ++ ws' ++ LF :: rest) = Some tag.
Proof.
  intros Hws Htag Hws'.
  apply codeBlockRegex_matches; auto using inline_space_is_space.
Qed.

Lemma toLowerCase_word_inv (s : jsstring) :
  Forall (fun c => is_word c = true) (toLowerCase s) ->
  Forall (fun c => is_word c = true) s.
Proof.
  unfold toLowerCase. induction s as [|c s IH]; intros H; [constructor|].
  inversion H as [|c' s' Hc Hs]; subst. constructor; [|exact (IH Hs)].
  destruct (is_upper c) eqn:E; [|exact Hc].
  unfold is_upper in E. unfold is_word. rewrite E.
  destruct ((48 <=? c) && (c <=? 57)); reflexivity.
Qed.

(** A tag with a canonical language is made of word characters. *)
Lemma canonical_tag_word (tag : jsstring) (lang : CodeLanguage) :
  spec_canonical_tag (toLowerCase tag) = Some lang ->
  Forall (fun c => is_word c = true) tag.
Proof.
  intros H. apply toLowerCase_word_inv. revert H.
  unfold spec_canonical_tag.
  repeat case_bool_decide; try discriminate;
    match goal with
    | H : toLowerCase tag = lit _ |- _ => rewrite H
    end;
    intros _; repeat constructor.
Qed.

(** C5: a text that starts with a fence line carrying a recognized tag (in
    any letter case) is classified as the canonical language of the tag,
    and its cleaned code is exactly the lines strictly between its first
    and its last line; when the text ends with a line feed and a closing
    line, the cleaned code is the body between the two lines. *)
Theorem C5_recognized_fence_tag
    (ws tag ws' rest : jsstring) (lang : CodeLanguage) :
  Forall inline_space ws ->
  Forall inline_space ws' ->
  spec_canonical_tag (toLowerCase tag) = Some lang ->
  let code := ws ++ fence ++ tag ++ ws' ++ LF :: rest in
  parseCodeBlockMarkers code =
    {| cleanedCode := join [LF] (spec_lines_between code); language := lang |}
  /\ spec_lines_between code = removelast (split_lines rest)
  /\ (forall body closing,
        rest = body ++ LF :: closing ->
        Forall (fun c => c <> LF) closing ->
        cleanedCode (parseCodeBlockMarkers code) = body).
Proof.
  intros Hws Hws' Hlang code.
  pose proof (canonical_tag_word tag lang Hlang) as Htag.
  assert (Hparse : parseCodeBlockMarkers code =
            {| cleanedCode := join [LF] (spec_lines_between code);
               language := lang |}).
  { unfold code. rewrite (parse_fenced _ tag) by (apply fenced_matches; assumption).
    rewrite Hlang. reflexivity. }
  assert (Hlines : spec_lines_between code = removelast (split_lines rest))
    by (apply lines_between_fenced; assumption).
  split; [exact Hparse|]. split; [exact Hlines|].
  intros body closing -> Hclosing.
  rewrite Hparse. cbn [cleanedCode]. rewrite Hlines.
  rewrite split_lines_last by exact Hclosing.
  rewrite removelast_last. apply join_split_lines.
Qed.

(** C10: once the fence pattern matches, the first and the last line of
    the text are stripped whatever the last line is; a text made of a
    fence line, a body and one more line that is no closing fence loses
    that line, and with a single line after the fence line nothing is
    left. *)
Theorem C10_last_line_stripped_without_closing_fence :
  (forall code tag,
      codeBlockRegex code = Some tag ->
      cleanedCode (parseCodeBlockMarkers code)
      = join [LF] (spec_lines_between code))
  /\
  (forall ws tag ws' body last_line,
      Forall inline_space ws ->
      Forall (fun c => is_word c = true) tag ->
      Forall inline_space ws' ->
      Forall (fun c => c <> LF) last_line ->
      cleanedCode
        (parseCodeBlockMarkers
           (ws ++ fence ++ tag ++ ws' ++ LF :: body ++ LF :: last_line))
      = body
      /\
      cleanedCode
        (parseCodeBlockMarkers (ws ++ fence ++ tag ++ ws' ++ LF :: last_line))
      = []).
Proof.
  split.
  - intros code tag H. rewrite (parse_fenced _ _ H). reflexivity.
  - intros ws tag ws' body last_line Hws Htag Hws' Hlast. split.
    + rewrite (parse_fenced _ tag) by (apply fenced_matches; assumption).
      cbn [cleanedCode]. rewrite lines_between_fenced by assumption.
      rewrite split_lines_last by exact Hlast.
      rewrite removelast_last. apply join_split_lines.
    + rewrite (parse_fenced _ tag) by (apply fenced_matches; assumption).
      cbn [cleanedCode]. rewrite lines_between_fenced by assumption.
      rewrite split_lines_single by exact Hlast. reflexivity.
Qed.

Lemma python_marks_spec (content : jsstring) :
  includes content (lit "def ") || includes content (lit "import ")
  || includes content (lit "print(") || includes content main_guard = true
  <-> python_marks content.
Proof.
  unfold python_marks. rewrite !orb_true_iff, !includes_spec. tauto.
Qed.

Lemma typescript_marks_spec (content : jsstring) :
  includes content (lit ": string") || includes content (lit ": number")
  || includes content (lit ": boolean") || includes content (lit "interface ")
  || includes content (lit "type ")
  || (includes content (lit "<") && includes content (lit ">")
      && includes content (lit "extends")) = true
  <-> typescript_marks content.
Proof.
  unfold typescript_marks.
  rewrite !orb_true_iff, !andb_true_iff, !includes_spec. tauto.
Qed.

Lemma detect_python (content : jsstring) :
  python_marks content -> detectLanguageFromContent content = python.
Proof.
  intros H. apply python_marks_spec in H.
  unfold detectLanguageFromContent. rewrite H. reflexivity.
Qed.

Lemma detect_typescript (content : jsstring) :
  ~ python_marks content -> typescript_marks content ->
  detectLanguageFromContent content = typescript.
Proof.
  intros Hpy Hts. apply typescript_marks_spec in Hts.
  rewrite <- python_marks_spec in Hpy. apply not_true_is_false in Hpy.
  unfold detectLanguageFromContent. rewrite Hpy, Hts. reflexivity.
Qed.

Lemma detect_javascript (content : jsstring) :
  ~ python_marks content -> ~ typescript_marks content ->
  detectLanguageFromContent content = javascript.
Proof.
  intros Hpy Hts.
  rewrite <- python_marks_spec in Hpy. apply not_true_is_false in Hpy.
  rewrite <- typescript_marks_spec in Hts. apply not_true_is_false in Hts.
  unfold detectLanguageFromContent. rewrite Hpy, Hts. reflexivity.
Qed.

(** C6: content detection applies its rules in order and the first match
    wins: a python mark gives python; without one, a typescript mark gives
    typescript; without either, javascript.  An unfenced text is classified
    by these rules and kept as it is; a fenced text with an unrecognized
    tag is classified by them on its stripped body.  The three examples of
    the specification come out as python, typescript and javascript. *)
Theorem C6_content_heuristics :
  (forall content,
      python_marks content -> detectLanguageFromContent content = python)
  /\ (forall content,
        ~ python_marks content -> typescript_marks content ->
        detectLanguageFromContent content = typescript)
  /\ (forall content,
        ~ python_marks content -> ~ typescript_marks content ->
        detectLanguageFromContent content = javascript)
  /\ (forall code,
        codeBlockRegex code = None ->
        parseCodeBlockMarkers code =
          {| cleanedCode := code;
             language := detectLanguageFromContent code |})
  /\ (forall code tag,
        codeBlockRegex code = Some tag ->
        spec_canonical_tag (toLowerCase tag) = None ->
        parseCodeBlockMarkers code =
          {| cleanedCode := join [LF] (spec_lines_between code);
             language :=
               detectLanguageFromContent
                 (join [LF] (spec_lines_between code)) |})
  /\ language (parseCodeBlockMarkers
                 (lit "def foo():" ++ [LF] ++ lit "    print(1)")) = python
  /\ language (parseCodeBlockMarkers (lit "interface Foo { x: number }"))
     = typescript
  /\ language (parseCodeBlockMarkers (lit "console.log(1)")) = javascript.
Proof.
  split; [exact detect_python|].
  split; [exact detect_typescript|].
  split; [exact detect_javascript|].
  split; [exact parse_unfenced|].
  split.
  - intros code tag H Htag. rewrite (parse_fenced _ _ H), Htag. reflexivity.
  - repeat split; vm_compute; reflexivity.
Qed.

(** *** Instances *)

Lemma C5_recognized_fence_tag_witness :
  parseCodeBlockMarkers
    (lit "  ```Py " ++ [LF] ++ lit "print(1)" ++ [LF] ++ lit "x = 2" ++ [LF]
     ++ lit "```")
  = {| cleanedCode := lit "print(1)" ++ [LF] ++ lit "x = 2";
       language := python |}.
Proof.
  assert (Hsp : Forall inline_space (lit "  ")).
  { repeat (constructor; [split; [reflexivity | discriminate] |]). constructor. }
  assert (Hsp' : Forall inline_space (lit " ")).
  { repeat (constructor; [split; [reflexivity | discriminate] |]). constructor. }
  destruct (C5_recognized_fence_tag (lit "  ") (lit "Py") (lit " ")
              (lit "print(1)" ++ [LF] ++ lit "x = 2" ++ [LF] ++ lit "```")
              python Hsp Hsp' eq_refl) as (H & _ & _).
  exact H.
Defined.

Lemma C10_last_line_stripped_witness :
  cleanedCode
    (parseCodeBlockMarkers
       (lit "```js" ++ [LF] ++ lit "const a = 1;" ++ [LF]
        ++ lit "console.log(a)"))
  = lit "const a = 1;"
  /\ cleanedCode
       (parseCodeBlockMarkers (lit "```js" ++ [LF] ++ lit "console.log(1)"))
     = [].
Proof.
  assert (Hw : Forall (fun c => is_word c = true) (lit "js")).
  { repeat constructor. }
  assert (Hl : Forall (fun c : N => c <> LF) (lit "console.log(a)")).
  { repeat (constructor; [discriminate|]). constructor. }
  assert (Hl1 : Forall (fun c : N => c <> LF) (lit "console.log(1)")).
  { repeat (constructor; [discriminate|]). constructor. }
  split.
  - exact (proj1 (proj2 C10_last_line_stripped_without_closing_fence
                    [] (lit "js") [] (lit "const a = 1;") (lit "console.log(a)")
                    (List.Forall_nil _) Hw (List.Forall_nil _) Hl)).
  - exact (proj2 (proj2 C10_last_line_stripped_without_closing_fence
                    [] (lit "js") [] [] (lit "console.log(1)")
                    (List.Forall_nil _) Hw (List.Forall_nil _) Hl1)).
Defined.

Lemma C6_content_heuristics_witness :
  detectLanguageFromContent (lit "x = 1" ++ [LF] ++ lit "print(x)") = python
  /\ detectLanguageFromContent (lit "let n: number = 1") = typescript.
Proof.
  split.
  - apply (proj1 C6_content_heuristics).
    right. right. left. exists (lit "x = 1" ++ [LF]), (lit "x)"). reflexivity.
  - apply (proj1 (proj2 C6_content_heuristics)).
    + rewrite <- python_marks_spec. vm_compute. discriminate.
    + right. left. exists (lit "let n"), (lit " = 1"). reflexivity.
Defined.

(** ** The memoized sandbox *)

Section SingleBoot.
Import Provider.

Lemma settle_instance (ok : bool) (st : ModuleState) :
  webcontainerInstance (settle ok st) = webcontainerInstance st
  /\ boot_calls (settle ok st) = boot_calls st.
Proof.
  unfold settle.
  destruct (webcontainerInstance st) eqn:E; [|auto].
  destruct (instance_state st); simpl; auto.
Qed.

(** Once a promise is stored, a call returns it and changes nothing,
    whether the promise is pending, fulfilled or rejected. *)
Lemma getWebContainer_memoized (st : ModuleState) (p : promise) :
  webcontainerInstance st = Some p ->
  getWebContainer true st = (p, st).
Proof. intros H. unfold getWebContainer. simpl. rewrite H. reflexivity. Qed.

(** The first call in a browser boots and stores the chained promise. *)
Lemma getWebContainer_first (st : ModuleState) :
  webcontainerInstance st = None ->
  exists p st',
    getWebContainer true st = (p, st')
    /\ webcontainerInstance st' = Some p
    /\ instance_state st' = Pending
    /\ boot_calls st' = S (boot_calls st).
Proof.
  intros H. unfold getWebContainer. simpl. rewrite H.
  eexists _, _. split; [reflexivity|]. simpl. auto.
Qed.

(** Without a window no call boots or stores anything. *)
Lemma getWebContainer_no_window (st : ModuleState) :
  let st' := snd (getWebContainer false st) in
  webcontainerInstance st' = webcontainerInstance st
  /\ boot_calls st' = boot_calls st.
Proof. simpl. auto. Qed.

(** With a promise stored, a whole trace keeps it, hands out nothing else
    and boots no more. *)
Lemma run_events_stored (evs : list Event) (st : ModuleState) (p : promise) :
  webcontainerInstance st = Some p ->
  let '(ps, st') := run_events true evs st in
  webcontainerInstance st' = Some p
  /\ boot_calls st' = boot_calls st
  /\ Forall (fun q => q = p) ps.
Proof.
  revert st. induction evs as [|ev evs IH]; intros st Hst; simpl.
  - auto.
  - destruct ev as [|ok]; simpl.
    + rewrite (getWebContainer_memoized st p Hst).
      specialize (IH st Hst). destruct (run_events true evs st) as [ps st'].
      destruct IH as (H1 & H2 & H3). auto.
    + destruct (settle_instance ok st) as [Hi Hb].
      assert (Hst' : webcontainerInstance (settle ok st) = Some p) by congruence.
      specialize (IH _ Hst').
      destruct (run_events true evs (settle ok st)) as [ps st'].
      destruct IH as (H1 & H2 & H3). split; [exact H1|]. split; [congruence|exact H3].
Qed.

(** From a state without a stored promise: no call was made and nothing
    changed, or one boot happened and every call got the stored promise. *)
Lemma run_events_fresh (evs : list Event) (st : ModuleState) :
  webcontainerInstance st = None ->
  let '(ps, st') := run_events true evs st in
  (ps = [] /\ webcontainerInstance st' = None /\ boot_calls st' = boot_calls st
   /\ ~ In CallGetWebContainer evs)
  \/ (exists p, ps <> [] /\ webcontainerInstance st' = Some p
                /\ boot_calls st' = S (boot_calls st)
                /\ Forall (fun q => q = p) ps
                /\ In CallGetWebContainer evs).
Proof.
  revert st. induction evs as [|ev evs IH]; intros st Hst; simpl.
  - left. auto.
  - destruct ev as [|ok]; simpl.
    + destruct (getWebContainer_first st Hst) as (p & st1 & Hcall & Hi & _ & Hb).
      rewrite Hcall.
      pose proof (run_events_stored evs st1 p Hi) as Hrest.
      destruct (run_events true evs st1) as [ps st'].
      destruct Hrest as (H1 & H2 & H3).
      right. exists p. split; [discriminate|]. split; [exact H1|].
      split; [congruence|]. split; [constructor; [reflexivity | exact H3] | auto].
    + destruct (settle_instance ok st) as [Hi Hb].
      assert (Hst' : webcontainerInstance (settle ok st) = None) by congruence.
      specialize (IH _ Hst').
      destruct (run_events true evs (settle ok st)) as [ps st'].
      destruct IH as [(H1 & H2 & H3 & H4) | (p & H1 & H2 & H3 & H4 & H5)].
      * left. split; [exact H1|]. split; [exact H2|]. split; [congruence|].
        intros [H | H]; [discriminate | exact (H4 H)].
      * right. exists p. split; [exact H1|]. split; [exact H2|].
        split; [congruence|]. split; [exact H4 | auto].
Qed.

Lemma run_events_no_window (evs : list Event) (st : ModuleState) :
  let st' := snd (run_events false evs st) in
  webcontainerInstance st' = webcontainerInstance st
  /\ boot_calls st' = boot_calls st.
Proof.
  revert st. induction evs as [|ev evs IH]; intros st; simpl; [auto|].
  destruct ev as [|ok]; simpl.
  - match goal with
    | |- context [run_events false evs ?s] =>
        specialize (IH s); destruct (run_events false evs s) as [ps st']
    end.
    simpl in *. exact IH.
  - destruct (settle_instance ok st) as [Hi Hb].
    specialize (IH (settle ok st)).
    destruct (run_events false evs (settle ok st)) as [ps st'].
    simpl in *. destruct IH. split; congruence.
Qed.

(** C8: over any sequence of calls of [getWebContainer] and settlements of
    the boot promise, starting from the freshly loaded module, the sandbox
    is booted at most once; in a browser the boot happens exactly when a
    first call is made, every call, made before or after the boot promise
    settles, is handed the one stored promise, and a call that finds a
    stored promise leaves the module as it is. *)
Theorem C8_sandbox_booted_at_most_once (evs : list Event) :
  (forall window_defined,
      boot_calls (snd (run_events window_defined evs module_init)) <= 1)%nat
  /\ (let '(ps, st) := run_events true evs module_init in
      (In CallGetWebContainer evs <-> boot_calls st = 1%nat)
      /\ (forall p, In p ps -> webcontainerInstance st = Some p)
      /\ length ps = length (List.filter
                               (fun ev => match ev with
                                          | CallGetWebContainer => true
                                          | BootSettles _ => false
                                          end) evs))
  /\ (forall st p,
        webcontainerInstance st = Some p ->
        getWebContainer true st = (p, st)).
Proof.
  split; [|split].
  - intros [|].
    + pose proof (run_events_fresh evs module_init eq_refl) as H.
      destruct (run_events true evs module_init) as [ps st]. simpl in *.
      destruct H as [(_ & _ & H & _) | (p & _ & _ & H & _)]; lia.
    + destruct (run_events_no_window evs module_init) as [_ H].
      rewrite H. simpl. lia.
  - pose proof (run_events_fresh evs module_init eq_refl) as H.
    assert (Hlen : forall st0,
               length (fst (run_events true evs st0))
               = length (List.filter
                           (fun ev => match ev with
                                      | CallGetWebContainer => true
                                      | BootSettles _ => false
                                      end) evs)).
    { clear. induction evs as [|ev evs IH]; intros st0; simpl; [reflexivity|].
      destruct ev as [|ok]; simpl.
      - destruct (getWebContainer true st0) as [p st1].
        specialize (IH st1). destruct (run_events true evs st1) as [ps st'].
        simpl in *. congruence.
      - specialize (IH (settle ok st0)).
        destruct (run_events true evs (settle ok st0)) as [ps st'].
        simpl in *. exact IH. }
    specialize (Hlen module_init).
    destruct (run_events true evs module_init) as [ps st]. simpl in *.
    split; [|split; [|exact Hlen]].
    + destruct H as [(_ & _ & H & Hno) | (p & _ & _ & H & _ & Hin)].
      * split; [intros Hin; contradiction | intros Hb; lia].
      * split; [intros _; exact H | intros _; exact Hin].
    + intros p Hp.
      destruct H as [(-> & _) | (q & _ & Hq & _ & Hall & _)]; [contradiction|].
      rewrite List.Forall_forall in Hall. rewrite (Hall p Hp). exact Hq.
  - exact getWebContainer_memoized.
Qed.

(** *** Instance: two callers before the boot settles, one after. *)

Lemma C8_sandbox_booted_at_most_once_witness :
  (boot_calls
     (snd (run_events true
             [CallGetWebContainer; CallGetWebContainer; BootSettles true;
              CallGetWebContainer] module_init)) <= 1)%nat
  /\ fst (run_events true
            [CallGetWebContainer; CallGetWebContainer; BootSettles true;
             CallGetWebContainer] module_init) = [1; 1; 1]%nat.
Proof.
  split.
  - exact (proj1 (C8_sandbox_booted_at_most_once
                    [CallGetWebContainer; CallGetWebContainer; BootSettles true;
                     CallGetWebContainer]) true).
  - reflexivity.
Defined.

End SingleBoot.

(** ** The script backend *)

Section ScriptBackend.
Import Eff Provider.

Lemma or_else_nil (a : jsstring) : or_else a [] = a.
Proof. destruct a; reflexivity. Qed.

(** Removal with its rejection ignored: the file is gone afterwards. *)
Lemma fs_rm_ignored (path : jsstring) (fs : FS) :
  ignore_rejection (fs_rm path) fs = (Ok tt, delete path fs).
Proof.
  unfold ignore_rejection, try_catch, fs_rm, ret.
  destruct (fs !! path) eqn:E; [reflexivity|].
  rewrite delete_id by exact E. reflexivity.
Qed.

(** Reading a file for the log changes nothing and never throws. *)
Lemma read_for_log (path : jsstring) (fs : FS) :
  try_catch (bind (fs_readFile path) (fun _ => ret tt)) (fun _ => ret tt) fs
  = (Ok tt, fs).
Proof.
  unfold try_catch, bind, fs_readFile, ret.
  destruct (fs !! path); reflexivity.
Qed.

(** [executeJsCode] after a successful boot, in terms of what the runtime
    does with the temporary file. *)
Lemma executeJsCode_spec (sb : Sandbox) (code : jsstring) (fs : FS) :
  boot sb = Ok tt ->
  executeJsCode sb code fs =
    let name := js_temp_filename (Date_now sb) in
    match spawn sb (lit "node") [name] node_env (<[name := code]> fs) with
    | (Ok p, fs1) => (Ok (exit_result p), delete name fs1)
    | (Throw e, fs1) => (Ok {| output := []; error := Some (message e) |}, fs1)
    end.
Proof.
  intros Hboot. unfold executeJsCode.
  unfold try_catch at 1. unfold bind at 1. unfold await. rewrite Hboot.
  unfold bind at 1. unfold fs_writeFile, modify.
  unfold bind at 1. unfold spawn_and_wait. cbv zeta.
  destruct (spawn sb (lit "node") [js_temp_filename (Date_now sb)] node_env
              (<[js_temp_filename (Date_now sb) := code]> fs))
    as [[p|e] fs1]; [|reflexivity].
  unfold bind. rewrite fs_rm_ignored. unfold exit_result.
  rewrite or_else_nil.
  destruct (exit p =? 0)%Z; reflexivity.
Qed.

(** [compileTsWithTsc] in terms of what the compiler does: the name of the
    compiled file when that file can be read afterwards, [undefined]
    otherwise.  Neither the exit code nor the diagnostics of the compiler
    take part. *)
Lemma compileTsWithTsc_spec (sb : Sandbox) (code tsFilename : jsstring) (fs : FS) :
  compileTsWithTsc sb code tsFilename fs =
    let jsFilename := replace_ts_extension tsFilename in
    match spawn sb (lit "npx") (tsc_args tsFilename) []
            (<[lit "tsconfig.json" := tsconfig_json]> (<[tsFilename := code]> fs))
    with
    | (Ok p, fs1) =>
        (Ok (match fs1 !! jsFilename with
             | Some _ => Some jsFilename
             | None => None
             end), fs1)
    | (Throw e, fs1) => (Ok None, fs1)
    end.
Proof.
  unfold compileTsWithTsc.
  unfold try_catch at 1. unfold bind at 1. unfold fs_writeFile, modify.
  unfold bind at 1. unfold bind at 1. unfold spawn_and_wait. cbv zeta.
  destruct (spawn sb (lit "npx") (tsc_args tsFilename) []
              (<[lit "tsconfig.json" := tsconfig_json]> (<[tsFilename := code]> fs)))
    as [[p|e] fs1]; [|reflexivity].
  unfold try_catch, bind, fs_readFile, ret.
  destruct (negb (exit p =? 0)%Z);
    destruct (fs1 !! replace_ts_extension tsFilename); reflexivity.
Qed.

Lemma number_toString_app_rev (t : N) (ext : jsstring) :
  rev (lit "code-" ++ number_toString t ++ ext)
  = rev ext ++ rev (number_toString t) ++ rev (lit "code-").
Proof. rewrite !rev_app_distr, <- app_assoc. reflexivity. Qed.

(** The compiled file of a TypeScript run is named like the source file
    of a JavaScript run with the same clock reading. *)
Lemma replace_ts_extension_temp (t : N) :
  replace_ts_extension (ts_temp_filename t) = js_temp_filename t.
Proof.
  unfold replace_ts_extension, ts_temp_filename, js_temp_filename.
  rewrite number_toString_app_rev.
  change (rev (lit ".ts")) with [115; 116; 46].
  cbn [app startsWith]. rewrite !N.eqb_refl. cbn [andb skipn].
  rewrite drop_0, rev_app_distr, !rev_involutive, <- app_assoc. reflexivity.
Qed.

Lemma js_temp_filename_truthy (t : N) :
  truthy (Some (js_temp_filename t)) = true.
Proof. reflexivity. Qed.

(** [executeTypeScript] after a successful boot, in terms of what the
    compiler and the runtime do. *)
Lemma executeTypeScript_spec (sb : Sandbox) (code : jsstring) (fs : FS) :
  boot sb = Ok tt ->
  executeTypeScript sb code fs =
    let tsFilename := ts_temp_filename (Date_now sb) in
    let jsFilename := js_temp_filename (Date_now sb) in
    match spawn sb (lit "npx") (tsc_args tsFilename) []
            (<[lit "tsconfig.json" := tsconfig_json]> (<[tsFilename := code]> fs))
    with
    | (Ok p, fs1) =>
        match fs1 !! jsFilename with
        | Some _ =>
            match spawn sb (lit "node") [jsFilename] node_env fs1 with
            | (Ok q, fs2) =>
                (Ok (exit_result q), delete jsFilename (delete tsFilename fs2))
            | (Throw e, fs2) =>
                (Ok {| output := []; error := Some (message e) |}, fs2)
            end
        | None => (Ok compilation_failed, fs1)
        end
    | (Throw e, fs1) => (Ok compilation_failed, fs1)
    end.
Proof.
  intros Hboot. unfold executeTypeScript.
  unfold try_catch at 1. unfold bind at 1. unfold await. rewrite Hboot.
  unfold bind at 1. rewrite compileTsWithTsc_spec. cbv zeta.
  rewrite replace_ts_extension_temp.
  destruct (spawn sb (lit "npx") (tsc_args (ts_temp_filename (Date_now sb))) []
              (<[lit "tsconfig.json" := tsconfig_json]>
                 (<[ts_temp_filename (Date_now sb) := code]> fs)))
    as [[p|e] fs1]; [|reflexivity].
  destruct (fs1 !! js_temp_filename (Date_now sb)) eqn:E; [|reflexivity].
  rewrite js_temp_filename_truthy. cbn [negb default from_option id].
  unfold bind at 1. rewrite read_for_log.
  unfold bind at 1. unfold spawn_and_wait.
  destruct (spawn sb (lit "node") [js_temp_filename (Date_now sb)] node_env fs1)
    as [[q|e] fs2]; [|reflexivity].
  unfold bind. rewrite !fs_rm_ignored. unfold exit_result.
  rewrite or_else_nil.
  destruct (exit q =? 0)%Z; reflexivity.
Qed.

End ScriptBackend.

(** ** The tracker *)

Section Tracker.
Import Eff Provider Client.

Lemma find_app_or {A} (f : A -> bool) (l1 l2 : list A) :
  List.find f (l1 ++ l2)
  = match List.find f l1 with
    | Some x => Some x
    | None => List.find f l2
    end.
Proof.
  induction l1 as [|a l1 IH]; simpl; [reflexivity|].
  destruct (f a); [reflexivity | exact IH].
Qed.

Lemma find_filter_same (rid : jsstring) (outs : list ConsoleOutput) :
  List.find (fun o => bool_decide (id o = rid))
            (filter (fun o => id o <> rid) outs) = None.
Proof.
  induction outs as [|o outs IH]; [reflexivity|].
  rewrite filter_cons. destruct (decide (id o <> rid)) as [Hne|_]; [|exact IH].
  simpl. rewrite bool_decide_eq_false_2 by exact Hne. exact IH.
Qed.

Lemma find_filter_other (rid rid' : jsstring) (outs : list ConsoleOutput) :
  rid <> rid' ->
  List.find (fun o => bool_decide (id o = rid))
            (filter (fun o => id o <> rid') outs)
  = List.find (fun o => bool_decide (id o = rid)) outs.
Proof.
  intros Hne. induction outs as [|o outs IH]; [reflexivity|].
  rewrite filter_cons. destruct (decide (id o <> rid')) as [Ho|Ho]; simpl.
  - rewrite IH. reflexivity.
  - rewrite IH. apply dec_stable in Ho.
    rewrite bool_decide_eq_false_2 by congruence. reflexivity.
Qed.

(** After a replacement the tracker shows the new record of the run. *)
Lemma find_run_replace (r : ConsoleOutput) (m : Metadata) :
  find_run (id r) (apply_updater (ReplaceRun r) m) = Some r.
Proof.
  unfold find_run. simpl. rewrite find_app_or, find_filter_same. simpl.
  rewrite bool_decide_eq_true_2 by reflexivity. reflexivity.
Qed.

(** After the record of a new run is appended the tracker shows it. *)
Lemma find_run_append (r : ConsoleOutput) (m : Metadata) :
  find_run (id r) m = None ->
  find_run (id r) (apply_updater (AppendRun r) m) = Some r.
Proof.
  unfold find_run. simpl. intros H. rewrite find_app_or, H. simpl.
  rewrite bool_decide_eq_true_2 by reflexivity. reflexivity.
Qed.

(** An update of another run leaves the record of a run as it is. *)
Lemma find_run_other (u : Updater) (rid : jsstring) (m : Metadata) :
  id (updated_run u) <> rid ->
  find_run rid (apply_updater u m) = find_run rid m.
Proof.
  intros Hne. unfold find_run. destruct u as [r|r]; simpl in *.
  - rewrite find_app_or. simpl.
    rewrite bool_decide_eq_false_2 by exact Hne.
    destruct (List.find _ (outputs m)); reflexivity.
  - rewrite find_app_or, find_filter_other by congruence. simpl.
    rewrite bool_decide_eq_false_2 by exact Hne.
    destruct (List.find _ (outputs m)); reflexivity.
Qed.

Lemma apply_updaters_snoc (tr : list Updater) (u : Updater) (m : Metadata) :
  apply_updaters (tr ++ [u]) m = apply_updater u (apply_updaters tr m).
Proof. unfold apply_updaters. rewrite fold_left_app. reflexivity. Qed.

Lemma appended_then_replaced_snoc (us : list Updater) (u : Updater) :
  appended_then_replaced (us ++ [u]) ->
  appended_then_replaced us
  /\ match u with
     | AppendRun _ => us = []
     | ReplaceRun _ => us <> []
     end.
Proof.
  destruct us as [|[r0|r0] us]; simpl.
  - destruct u; [auto | contradiction].
  - intros H. apply Forall_app in H as [H1 H2]. split; [exact H1|].
    destruct u; [|discriminate].
    inversion H2; contradiction.
  - contradiction.
Qed.

(** Whatever other runs do in between, the tracker shows for a run the
    record of its latest update. *)
Lemma tracker_shows_latest (rid : jsstring) (tr : list Updater) (m : Metadata) :
  find_run rid m = None ->
  appended_then_replaced (own_updaters rid tr) ->
  find_run rid (apply_updaters tr m)
  = updated_run <$> last (own_updaters rid tr).
Proof.
  intros Hm. induction tr as [|u tr IH] using rev_ind; intros Hwf.
  - simpl. exact Hm.
  - rewrite apply_updaters_snoc. unfold own_updaters in *.
    rewrite filter_app in *. rewrite filter_cons, filter_nil in *.
    destruct (decide (id (updated_run u) = rid)) as [Hu|Hu].
    + rewrite last_snoc. simpl.
      apply appended_then_replaced_snoc in Hwf as [Hwf Hshape].
      destruct u as [r|r]; simpl in Hu; subst rid.
      * apply find_run_append. simpl. rewrite IH by exact Hwf.
        rewrite Hshape. reflexivity.
      * apply find_run_replace.
    + rewrite app_nil_r in *. rewrite find_run_other by exact Hu.
      apply IH. exact Hwf.
Qed.

End Tracker.

(** ** One click *)

Section Click.
Import Eff Provider Client.

Lemma try_catch_ret_ok {S A} (c : M S A) (f : Error -> A) (s : S) :
  exists r s', try_catch c (fun e => ret (f e)) s = (Ok r, s').
Proof.
  unfold try_catch, ret. destruct (c s) as [[a|e] s']; eauto.
Qed.

(** The executors catch everything: they always return a result. *)
Lemma executeJsOrTs_total (imp : Result unit) (sb : Sandbox)
    (code : jsstring) (lang : CodeLanguage) (fs : FS) :
  exists result fs', executeJsOrTs imp sb code lang fs = (Ok result, fs').
Proof. apply try_catch_ret_ok. Qed.

Lemma executeJsCode_total (sb : Sandbox) (code : jsstring) (fs : FS) :
  exists result fs', executeJsCode sb code fs = (Ok result, fs').
Proof. apply try_catch_ret_ok. Qed.

Lemma executeTypeScript_total (sb : Sandbox) (code : jsstring) (fs : FS) :
  exists result fs', executeTypeScript sb code fs = (Ok result, fs').
Proof. apply try_catch_ret_ok. Qed.

(** With the provider module imported, [executeJsOrTs] is the executor of
    the language. *)
Lemma executeJsOrTs_spec (sb : Sandbox) (code : jsstring)
    (lang : CodeLanguage) (fs : FS) :
  executeJsOrTs (Ok tt) sb code lang fs =
    match lang with
    | typescript => executeTypeScript sb code fs
    | _ => executeJsCode sb code fs
    end.
Proof.
  unfold executeJsOrTs, try_catch at 1, bind at 1, await.
  destruct lang;
    [destruct (executeJsCode_total sb code fs) as (r & fs' & H)
    |destruct (executeJsCode_total sb code fs) as (r & fs' & H)
    |destruct (executeTypeScript_total sb code fs) as (r & fs' & H)];
    rewrite H; reflexivity.
Qed.

(** What a click on a script does: the record is appended, two progress
    messages replace it, then the terminal record made from the result of
    the executor. *)
Lemma script_click (imp : Result unit) (sb : Sandbox) (py : Pyodide)
    (runId content : jsstring) (fs : FS) :
  CodeMarkers.language (parseCodeBlockMarkers content) <> python ->
  exists result fs',
    executeJsOrTs imp sb (cleanedCode (parseCodeBlockMarkers content))
      (CodeMarkers.language (parseCodeBlockMarkers content)) fs = (Ok result, fs')
    /\ click imp sb py runId content fs =
         {| outputContent := [];
            issued := run_appended runId
                      :: script_progress runId
                           (CodeMarkers.language (parseCodeBlockMarkers content))
                      ++ [ReplaceRun (script_terminal runId result)];
            container_fs := fs';
            py_ran := [] |}.
Proof.
  intros Hlang.
  destruct (executeJsOrTs_total imp sb
              (cleanedCode (parseCodeBlockMarkers content))
              (CodeMarkers.language (parseCodeBlockMarkers content)) fs)
    as (result & fs' & H).
  exists result, fs'. split; [exact H|].
  unfold click, onClick. cbv zeta.
  destruct (CodeMarkers.language (parseCodeBlockMarkers content)) eqn:E;
    [congruence| |];
    unfold script_branch, bind, try_catch, setMetadata, modify, in_sandbox,
      zoom, initial_state; cbn [issued container_fs outputContent py_ran app];
    rewrite H; reflexivity.
Qed.

Lemma run_python_issued (py : Pyodide) (src : jsstring) (s : ClientState) :
  issued (snd (run_python py src s)) = issued s.
Proof.
  unfold run_python. destruct (runPythonAsync py (py_ran s) src). reflexivity.
Qed.

Lemma run_handlers_issued (py : Pyodide) (hs : list Handler) (s : ClientState) :
  issued (snd (run_handlers py hs s)) = issued s.
Proof.
  revert s. induction hs as [|h hs IH]; intros s; [reflexivity|].
  cbn [run_handlers]. unfold bind at 1.
  assert (Hstep : forall c : M ClientState unit,
             (forall s0, issued (snd (c s0)) = issued s0) ->
             forall s0,
               issued (snd (let (r, s') := c s0 in
                            match r with
                            | Ok a => run_handlers py hs s'
                            | Throw e => (Throw e, s')
                            end)) = issued s0).
  { intros c Hc s0. specialize (Hc s0). destruct (c s0) as [[[]|e] s']; simpl in *.
    - rewrite IH. exact Hc.
    - exact Hc. }
  apply Hstep. clear s. intros s.
  destruct (truthy (Some (OUTPUT_HANDLERS h))); [|reflexivity].
  unfold bind. pose proof (run_python_issued py (OUTPUT_HANDLERS h) s) as H1.
  destruct (run_python py (OUTPUT_HANDLERS h) s) as [[[]|e] s1]; simpl in *;
    [|exact H1].
  destruct h; simpl; [exact H1|].
  rewrite run_python_issued. exact H1.
Qed.

(** The package loader issues one progress record for each message. *)
Lemma load_packages_issued (py : Pyodide) (runId content : jsstring)
    (s : ClientState) :
  issued (snd (load_packages py runId content s))
  = issued s ++ map (loading runId) (fst (loadPackagesFromImports py content)).
Proof.
  unfold load_packages.
  destruct (loadPackagesFromImports py content) as [messages r]. simpl.
  unfold bind at 1.
  assert (H : forall s0,
             exists s1,
               fold_right
                 (fun message rest =>
                    bind (setMetadata (loading runId message)) (fun _ => rest))
                 (ret tt) messages s0 = (Ok tt, s1)
               /\ issued s1 = issued s0 ++ map (loading runId) messages).
  { induction messages as [|m ms IH]; intros s0; simpl.
    - eexists. split; [reflexivity|]. rewrite app_nil_r. reflexivity.
    - unfold bind at 1. unfold setMetadata at 1, modify.
      match goal with
      | |- context [fold_right _ _ ms ?s'] => destruct (IH s') as (s1 & H1 & H2)
      end.
      exists s1. split; [exact H1|]. rewrite H2. simpl.
      rewrite <- app_assoc. reflexivity. }
  destruct (H s) as (s1 & H1 & H2). rewrite H1. simpl. exact H2.
Qed.

(** Up to the end of the user's code the Python branch only issues the
    progress records of the package loader. *)
Lemma python_execute_issued (py : Pyodide) (runId content cleaned : jsstring)
    (s : ClientState) :
  exists messages,
    issued (snd (python_execute py runId content cleaned s))
    = issued s ++ map (loading runId) messages.
Proof.
  unfold python_execute. unfold bind at 1. unfold await.
  destruct (loadPyodide py) as [[]|e].
  - exists (fst (loadPackagesFromImports py content)).
    unfold bind at 1.
    pose proof (load_packages_issued py runId content s) as H1.
    destruct (load_packages py runId content s) as [[[]|e] s1];
      cbn [snd] in *; [|exact H1].
    unfold bind.
    pose proof (run_handlers_issued py (detectRequiredHandlers content) s1) as H2.
    destruct (run_handlers py (detectRequiredHandlers content) s1)
      as [[[]|e] s2]; cbn [snd] in *; [|congruence].
    rewrite run_python_issued. congruence.
  - exists []. simpl. rewrite app_nil_r. reflexivity.
Qed.

(** What a click on Python code does: after the [try] block, or the
    [catch] block, one more record is issued, the terminal one. *)
Lemma python_click (imp : Result unit) (sb : Sandbox) (py : Pyodide)
    (runId content : jsstring) (fs : FS) :
  CodeMarkers.language (parseCodeBlockMarkers content) = python ->
  let '(r, s1) :=
    python_execute py runId content
      (cleanedCode (parseCodeBlockMarkers content)) (try_begins runId fs) in
  click imp sb py runId content fs =
    {| outputContent := outputContent s1;
       issued := issued s1 ++ [ReplaceRun (python_terminal runId r s1)];
       container_fs := container_fs s1;
       py_ran := py_ran s1 |}.
Proof.
  intros Hlang. unfold click, onClick. cbv zeta. rewrite Hlang.
  unfold bind at 1. unfold setMetadata at 1, modify.
  change {| outputContent := outputContent (initial_state fs);
            issued := issued (initial_state fs)
                      ++ [AppendRun {| id := runId; contents := [];
                                       status := in_progress |}];
            container_fs := container_fs (initial_state fs);
            py_ran := py_ran (initial_state fs) |}
    with (try_begins runId fs).
  unfold try_catch, python_branch. unfold bind at 1.
  destruct (python_execute py runId content
              (cleanedCode (parseCodeBlockMarkers content)) (try_begins runId fs))
    as [[[]|e] s1]; reflexivity.
Qed.

Lemma own_updaters_all (rid : jsstring) (us : list Updater) :
  Forall (fun u => id (updated_run u) = rid) us -> own_updaters rid us = us.
Proof.
  unfold own_updaters. induction 1 as [|u us Hu _ IH]; [reflexivity|].
  rewrite filter_cons_True by exact Hu. rewrite IH. reflexivity.
Qed.

Lemma appended_then_replaced_prefix (us later : list Updater) :
  appended_then_replaced (us ++ later) -> appended_then_replaced us.
Proof.
  destruct us as [|[r|r] us]; simpl; [auto | | auto].
  intros H. apply Forall_app in H as [H _]. exact H.
Qed.

Lemma last_statuses (us : list Updater) :
  status <$> (updated_run <$> last us) = last (statuses us).
Proof.
  unfold statuses. induction us as [|u us IH]; [reflexivity|].
  destruct us as [|u' us]; [reflexivity|]. exact IH.
Qed.

Lemma run_shape_own (runId : jsstring) (progress : list jsstring)
    (final : ConsoleOutput) :
  id final = runId ->
  Forall (fun u => id (updated_run u) = runId) (run_shape runId progress final).
Proof.
  intros Hid. unfold run_shape. constructor; [reflexivity|].
  apply Forall_app. split.
  - apply Forall_map. apply Forall_true. reflexivity.
  - constructor; [exact Hid | constructor].
Qed.

Lemma run_shape_appended_then_replaced (runId : jsstring)
    (progress : list jsstring) (final : ConsoleOutput) :
  appended_then_replaced (run_shape runId progress final).
Proof.
  unfold run_shape. simpl. apply Forall_app. split.
  - apply Forall_map. apply Forall_true. intros m. exact I.
  - constructor; [exact I | constructor].
Qed.

Lemma run_shape_statuses (runId : jsstring) (progress : list jsstring)
    (final : ConsoleOutput) :
  statuses (run_shape runId progress final)
  = in_progress :: repeat loading_packages (length progress) ++ [status final].
Proof.
  unfold statuses, run_shape. simpl. f_equal. rewrite map_app. simpl. f_equal.
  induction progress as [|m ms IH]; [reflexivity|]. simpl. rewrite IH. reflexivity.
Qed.

(** Every click issues a sequence of that shape, whatever the backends
    do. *)
Lemma click_shape (imp : Result unit) (sb : Sandbox) (py : Pyodide)
    (runId content : jsstring) (fs : FS) :
  exists progress final,
    click_updaters imp sb py runId content fs = run_shape runId progress final
    /\ id final = runId
    /\ is_terminal (status final) = true
    /\ (CodeMarkers.language (parseCodeBlockMarkers content) <> python ->
        length progress = 2%nat).
Proof.
  unfold click_updaters.
  destruct (CodeMarkers.language (parseCodeBlockMarkers content)) eqn:Hlang.
  - pose proof (python_click imp sb py runId content fs Hlang) as Hclick.
    destruct (python_execute_issued py runId content
                (cleanedCode (parseCodeBlockMarkers content))
                (try_begins runId fs)) as (messages & Hissued).
    destruct (python_execute py runId content
                (cleanedCode (parseCodeBlockMarkers content))
                (try_begins runId fs)) as [r s1].
    cbn [snd] in Hissued. rewrite Hclick. cbn [issued].
    exists messages, (python_terminal runId r s1).
    rewrite Hissued. split; [reflexivity|].
    split; [destruct r; reflexivity|].
    split; [destruct r; reflexivity | congruence].
  - destruct (script_click imp sb py runId content fs) as (result & fs' & _ & H);
      [congruence|].
    rewrite H, Hlang. cbn [issued].
    exists [lit "Running JavaScript in WebContainer...";
            lit "Running " ++ lit "JavaScript" ++ lit " code..."],
           (script_terminal runId result).
    split; [reflexivity|]. split; [reflexivity|].
    split; [|reflexivity].
    unfold script_terminal. cbn [status]. destruct (truthy (error result)); reflexivity.
  - destruct (script_click imp sb py runId content fs) as (result & fs' & _ & H);
      [congruence|].
    rewrite H, Hlang. cbn [issued].
    exists [lit "Running JavaScript in WebContainer...";
            lit "Running " ++ lit "TypeScript" ++ lit " code..."],
           (script_terminal runId result).
    split; [reflexivity|]. split; [reflexivity|].
    split; [|reflexivity].
    unfold script_terminal. cbn [status]. destruct (truthy (error result)); reflexivity.
Qed.

(** When all the updates of a run have been made, the tracker shows its
    terminal record, whatever other runs did in between or do later. *)
Lemma tracker_shows_terminal (runId : jsstring) (progress : list jsstring)
    (final : ConsoleOutput) (trace : list Updater) (m : Metadata) :
  find_run runId m = None ->
  own_updaters runId trace = run_shape runId progress final ->
  find_run runId (apply_updaters trace m) = Some final.
Proof.
  intros Hm Hown. rewrite tracker_shows_latest; [|exact Hm|].
  - rewrite Hown. unfold run_shape.
    rewrite app_comm_cons, last_snoc. reflexivity.
  - rewrite Hown. apply run_shape_appended_then_replaced.
Qed.

Lemma run_record_of_shape (imp : Result unit) (sb : Sandbox) (py : Pyodide)
    (runId content : jsstring) (fs : FS) (progress : list jsstring)
    (final : ConsoleOutput) :
  click_updaters imp sb py runId content fs = run_shape runId progress final ->
  id final = runId ->
  run_record imp sb py runId content fs = Some final.
Proof.
  intros Hshape Hid. unfold run_record. rewrite Hshape.
  apply (tracker_shows_terminal runId progress); [reflexivity|].
  apply own_updaters_all. apply run_shape_own. exact Hid.
Qed.

End Click.

(** ** Script runs: exit codes, compilation, temporary files *)

Section ScriptRuns.
Import Eff Provider Client Scenarios.

Lemma or_else_or_else (a : jsstring) :
  or_else (or_else a no_output_text) no_output_value = or_else a no_output_text.
Proof. destruct a; reflexivity. Qed.

(** The terminal record of a script run whose runtime ended with 0. *)
Lemma script_terminal_exit_zero (runId : jsstring) (p : Process) :
  exit p = 0%Z ->
  script_terminal runId (exit_result p)
  = {| id := runId;
       contents := [{| type := text;
                       value := or_else (join [] (output_chunks p))
                                        no_output_text |}];
       status := completed |}.
Proof.
  intros H. unfold script_terminal, exit_result. rewrite H. simpl.
  rewrite or_else_or_else. reflexivity.
Qed.

(** The terminal record of a script run whose runtime ended with another
    code: the captured output is in the executor's result, not in the
    record. *)
Lemma script_terminal_exit_nonzero (runId : jsstring) (p : Process) :
  exit p <> 0%Z ->
  exit_result p = {| output := join [] (output_chunks p);
                     error := Some (lit "Execution failed") |}
  /\ script_terminal runId (exit_result p)
     = {| id := runId;
          contents := [{| type := text;
                          value := lit "Error: Execution failed" |}];
          status := failed |}.
Proof.
  intros H. unfold script_terminal, exit_result.
  apply Z.eqb_neq in H. rewrite H. simpl. split; reflexivity.
Qed.

(** The run record of a script run is made from the executor's result. *)
Lemma script_run_record (imp : Result unit) (sb : Sandbox) (py : Pyodide)
    (runId content : jsstring) (fs fs' : FS) (result : ExecResult) :
  CodeMarkers.language (parseCodeBlockMarkers content) <> python ->
  executeJsOrTs imp sb (cleanedCode (parseCodeBlockMarkers content))
    (CodeMarkers.language (parseCodeBlockMarkers content)) fs = (Ok result, fs') ->
  run_record imp sb py runId content fs = Some (script_terminal runId result).
Proof.
  intros Hlang Hexec.
  destruct (script_click imp sb py runId content fs Hlang)
    as (result' & fs'' & Hexec' & Hclick).
  rewrite Hexec in Hexec'. injection Hexec' as <- <-.
  apply (run_record_of_shape _ _ _ _ _ _
           [lit "Running JavaScript in WebContainer...";
            lit "Running "
            ++ match CodeMarkers.language (parseCodeBlockMarkers content) with
               | typescript => lit "TypeScript"
               | _ => lit "JavaScript"
               end
            ++ lit " code..."]);
    [|reflexivity].
  unfold click_updaters. rewrite Hclick. reflexivity.
Qed.

(** The runtime process of a script run decides the result of the
    executor. *)
Lemma script_executor_result (sb : Sandbox) (code : jsstring)
    (lang : CodeLanguage) (fs fs0 fs1 : FS) (file : jsstring) (p : Process) :
  boot sb = Ok tt ->
  (lang = javascript /\ file = js_temp_filename (Date_now sb)
   /\ fs0 = <[file := code]> fs)
  \/ (lang = typescript
      /\ compileTsWithTsc sb code (ts_temp_filename (Date_now sb)) fs
         = (Ok (Some file), fs0)) ->
  spawn sb (lit "node") [file] node_env fs0 = (Ok p, fs1) ->
  fst (executeJsOrTs (Ok tt) sb code lang fs) = Ok (exit_result p).
Proof.
  intros Hboot [(-> & -> & ->) | (-> & Hcompile)] Hspawn;
    rewrite executeJsOrTs_spec.
  - rewrite executeJsCode_spec by exact Hboot. cbv zeta.
    rewrite Hspawn. reflexivity.
  - rewrite executeTypeScript_spec by exact Hboot. cbv zeta.
    rewrite compileTsWithTsc_spec in Hcompile. cbv zeta in Hcompile.
    rewrite replace_ts_extension_temp in Hcompile.
    destruct (spawn sb (lit "npx") (tsc_args (ts_temp_filename (Date_now sb))) []
                (<[lit "tsconfig.json" := tsconfig_json]>
                   (<[ts_temp_filename (Date_now sb) := code]> fs)))
      as [[q|e] fs2]; [|discriminate].
    destruct (fs2 !! js_temp_filename (Date_now sb)); [|discriminate].
    injection Hcompile as <- <-. rewrite Hspawn. reflexivity.
Qed.

(** C1 (amended): in a script run whose runtime process ends with exit
    code 0 the run record is [completed] and its text is the collected
    stdout, or the no-output text when stdout is empty; when the process
    ends with another code the executor returns the captured stdout with
    the marker [Execution failed], and the run record is [failed] with the
    single text [Error: Execution failed]. *)
Theorem C1_script_exit_code (sb : Sandbox) (py : Pyodide)
    (runId content : jsstring) (fs fs0 fs1 : FS) (file : jsstring)
    (p : Process) :
  boot sb = Ok tt ->
  (CodeMarkers.language (parseCodeBlockMarkers content) = javascript
   /\ file = js_temp_filename (Date_now sb)
   /\ fs0 = <[file := cleanedCode (parseCodeBlockMarkers content)]> fs)
  \/ (CodeMarkers.language (parseCodeBlockMarkers content) = typescript
      /\ compileTsWithTsc sb (cleanedCode (parseCodeBlockMarkers content))
           (ts_temp_filename (Date_now sb)) fs
         = (Ok (Some file), fs0)) ->
  spawn sb (lit "node") [file] node_env fs0 = (Ok p, fs1) ->
  (exit p = 0%Z ->
   run_record (Ok tt) sb py runId content fs
   = Some {| id := runId;
             contents := [{| type := text;
                             value := or_else (join [] (output_chunks p))
                                              no_output_text |}];
             status := completed |})
  /\ (exit p <> 0%Z ->
      fst (executeJsOrTs (Ok tt) sb (cleanedCode (parseCodeBlockMarkers content))
             (CodeMarkers.language (parseCodeBlockMarkers content)) fs)
      = Ok {| output := join [] (output_chunks p);
              error := Some (lit "Execution failed") |}
      /\ run_record (Ok tt) sb py runId content fs
         = Some {| id := runId;
                   contents := [{| type := text;
                                   value := lit "Error: Execution failed" |}];
                   status := failed |}).
Proof.
  intros Hboot Hlang Hspawn.
  pose proof (script_executor_result sb _ _ fs fs0 fs1 file p Hboot Hlang Hspawn)
    as Hres.
  assert (Hscript : CodeMarkers.language (parseCodeBlockMarkers content) <> python)
    by (destruct Hlang as [(H & _) | (H & _)]; rewrite H; discriminate).
  destruct (executeJsOrTs (Ok tt) sb (cleanedCode (parseCodeBlockMarkers content))
              (CodeMarkers.language (parseCodeBlockMarkers content)) fs)
    as [r fs'] eqn:Hexec.
  cbn [fst] in Hres. subst r.
  rewrite (script_run_record _ _ py runId _ _ _ _ Hscript Hexec).
  split.
  - intros Hexit. rewrite script_terminal_exit_zero by exact Hexit. reflexivity.
  - intros Hexit.
    destruct (script_terminal_exit_nonzero runId p Hexit) as [H1 H2].
    rewrite H2, H1. split; reflexivity.
Qed.

(** The result of [executeTypeScript] is the same whether the compiler
    ends with 0 or with another code. *)
Lemma compiler_exit_code_ignored (sb : Sandbox) (code : jsstring) (fs : FS) :
  boot sb = Ok tt ->
  executeTypeScript sb code fs
  = executeTypeScript (with_compiler_exit_zero sb) code fs.
Proof.
  intros Hboot.
  rewrite (executeTypeScript_spec sb) by exact Hboot.
  rewrite (executeTypeScript_spec (with_compiler_exit_zero sb)) by exact Hboot.
  cbv zeta. cbn [with_compiler_exit_zero spawn Date_now].
  destruct (spawn sb (lit "npx") (tsc_args (ts_temp_filename (Date_now sb))) []
              (<[lit "tsconfig.json" := tsconfig_json]>
                 (<[ts_temp_filename (Date_now sb) := code]> fs)))
    as [[p|e] fs1]; [|reflexivity].
  rewrite bool_decide_eq_true_2 by reflexivity.
  destruct (fs1 !! js_temp_filename (Date_now sb)); [|reflexivity].
  destruct (spawn sb (lit "node") [js_temp_filename (Date_now sb)] node_env fs1)
    as [[q|e] fs2]; [|reflexivity].
  rewrite bool_decide_eq_false_2 by (vm_compute; discriminate).
  reflexivity.
Qed.

(** C3 (amended): when the compiler of a TypeScript run ends with a
    nonzero exit code and the compiled file can be read, compilation
    yields the name of that file and the run goes on to execute it, with
    the same result as if the compiler had ended with 0; when the compiled
    file is absent the run fails with the fixed message [TypeScript
    compilation failed - could not generate JavaScript file], whatever the
    compiler's diagnostics are. *)
Theorem C3_compiler_exit_nonzero (sb : Sandbox) (code : jsstring)
    (fs fs1 : FS) (p : Process) :
  boot sb = Ok tt ->
  spawn sb (lit "npx") (tsc_args (ts_temp_filename (Date_now sb))) []
    (<[lit "tsconfig.json" := tsconfig_json]>
       (<[ts_temp_filename (Date_now sb) := code]> fs)) = (Ok p, fs1) ->
  exit p <> 0%Z ->
  (is_Some (fs1 !! js_temp_filename (Date_now sb)) ->
   compileTsWithTsc sb code (ts_temp_filename (Date_now sb)) fs
   = (Ok (Some (js_temp_filename (Date_now sb))), fs1)
   /\ executeTypeScript sb code fs
      = executeTypeScript (with_compiler_exit_zero sb) code fs
   /\ executeTypeScript sb code fs
      = match spawn sb (lit "node") [js_temp_filename (Date_now sb)]
                node_env fs1 with
        | (Ok q, fs2) =>
            (Ok (exit_result q),
             delete (js_temp_filename (Date_now sb))
                    (delete (ts_temp_filename (Date_now sb)) fs2))
        | (Throw e, fs2) =>
            (Ok {| output := []; error := Some (message e) |}, fs2)
        end)
  /\ (fs1 !! js_temp_filename (Date_now sb) = None ->
      compileTsWithTsc sb code (ts_temp_filename (Date_now sb)) fs
      = (Ok None, fs1)
      /\ executeTypeScript sb code fs
         = (Ok {| output := []; error := Some compilation_failed_text |}, fs1)).
Proof.
  intros Hboot Hspawn _. split.
  - intros [c Hc]. split; [|split].
    + rewrite compileTsWithTsc_spec. cbv zeta.
      rewrite Hspawn, replace_ts_extension_temp, Hc. reflexivity.
    + apply compiler_exit_code_ignored. exact Hboot.
    + rewrite executeTypeScript_spec by exact Hboot. cbv zeta.
      rewrite Hspawn, Hc. reflexivity.
  - intros Hnone. split.
    + rewrite compileTsWithTsc_spec. cbv zeta.
      rewrite Hspawn, replace_ts_extension_temp, Hnone. reflexivity.
    + rewrite executeTypeScript_spec by exact Hboot. cbv zeta.
      rewrite Hspawn, Hnone. reflexivity.
Qed.

Lemma lit_inj (a b : string) : lit a = lit b -> a = b.
Proof.
  unfold lit. intros H.
  rewrite <- (string_of_list_ascii_of_string a),
          <- (string_of_list_ascii_of_string b).
  f_equal. revert H.
  generalize (list_ascii_of_string a) (list_ascii_of_string b).
  induction l as [|x l IH]; intros [|y l']; simpl; try discriminate; [reflexivity|].
  intros [= Hxy Hl]. f_equal; [|exact (IH _ Hl)].
  rewrite <- (ascii_N_embedding x), <- (ascii_N_embedding y), Hxy. reflexivity.
Qed.

Lemma number_toString_inj (t1 t2 : N) :
  number_toString t1 = number_toString t2 -> t1 = t2.
Proof.
  unfold number_toString. intros H. apply lit_inj in H.
  apply DecimalN.Unsigned.to_uint_inj.
  assert (Hnn : forall n, N.to_uint n <> Decimal.Nil).
  { intros [|q]; [discriminate | apply DecimalPos.Unsigned.to_uint_nonnil]. }
  pose proof (NilZero.usu _ (Hnn t1)) as H1.
  pose proof (NilZero.usu _ (Hnn t2)) as H2.
  rewrite H in H1. congruence.
Qed.

(** Two temporary files of the same kind have the same name exactly when
    the two clock readings are the same. *)
Lemma temp_filename_eq_iff (t1 t2 : N) :
  (js_temp_filename t1 = js_temp_filename t2 <-> t1 = t2)
  /\ (ts_temp_filename t1 = ts_temp_filename t2 <-> t1 = t2).
Proof.
  unfold js_temp_filename, ts_temp_filename.
  split; (split; [|intros ->; reflexivity]); intros H;
    apply app_inv_head in H; apply app_inv_tail in H;
    exact (number_toString_inj _ _ H).
Qed.

(** C9: the temporary source file of a run is named after the millisecond
    reading of the clock alone, so two runs have distinct file names only
    if their readings differ; two JavaScript runs that read the same
    millisecond are both given the file [code-1700000000000.js] (the
    runtime of the scenario writes the name of the file it is started
    on), and so is the compiled file of a TypeScript run. *)
Theorem C9_temp_file_named_by_clock_reading :
  (forall t1 t2,
      (js_temp_filename t1 = js_temp_filename t2 <-> t1 = t2)
      /\ (ts_temp_filename t1 = ts_temp_filename t2 <-> t1 = t2))
  /\ fst (executeJsCode (echo_sandbox noon) (lit "console.log(1)") ∅)
     = Ok {| output := lit "code-1700000000000.js"; error := None |}
  /\ fst (executeJsCode (echo_sandbox noon) (lit "console.log(2)") ∅)
     = Ok {| output := lit "code-1700000000000.js"; error := None |}
  /\ replace_ts_extension (ts_temp_filename noon) = lit "code-1700000000000.js".
Proof.
  split; [exact temp_filename_eq_iff|].
  repeat split; vm_compute; reflexivity.
Qed.

(** *** Instances *)

Lemma C1_script_exit_code_witness :
  run_record (Ok tt) (sandbox noon [] 0 true [lit "hi"] 0) no_interpreter run1
    (lit "console.log('hi')") ∅
  = Some {| id := run1;
            contents := [{| type := text; value := lit "hi" |}];
            status := completed |}
  /\ run_record (Ok tt) (sandbox noon [] 0 true [] 3) no_interpreter run1
       (fenced "ts" "const n: number = 1; process.exit(3)") ∅
     = Some {| id := run1;
               contents := [{| type := text;
                               value := lit "Error: Execution failed" |}];
               status := failed |}.
Proof.
  split.
  - exact (proj1 (C1_script_exit_code
                    (sandbox noon [] 0 true [lit "hi"] 0) no_interpreter run1
                    (lit "console.log('hi')") ∅
                    (<[js_temp_filename noon := lit "console.log('hi')"]> ∅)
                    (<[js_temp_filename noon := lit "console.log('hi')"]> ∅)
                    (js_temp_filename noon)
                    {| output_chunks := [lit "hi"]; exit := 0 |}
                    eq_refl
                    (or_introl (conj eq_refl (conj eq_refl eq_refl)))
                    eq_refl)
                 eq_refl).
  - assert (Hc : compileTsWithTsc (sandbox noon [] 0 true [] 3)
                   (lit "const n: number = 1; process.exit(3)")
                   (ts_temp_filename noon) ∅
                 = (Ok (Some (js_temp_filename noon)),
                    <[js_temp_filename noon := lit "compiled"]>
                      (<[lit "tsconfig.json" := tsconfig_json]>
                         (<[ts_temp_filename noon :=
                              lit "const n: number = 1; process.exit(3)"]> ∅))))
      by (vm_compute; reflexivity).
    refine (proj2 (proj2 (C1_script_exit_code
                    (sandbox noon [] 0 true [] 3) no_interpreter run1
                    (fenced "ts" "const n: number = 1; process.exit(3)") ∅
                    _ _ (js_temp_filename noon)
                    {| output_chunks := []; exit := 3 |}
                    eq_refl
                    (or_intror (conj eq_refl Hc))
                    eq_refl) _)).
    discriminate.
Defined.

Lemma C1_counterexample :
  exists record,
    run_record (Ok tt) (sandbox noon [] 0 true [lit "hi"] 1) no_interpreter run1
      (lit "console.log('hi'); process.exit(1)") ∅ = Some record
    /\ status record = failed
    /\ fst (executeJsCode (sandbox noon [] 0 true [lit "hi"] 1)
              (lit "console.log('hi'); process.exit(1)") ∅)
       = Ok {| output := lit "hi"; error := Some (lit "Execution failed") |}
    /\ contents record
       = [{| type := text; value := lit "Error: Execution failed" |}]
    /\ Forall (fun c => includes (value c) (lit "hi") = false) (contents record).
Proof.
  eexists. split; [vm_compute; reflexivity|].
  split; [reflexivity|]. split; [vm_compute; reflexivity|].
  split; [reflexivity|]. repeat constructor.
Qed.

Lemma C3_compiler_exit_nonzero_witness :
  executeTypeScript (sandbox noon [ts_diagnostic] 2 true [lit "1"] 0)
    (lit "const n: number = 'a'; console.log(1)") ∅
  = executeTypeScript
      (with_compiler_exit_zero (sandbox noon [ts_diagnostic] 2 true [lit "1"] 0))
      (lit "const n: number = 'a'; console.log(1)") ∅
  /\ fst (executeTypeScript (sandbox noon [ts_diagnostic] 2 false [] 0)
            (lit "const n: number = 'a'; console.log(1)") ∅)
     = Ok {| output := []; error := Some compilation_failed_text |}.
Proof.
  split.
  - refine (proj1 (proj2 (proj1 (C3_compiler_exit_nonzero
              (sandbox noon [ts_diagnostic] 2 true [lit "1"] 0)
              (lit "const n: number = 'a'; console.log(1)") ∅ _
              {| output_chunks := [ts_diagnostic]; exit := 2 |}
              eq_refl eq_refl _) _))).
    + discriminate.
    + eexists. vm_compute. reflexivity.
  - refine (f_equal fst (proj2 (proj2 (C3_compiler_exit_nonzero
              (sandbox noon [ts_diagnostic] 2 false [] 0)
              (lit "const n: number = 'a'; console.log(1)") ∅ _
              {| output_chunks := [ts_diagnostic]; exit := 2 |}
              eq_refl eq_refl _) _))).
    + discriminate.
    + vm_compute. reflexivity.
Defined.

Lemma C3_counterexample :
  exists failure,
    fst (executeTypeScript (sandbox noon [ts_diagnostic] 2 false [] 0)
           (lit "const n: number = 'a'") ∅)
    = Ok {| output := []; error := Some failure |}
    /\ failure <> ts_diagnostic
    /\ includes failure ts_diagnostic = false
    /\ run_record (Ok tt) (sandbox noon [ts_diagnostic] 2 false [] 0)
         no_interpreter run1 (fenced "ts" "const n: number = 'a'") ∅
       = Some {| id := run1;
                 contents := [{| type := text;
                                 value := lit "Error: " ++ failure |}];
                 status := failed |}.
Proof.
  exists compilation_failed_text.
  split; [vm_compute; reflexivity|].
  split; [vm_compute; discriminate|].
  split; vm_compute; reflexivity.
Qed.

End ScriptRuns.

(** ** Python runs and the states of a run *)

Section RunStates.
Import Eff Provider Client Scenarios.

(** The run record of a Python run is the record its branch ends with. *)
Lemma python_run_record (imp : Result unit) (sb : Sandbox) (py : Pyodide)
    (runId content : jsstring) (fs : FS) (r : Result unit) (s1 : ClientState) :
  CodeMarkers.language (parseCodeBlockMarkers content) = python ->
  python_execute py runId content (cleanedCode (parseCodeBlockMarkers content))
    (try_begins runId fs) = (r, s1) ->
  run_record imp sb py runId content fs = Some (python_terminal runId r s1).
Proof.
  intros Hlang Hexec.
  pose proof (python_click imp sb py runId content fs Hlang) as Hclick.
  destruct (python_execute_issued py runId content
              (cleanedCode (parseCodeBlockMarkers content))
              (try_begins runId fs)) as (messages & Hissued).
  rewrite Hexec in Hclick, Hissued. cbn [snd] in Hissued.
  apply (run_record_of_shape _ _ _ _ _ _ messages).
  - unfold click_updaters. rewrite Hclick. cbn [issued]. rewrite Hissued.
    reflexivity.
  - destruct r; reflexivity.
Qed.


(** C7: when the Python branch runs to the end of the user's code without
    an exception and nothing was written to stdout, the run record is
    [completed] and holds no event at all: the handler passes the empty
    collector on and synthesizes nothing. *)
Theorem C7_python_no_output (imp : Result unit) (sb : Sandbox) (py : Pyodide)
    (runId content : jsstring) (fs : FS) (s1 : ClientState) :
  CodeMarkers.language (parseCodeBlockMarkers content) = python ->
  python_execute py runId content (cleanedCode (parseCodeBlockMarkers content))
    (try_begins runId fs) = (Ok tt, s1) ->
  outputContent s1 = [] ->
  run_record imp sb py runId content fs
  = Some {| id := runId; contents := []; status := completed |}.
Proof.
  intros Hlang Hexec Hout.
  rewrite (python_run_record _ _ _ _ _ _ _ _ Hlang Hexec).
  simpl. rewrite Hout. reflexivity.
Qed.

Lemma status_literal_known (st : ConsoleOutputStatus) :
  In (status_literal st)
     [lit "in_progress"; lit "loading_packages"; lit "completed"; lit "failed"].
Proof. destruct st; simpl; auto. Qed.

(** Up to the end of the user's code the Python branch issues one
    progress record for each message of the package loader, in order, and
    nothing else. *)
Lemma python_execute_issued_messages (py : Pyodide)
    (runId content cleaned : jsstring) (s : ClientState) :
  issued (snd (python_execute py runId content cleaned s))
  = issued s ++ map (loading runId) (Observations.python_messages py content).
Proof.
  unfold Observations.python_messages, python_execute.
  unfold bind at 1. unfold await.
  destruct (loadPyodide py) as [[]|e].
  - unfold bind at 1.
    pose proof (load_packages_issued py runId content s) as H1.
    destruct (load_packages py runId content s) as [[[]|e] s1];
      cbn [snd] in *; [|exact H1].
    unfold bind.
    pose proof (run_handlers_issued py (detectRequiredHandlers content) s1) as H2.
    destruct (run_handlers py (detectRequiredHandlers content) s1)
      as [[[]|e] s2]; cbn [snd] in *; [|congruence].
    rewrite run_python_issued. congruence.
  - simpl. rewrite app_nil_r. reflexivity.
Qed.

(** The calls of [setMetadata] of a click, with the progress messages
    spelled out: the two messages of a script run, or the messages of the
    package loader of a Python run. *)
Lemma click_shape_messages (imp : Result unit) (sb : Sandbox) (py : Pyodide)
    (runId content : jsstring) (fs : FS) :
  exists final,
    click_updaters imp sb py runId content fs
    = run_shape runId
        (match CodeMarkers.language (parseCodeBlockMarkers content) with
         | python => Observations.python_messages py content
         | lang => Observations.script_messages lang
         end) final
    /\ id final = runId
    /\ is_terminal (status final) = true.
Proof.
  unfold click_updaters.
  destruct (CodeMarkers.language (parseCodeBlockMarkers content)) eqn:Hlang.
  - pose proof (python_click imp sb py runId content fs Hlang) as Hclick.
    pose proof (python_execute_issued_messages py runId content
                  (cleanedCode (parseCodeBlockMarkers content))
                  (try_begins runId fs)) as Hissued.
    destruct (python_execute py runId content
                (cleanedCode (parseCodeBlockMarkers content))
                (try_begins runId fs)) as [r s1].
    cbn [snd] in Hissued. rewrite Hclick. cbn [issued].
    exists (python_terminal runId r s1).
    rewrite Hissued. split; [reflexivity|].
    split; destruct r; reflexivity.
  - destruct (script_click imp sb py runId content fs) as (result & fs' & _ & H);
      [congruence|].
    rewrite H, Hlang. cbn [issued].
    exists (script_terminal runId result).
    split; [reflexivity|]. split; [reflexivity|].
    unfold script_terminal. cbn [status].
    destruct (truthy (error result)); reflexivity.
  - destruct (script_click imp sb py runId content fs) as (result & fs' & _ & H);
      [congruence|].
    rewrite H, Hlang. cbn [issued].
    exists (script_terminal runId result).
    split; [reflexivity|]. split; [reflexivity|].
    unfold script_terminal. cbn [status].
    destruct (truthy (error result)); reflexivity.
Qed.

(** C4 (amended): the status of every record a click writes is one of
    [in_progress], [loading_packages], [completed], [failed].  A click
    first appends the record of its run with status [in_progress], then
    replaces it by [loading_packages] records, each holding one progress
    message: the two messages of a script run, or, for a Python run, the
    messages of the package loader, one record per message and in their
    order (none when the interpreter cannot be loaded); last it replaces
    the record by exactly one with a terminal status.  Whatever other runs
    write in between, the tracker shows for the run the status of its
    latest update, so once the terminal record is written the run stays in
    that state. *)
Theorem C4_run_status_sequence (imp : Result unit) (sb : Sandbox) (py : Pyodide)
    (runId content : jsstring) (fs : FS) :
  let us := click_updaters imp sb py runId content fs in
  Forall (fun u =>
            In (status_literal (status (updated_run u)))
               [lit "in_progress"; lit "loading_packages"; lit "completed";
                lit "failed"]) us
  /\ (exists progress final,
        us = run_appended runId
             :: map (loading runId) progress ++ [ReplaceRun final]
        /\ (CodeMarkers.language (parseCodeBlockMarkers content) <> python ->
            progress
            = Observations.script_messages
                (CodeMarkers.language (parseCodeBlockMarkers content)))
        /\ (CodeMarkers.language (parseCodeBlockMarkers content) = python ->
            progress = Observations.python_messages py content)
        /\ id final = runId
        /\ is_terminal (status final) = true
        /\ statuses us
           = in_progress
             :: repeat loading_packages (length progress) ++ [status final])
  /\ (exists k final,
        statuses us = in_progress :: repeat loading_packages k ++ [final]
        /\ is_terminal final = true
        /\ (CodeMarkers.language (parseCodeBlockMarkers content) <> python ->
            k = 2%nat)
        /\ (CodeMarkers.language (parseCodeBlockMarkers content) = python ->
            k = length (Observations.python_messages py content)))
  /\ head us = Some (run_appended runId)
  /\ (forall trace later m,
        find_run runId m = None ->
        us = own_updaters runId trace ++ later ->
        status <$> find_run runId (apply_updaters trace m)
        = last (statuses (own_updaters runId trace)))
  /\ (forall trace m,
        find_run runId m = None ->
        own_updaters runId trace = us ->
        exists final,
          find_run runId (apply_updaters trace m) = Some final
          /\ is_terminal (status final) = true).
Proof.
  intros us.
  destruct (click_shape_messages imp sb py runId content fs)
    as (final & Hshape & Hid & Hterm).
  fold us in Hshape.
  set (progress :=
         match CodeMarkers.language (parseCodeBlockMarkers content) with
         | python => Observations.python_messages py content
         | lang => Observations.script_messages lang
         end) in *.
  assert (Hscript :
            CodeMarkers.language (parseCodeBlockMarkers content) <> python ->
            progress
            = Observations.script_messages
                (CodeMarkers.language (parseCodeBlockMarkers content))).
  { unfold progress.
    destruct (CodeMarkers.language (parseCodeBlockMarkers content));
      [congruence | reflexivity | reflexivity]. }
  assert (Hpython :
            CodeMarkers.language (parseCodeBlockMarkers content) = python ->
            progress = Observations.python_messages py content).
  { unfold progress. intros ->. reflexivity. }
  split; [|split; [|split; [|split; [|split]]]].
  - apply Forall_forall. intros u _. apply status_literal_known.
  - exists progress, final.
    split; [exact Hshape|]. split; [exact Hscript|]. split; [exact Hpython|].
    split; [exact Hid|]. split; [exact Hterm|].
    rewrite Hshape. apply run_shape_statuses.
  - exists (length progress), (status final).
    rewrite Hshape, run_shape_statuses.
    split; [reflexivity|]. split; [exact Hterm|]. split.
    + intros H. rewrite (Hscript H).
      destruct (CodeMarkers.language (parseCodeBlockMarkers content));
        reflexivity.
    + intros H. rewrite (Hpython H). reflexivity.
  - rewrite Hshape. reflexivity.
  - intros trace later m Hm Hus.
    rewrite tracker_shows_latest; [apply last_statuses | exact Hm |].
    apply (appended_then_replaced_prefix _ later). rewrite <- Hus, Hshape.
    apply run_shape_appended_then_replaced.
  - intros trace m Hm Hown. exists final. split; [|exact Hterm].
    apply (tracker_shows_terminal runId progress); [exact Hm|].
    rewrite Hown. exact Hshape.
Qed.

(** *** Instances *)



Lemma C7_python_no_output_witness :
  run_record (Ok tt) dead_sandbox (interpreter [] (lit "x = 1") [] (Ok tt))
    run1 (fenced "python" "x = 1") ∅
  = Some {| id := run1; contents := []; status := completed |}.
Proof.
  refine (C7_python_no_output (Ok tt) dead_sandbox
            (interpreter [] (lit "x = 1") [] (Ok tt))
            run1 (fenced "python" "x = 1") ∅ _ eq_refl _ _).
  - vm_compute. reflexivity.
  - reflexivity.
Defined.

Lemma C4_run_status_sequence_witness :
  (exists final,
     find_run run1
       (apply_updaters
          [run_appended run1;
           run_appended run2;
           loading run1 (lit "Running JavaScript in WebContainer...");
           loading run2 (lit "Running JavaScript in WebContainer...");
           loading run1 (lit "Running JavaScript code...");
           ReplaceRun {| id := run1;
                         contents := [{| type := text; value := lit "hi" |}];
                         status := completed |};
           loading run2 (lit "Running JavaScript code...")]
          {| outputs := []; language := javascript |})
     = Some final
     /\ is_terminal (status final) = true)
  /\ (exists final,
        click_updaters (Ok tt) dead_sandbox
          (interpreter [lit "Loading numpy"; lit "Loaded numpy"]
             (lit "import numpy") [] (Ok tt))
          run1 (fenced "python" "import numpy") ∅
        = [run_appended run1;
           loading run1 (lit "Loading numpy");
           loading run1 (lit "Loaded numpy");
           ReplaceRun final]
        /\ is_terminal (status final) = true).
Proof.
  split.
  - refine (proj2 (proj2 (proj2 (proj2 (proj2
              (C4_run_status_sequence (Ok tt)
                 (sandbox noon [] 0 true [lit "hi"] 0) no_interpreter run1
                 (lit "console.log('hi')") ∅))))) _ _ _ _).
    + reflexivity.
    + vm_compute. reflexivity.
  - destruct (proj1 (proj2
                (C4_run_status_sequence (Ok tt) dead_sandbox
                   (interpreter [lit "Loading numpy"; lit "Loaded numpy"]
                      (lit "import numpy") [] (Ok tt))
                   run1 (fenced "python" "import numpy") ∅)))
      as (progress & final & Hus & _ & Hpy & _ & Hterm & _).
    exists final. split; [|exact Hterm].
    rewrite Hus, (Hpy eq_refl). reflexivity.
Defined.

Lemma C4_counterexample :
  exists first,
    head (click_updaters (Ok tt) dead_sandbox
            (interpreter [] (lit "x = 1") [] (Ok tt))
            run1 (fenced "python" "x = 1") ∅)
    = Some (AppendRun first)
    /\ status_literal (status first) = lit "in_progress"
    /\ ~ In (status_literal (status first)) spec_status_names
    /\ statuses (click_updaters (Ok tt) dead_sandbox
                   (interpreter [] (lit "x = 1") [] (Ok tt))
                   run1 (fenced "python" "x = 1") ∅)
       = [in_progress; completed].
Proof.
  eexists. split; [vm_compute; reflexivity|].
  split; [reflexivity|]. split; [|vm_compute; reflexivity].
  vm_compute. intros [H | [H | [H | [H | []]]]]; discriminate H.
Qed.

End RunStates.

(* ===================================================================== *)
(** * Further properties *)
(* ===================================================================== *)

(** ** The classifier at its edges *)

Section ClassifierEdges.
Import Editor Observations.

(** X1: the fence pattern matches a text exactly when the text is white
    space (line feeds included), three backticks, a run of word
    characters, white space and a line feed, followed by anything; the
    captured group is the run of word characters. *)
Theorem X1_fence_pattern_characterised (code tag : jsstring) :
  codeBlockRegex code = Some tag
  <-> exists ws ws' rest,
        Forall (fun c => is_space c = true) ws
        /\ Forall (fun c => is_word c = true) tag
        /\ Forall (fun c => is_space c = true) ws'
        /\ code = ws ++ fence ++ tag ++ ws' ++ LF :: rest.
Proof.
  split.
  - apply codeBlockRegex_inv.
  - intros (ws & ws' & rest & Hws & Htag & Hws' & ->).
    apply codeBlockRegex_matches; assumption.
Qed.

Lemma no_match_without_line_feed (code : jsstring) :
  Forall (fun c => c <> LF) code -> codeBlockRegex code = None.
Proof.
  intros Hcode. destruct (codeBlockRegex code) as [tag|] eqn:E; [|reflexivity].
  exfalso. apply codeBlockRegex_inv in E as (ws & ws' & rest & _ & _ & _ & ->).
  rewrite !Forall_app in Hcode. destruct Hcode as (_ & _ & _ & _ & H).
  inversion H as [|x l Hx _]. apply Hx. reflexivity.
Qed.

(** X2: a text without a line feed is never taken as fenced: it is
    returned unchanged, backticks included, and classified by its
    content. *)
Theorem X2_single_line_is_unfenced (code : jsstring) :
  Forall (fun c => c <> LF) code ->
  parseCodeBlockMarkers code =
    {| cleanedCode := code; language := detectLanguageFromContent code |}.
Proof.
  intros Hcode. apply parse_unfenced. apply no_match_without_line_feed.
  exact Hcode.
Qed.

Lemma X2_single_line_is_unfenced_witness :
  parseCodeBlockMarkers (lit "```js console.log(1)```")
  = {| cleanedCode := lit "```js console.log(1)```"; language := javascript |}.
Proof.
  refine (X2_single_line_is_unfenced (lit "```js console.log(1)```") _).
  repeat (constructor; [discriminate|]). constructor.
Defined.

(** What lies between the first and the last line feed of a text is what
    is left when the first and the last line are stripped. *)
Lemma lines_between_first_last (first middle last_line : jsstring) :
  Forall (fun c => c <> LF) first ->
  Forall (fun c => c <> LF) last_line ->
  join [LF] (spec_lines_between (first ++ LF :: middle ++ LF :: last_line))
  = middle.
Proof.
  intros Hfirst Hlast. unfold spec_lines_between.
  rewrite split_lines_first by exact Hfirst. cbn [tl].
  rewrite split_lines_last by exact Hlast.
  rewrite removelast_last. apply join_split_lines.
Qed.

(** X3: when a line of blanks comes before the fence line, the pattern
    still matches and the tag still gives the language, but the line that
    is stripped is the line of blanks: the fence line stays at the head of
    the cleaned code. *)
Theorem X3_fence_below_a_blank_line_is_kept
    (blank ws tag ws' body last_line : jsstring) (lang : CodeLanguage) :
  Forall inline_space blank ->
  Forall (fun c => is_space c = true) ws ->
  Forall (fun c => is_space c = true) ws' ->
  Forall (fun c => c <> LF) last_line ->
  spec_canonical_tag (toLowerCase tag) = Some lang ->
  parseCodeBlockMarkers
    (blank ++ LF :: ws ++ fence ++ tag ++ ws' ++ LF :: body ++ LF :: last_line)
  = {| cleanedCode := ws ++ fence ++ tag ++ ws' ++ LF :: body;
       language := lang |}.
Proof.
  intros Hblank Hws Hws' Hlast Hlang.
  pose proof (canonical_tag_word tag lang Hlang) as Htag.
  assert (Hmatch :
            codeBlockRegex
              (blank ++ LF :: ws ++ fence ++ tag ++ ws' ++ LF :: body
                     ++ LF :: last_line) = Some tag).
  { replace (blank ++ LF :: ws ++ fence ++ tag ++ ws' ++ LF :: body
                   ++ LF :: last_line)
      with ((blank ++ LF :: ws) ++ fence ++ tag ++ ws' ++ LF :: body
                                ++ LF :: last_line)
      by (rewrite <- app_assoc; reflexivity).
    apply codeBlockRegex_matches; [|exact Htag|exact Hws'].
    apply Forall_app. split; [apply inline_space_is_space; exact Hblank|].
    constructor; [reflexivity | exact Hws]. }
  rewrite (parse_fenced _ _ Hmatch), Hlang. f_equal.
  replace (ws ++ fence ++ tag ++ ws' ++ LF :: body ++ LF :: last_line)
    with ((ws ++ fence ++ tag ++ ws' ++ LF :: body) ++ LF :: last_line)
    by (rewrite <- !app_assoc; reflexivity).
  apply lines_between_first_last; [apply inline_space_no_LF; exact Hblank|exact Hlast].
Qed.

Lemma X3_fence_below_a_blank_line_is_kept_witness :
  parseCodeBlockMarkers
    ([LF] ++ lit "```py" ++ [LF] ++ lit "print(1)" ++ [LF] ++ lit "```")
  = {| cleanedCode := lit "```py" ++ [LF] ++ lit "print(1)";
       language := python |}.
Proof.
  refine (X3_fence_below_a_blank_line_is_kept [] [] (lit "py") []
            (lit "print(1)") (lit "```") python _ _ _ _ eq_refl).
  - constructor.
  - constructor.
  - constructor.
  - repeat (constructor; [discriminate|]). constructor.
Defined.

(** The run of a class that a text begins with is determined by the
    text. *)
Lemma span_unique (cls : N -> bool) (a b r r' : jsstring) :
  Forall (fun c => cls c = true) a ->
  Forall (fun c => cls c = true) b ->
  stops cls r -> stops cls r' ->
  a ++ r = b ++ r' ->
  a = b /\ r = r'.
Proof.
  intros Ha. revert b. induction Ha as [|x a Hx Ha IH]; intros b Hb Hr Hr' E.
  - destruct Hb as [|y b Hy Hb]; [auto|].
    simpl in E. subst r. simpl in Hr. congruence.
  - destruct Hb as [|y b Hy Hb].
    + simpl in E. subst r'. simpl in Hr'. congruence.
    + simpl in E. injection E as -> E.
      destruct (IH b Hb Hr Hr' E) as [-> ->]. auto.
Qed.

Lemma blanks_then_line_feed (ws sp rest rest' : jsstring) (c : N) :
  Forall (fun c => is_space c = true) ws ->
  Forall inline_space sp ->
  is_space c = false ->
  ws ++ LF :: rest <> sp ++ c :: rest'.
Proof.
  intros Hws Hsp Hc. revert ws Hws.
  induction Hsp as [|x sp [_ Hx] Hsp IH]; intros ws Hws E.
  - destruct Hws as [|y ws Hy _]; simpl in E; injection E as E _.
    + subst c. discriminate Hc.
    + subst c. congruence.
  - destruct Hws as [|y ws Hy Hws]; simpl in E; injection E as E E'.
    + subst x. apply Hx. reflexivity.
    + exact (IH ws Hws E').
Qed.

(** X4: a first line that goes on after the tag (a title after the tag, a
    tag such as [c++]) is no fence for the classifier: the pattern does
    not match and the text is returned unchanged, markers included. *)
Theorem X4_text_after_the_tag_is_no_fence
    (ws tag sp rest : jsstring) (c : N) :
  Forall (fun c => is_space c = true) ws ->
  Forall (fun c => is_word c = true) tag ->
  Forall inline_space sp ->
  is_space c = false ->
  (sp = [] -> is_word c = false) ->
  let code := ws ++ fence ++ tag ++ sp ++ c :: rest in
  codeBlockRegex code = None
  /\ parseCodeBlockMarkers code =
       {| cleanedCode := code; language := detectLanguageFromContent code |}.
Proof.
  intros Hws Htag Hsp Hc Hword code.
  assert (Hnone : codeBlockRegex code = None).
  { destruct (codeBlockRegex code) as [tag0|] eqn:E; [|reflexivity].
    exfalso.
    apply codeBlockRegex_inv in E as (ws0 & ws0' & rest0 & Hws0 & Htag0 & Hws0' & E).
    unfold code in E.
    apply (span_unique is_space) in E as [_ E];
      [|exact Hws|exact Hws0|reflexivity|reflexivity].
    unfold fence in E. simpl in E. injection E as E.
    apply (span_unique is_word) in E as [_ E]; [|exact Htag|exact Htag0| |].
    - symmetry in E. exact (blanks_then_line_feed _ _ _ _ _ Hws0' Hsp Hc E).
    - destruct Hsp as [|x sp [Hx _] _]; simpl.
      + apply Hword. reflexivity.
      + apply is_space_not_word. exact Hx.
    - destruct Hws0' as [|y ws0' Hy _]; simpl; [reflexivity|].
      apply is_space_not_word. exact Hy. }
  split; [exact Hnone | apply parse_unfenced; exact Hnone].
Qed.

Lemma X4_text_after_the_tag_is_no_fence_witness :
  parseCodeBlockMarkers
    (lit "```python title" ++ [LF] ++ lit "print(1)" ++ [LF] ++ lit "```")
  = {| cleanedCode :=
         lit "```python title" ++ [LF] ++ lit "print(1)" ++ [LF] ++ lit "```";
       language := python |}.
Proof.
  refine (proj2 (X4_text_after_the_tag_is_no_fence [] (lit "python") (lit " ")
                   (lit "itle" ++ [LF] ++ lit "print(1)" ++ [LF] ++ lit "```")
                   116 _ _ _ eq_refl _)).
  - constructor.
  - repeat constructor.
  - repeat (constructor; [split; [reflexivity | discriminate] |]). constructor.
  - discriminate.
Defined.

Lemma contains_shorter (s a b : jsstring) :
  contains s (a ++ b) -> contains s a.
Proof.
  intros (before & after & ->). exists before, (b ++ after).
  rewrite <- app_assoc. reflexivity.
Qed.

Lemma includes_shorter (s a b : jsstring) :
  includes s (a ++ b) = true -> includes s a = true.
Proof. rewrite !includes_spec. apply contains_shorter. Qed.

(** X5: the detector of the editor and the detector of the classifier
    agree in one direction: what the editor's takes for python the
    classifier's takes for python, what the classifier's takes for
    javascript the editor's does not take for python, and what the
    classifier's takes for typescript the editor's takes for typescript
    unless the text contains [type ] followed by a blank. *)
Theorem X5_editor_and_classifier_detectors (content : jsstring) :
  (detectLanguage content = python ->
   detectLanguageFromContent content = python)
  /\ (detectLanguageFromContent content = javascript ->
      detectLanguage content <> python)
  /\ (detectLanguageFromContent content = typescript ->
      includes content (lit "type ") = false ->
      detectLanguage content = typescript).
Proof.
  unfold detectLanguage, detectLanguageFromContent.
  destruct (includes content (lit "def ")) eqn:Hdef;
    destruct (includes content (lit "import ")) eqn:Himport;
    destruct (includes content (lit "print(")) eqn:Hprint;
    cbn [orb]; try (repeat split; (reflexivity || discriminate)).
  destruct (includes content main_guard) eqn:Hmain; cbn [orb];
    [repeat split; discriminate|].
  split; [destruct (_ || _); discriminate|].
  split; [destruct (_ || _), (_ || _); discriminate|].
  intros Hts Htype. rewrite Htype in Hts.
  destruct (includes content (lit ": ")) eqn:Hcolon; [reflexivity|].
  assert (Hs : includes content (lit ": string") = false).
  { destruct (includes content (lit ": string")) eqn:E; [|reflexivity].
    apply (includes_shorter content (lit ": ") (lit "string")) in E. congruence. }
  assert (Hn : includes content (lit ": number") = false).
  { destruct (includes content (lit ": number")) eqn:E; [|reflexivity].
    apply (includes_shorter content (lit ": ") (lit "number")) in E. congruence. }
  assert (Hb : includes content (lit ": boolean") = false).
  { destruct (includes content (lit ": boolean")) eqn:E; [|reflexivity].
    apply (includes_shorter content (lit ": ") (lit "boolean")) in E. congruence. }
  rewrite Hs, Hn, Hb in Hts. cbn [orb] in *.
  destruct (includes content (lit "interface ")); [reflexivity|].
  cbn [orb] in *.
  destruct (includes content (lit "<")); [|discriminate].
  destruct (includes content (lit ">")); [reflexivity|discriminate].
Qed.

Lemma X5_editor_and_classifier_detectors_witness :
  detectLanguageFromContent (lit "print('a')") = python
  /\ detectLanguage (lit "let n: number = 1") = typescript.
Proof.
  split.
  - exact (proj1 (X5_editor_and_classifier_detectors (lit "print('a')")) eq_refl).
  - exact (proj2 (proj2 (X5_editor_and_classifier_detectors
                           (lit "let n: number = 1"))) eq_refl eq_refl).
Defined.

Lemma toLowerCase_idempotent (s : jsstring) :
  toLowerCase (toLowerCase s) = toLowerCase s.
Proof.
  unfold toLowerCase. rewrite map_map. apply map_ext. intros c.
  destruct (is_upper c) eqn:E; [|rewrite E; reflexivity].
  assert (H : is_upper (c + 32) = false); [|rewrite H; reflexivity].
  unfold is_upper in *. rewrite andb_true_iff, !N.leb_le in E.
  rewrite andb_false_iff, !N.leb_gt. lia.
Qed.

(** X21: the letter case of a fence tag never matters: a text with a
    fence line gets the same cleaned code and the same language as the
    text with the tag in lower case, whether the tag is recognized or
    not. *)
Theorem X21_tag_case_is_ignored (ws tag ws' rest : jsstring) :
  Forall inline_space ws ->
  Forall (fun c => is_word c = true) tag ->
  Forall inline_space ws' ->
  parseCodeBlockMarkers (ws ++ fence ++ tag ++ ws' ++ LF :: rest)
  = parseCodeBlockMarkers (ws ++ fence ++ toLowerCase tag ++ ws' ++ LF :: rest).
Proof.
  intros Hws Htag Hws'.
  pose proof (toLowerCase_word tag Htag) as Hlow.
  rewrite (parse_fenced _ tag) by (apply fenced_matches; assumption).
  rewrite (parse_fenced _ (toLowerCase tag))
    by (apply fenced_matches; assumption).
  rewrite !lines_between_fenced by assumption.
  rewrite toLowerCase_idempotent. reflexivity.
Qed.

Lemma X21_tag_case_is_ignored_witness :
  parseCodeBlockMarkers (lit "```TypeScript" ++ [LF] ++ lit "x" ++ [LF] ++ lit "```")
  = parseCodeBlockMarkers
      (lit "```typescript" ++ [LF] ++ lit "x" ++ [LF] ++ lit "```").
Proof.
  refine (X21_tag_case_is_ignored [] (lit "TypeScript") []
            (lit "x" ++ [LF] ++ lit "```") _ _ _).
  - constructor.
  - repeat constructor.
  - constructor.
Defined.

(** X22: the Run action is never disabled, whatever the content is, and
    its description always names the language the classifier found; the
    fallback description is never shown. *)
Theorem X22_run_action_is_always_enabled (content : jsstring) :
  Artifact.run_isDisabled content = false
  /\ Artifact.run_description content
     = match language (parseCodeBlockMarkers content) with
       | python => lit "Execute Python code"
       | javascript => lit "Execute JavaScript code"
       | typescript => lit "Execute TypeScript code"
       end
  /\ Artifact.run_description content <> lit "Execute code".
Proof.
  unfold Artifact.run_isDisabled, Artifact.run_description.
  destruct (language (parseCodeBlockMarkers content));
    repeat split; vm_compute; congruence.
Qed.

End ClassifierEdges.

(** ** The script backend at its edges *)

Section ScriptEdges.
Import Eff Provider Client Scenarios Observations.

(** X6: the replacement of the extension turns a final [.ts] into [.js]
    and nothing else: a name that ends with [.ts] keeps its stem, however
    many [.ts] the stem contains, and any other name comes back as it
    is. *)
Theorem X6_replace_ts_extension :
  (forall stem, replace_ts_extension (stem ++ lit ".ts") = stem ++ lit ".js")
  /\ (forall name,
        ~ ends_with name (lit ".ts") -> replace_ts_extension name = name).
Proof.
  split.
  - intros stem. unfold replace_ts_extension. rewrite rev_app_distr.
    change (rev (lit ".ts")) with [115; 116; 46].
    cbn [app startsWith]. rewrite !N.eqb_refl. cbn [andb skipn].
    rewrite drop_0, rev_involutive. reflexivity.
  - intros name Hname. unfold replace_ts_extension.
    destruct (startsWith (rev name) (rev (lit ".ts"))) eqn:E; [|reflexivity].
    exfalso. apply Hname. apply startsWith_spec in E as [rest E].
    exists (rev rest). rewrite <- (rev_involutive name), E, rev_app_distr.
    rewrite rev_involutive. reflexivity.
Qed.

Lemma X6_replace_ts_extension_witness :
  replace_ts_extension (lit "notes.txt") = lit "notes.txt".
Proof.
  refine (proj2 X6_replace_ts_extension (lit "notes.txt") _).
  intros [stem H]. apply (f_equal (@rev N)) in H.
  rewrite rev_app_distr in H. vm_compute in H.
  destruct (rev stem); discriminate H.
Defined.

Lemma ts_js_names_differ (t1 t2 : N) :
  ts_temp_filename t1 <> js_temp_filename t2.
Proof.
  unfold ts_temp_filename, js_temp_filename. intros H.
  apply app_inv_head in H. apply (f_equal (@rev N)) in H.
  rewrite !rev_app_distr in H. simpl in H. discriminate H.
Qed.

(** X7: the source files of a JavaScript run and of a TypeScript run
    never have the same name, but the compiled file of a TypeScript run
    has the name of the source file of a JavaScript run exactly when the
    two runs read the same value from the clock. *)
Theorem X7_compiled_file_shares_the_javascript_name (t1 t2 : N) :
  ts_temp_filename t1 <> js_temp_filename t2
  /\ (replace_ts_extension (ts_temp_filename t1) = js_temp_filename t2
      <-> t1 = t2).
Proof.
  split; [apply ts_js_names_differ|].
  rewrite replace_ts_extension_temp.
  exact (proj1 (temp_filename_eq_iff t1 t2)).
Qed.

(** X8: after a JavaScript run whose runtime was started, the temporary
    file is gone and every other file is as the runtime left it; when the
    runtime could not be started nothing is cleaned up: the files are as
    the failed start left them. *)
Theorem X8_javascript_run_cleans_up (sb : Sandbox) (code : jsstring) (fs : FS) :
  boot sb = Ok tt ->
  let name := js_temp_filename (Date_now sb) in
  (forall p fs1,
      spawn sb (lit "node") [name] node_env (<[name := code]> fs) = (Ok p, fs1) ->
      snd (executeJsCode sb code fs) !! name = None
      /\ forall path, path <> name ->
                      snd (executeJsCode sb code fs) !! path = fs1 !! path)
  /\ (forall e fs1,
        spawn sb (lit "node") [name] node_env (<[name := code]> fs)
        = (Throw e, fs1) ->
        snd (executeJsCode sb code fs) = fs1).
Proof.
  intros Hboot name. split.
  - intros p fs1 Hspawn. rewrite executeJsCode_spec by exact Hboot.
    cbv zeta. fold name. rewrite Hspawn. cbn [snd]. split.
    + apply lookup_delete_eq.
    + intros path Hpath. apply lookup_delete_ne. congruence.
  - intros e fs1 Hspawn. rewrite executeJsCode_spec by exact Hboot.
    cbv zeta. fold name. rewrite Hspawn. reflexivity.
Qed.

Lemma X8_javascript_run_cleans_up_witness :
  snd (executeJsCode (sandbox noon [] 0 true [lit "hi"] 0)
         (lit "console.log('hi')") ∅) !! js_temp_filename noon = None.
Proof.
  exact (proj1 (proj1 (X8_javascript_run_cleans_up
                         (sandbox noon [] 0 true [lit "hi"] 0)
                         (lit "console.log('hi')") ∅ eq_refl)
                 {| output_chunks := [lit "hi"]; exit := 0 |}
                 (<[js_temp_filename noon := lit "console.log('hi')"]> ∅)
                 eq_refl)).
Defined.

(** X9: a TypeScript run removes its two temporary files only when the
    runtime was started on the compiled file and has ended; every other
    file is then as the runtime left it.  In every other case nothing is
    removed: when the compiler could not be started the files are as the
    failed start left them, when no compiled file is found they are, the
    source file among them, as the compiler left them, and when the
    runtime could not be started they are as that failed start left
    them. *)
Theorem X9_typescript_run_cleans_up (sb : Sandbox) (code : jsstring) (fs : FS) :
  boot sb = Ok tt ->
  let tsName := ts_temp_filename (Date_now sb) in
  let jsName := js_temp_filename (Date_now sb) in
  let written :=
    <[lit "tsconfig.json" := tsconfig_json]> (<[tsName := code]> fs) in
  (forall e fs1,
      spawn sb (lit "npx") (tsc_args tsName) [] written = (Throw e, fs1) ->
      snd (executeTypeScript sb code fs) = fs1)
  /\ (forall p fs1,
        spawn sb (lit "npx") (tsc_args tsName) [] written = (Ok p, fs1) ->
        (fs1 !! jsName = None -> snd (executeTypeScript sb code fs) = fs1)
        /\ (is_Some (fs1 !! jsName) ->
            (forall e fs2,
                spawn sb (lit "node") [jsName] node_env fs1 = (Throw e, fs2) ->
                snd (executeTypeScript sb code fs) = fs2)
            /\ (forall q fs2,
                  spawn sb (lit "node") [jsName] node_env fs1 = (Ok q, fs2) ->
                  snd (executeTypeScript sb code fs)
                  = delete jsName (delete tsName fs2)
                  /\ snd (executeTypeScript sb code fs) !! tsName = None
                  /\ snd (executeTypeScript sb code fs) !! jsName = None
                  /\ forall path,
                       path <> tsName -> path <> jsName ->
                       snd (executeTypeScript sb code fs) !! path
                       = fs2 !! path))).
Proof.
  intros Hboot tsName jsName written. split.
  - intros e fs1 Hspawn. rewrite executeTypeScript_spec by exact Hboot.
    cbv zeta. fold tsName jsName written. rewrite Hspawn. reflexivity.
  - intros p fs1 Hspawn. split.
    + intros Hnone. rewrite executeTypeScript_spec by exact Hboot. cbv zeta.
      fold tsName jsName written. rewrite Hspawn, Hnone. reflexivity.
    + intros [c Hc]. split.
      * intros e fs2 Hnode.
        rewrite executeTypeScript_spec by exact Hboot. cbv zeta.
        fold tsName jsName written. rewrite Hspawn, Hc, Hnode. reflexivity.
      * intros q fs2 Hnode.
        rewrite executeTypeScript_spec by exact Hboot. cbv zeta.
        fold tsName jsName written. rewrite Hspawn, Hc, Hnode. cbn [snd].
        assert (Hne : tsName <> jsName) by apply ts_js_names_differ.
        split; [reflexivity|]. split; [|split].
        -- rewrite lookup_delete_ne by congruence. apply lookup_delete_eq.
        -- apply lookup_delete_eq.
        -- intros path H1 H2. rewrite !lookup_delete_ne by congruence.
           reflexivity.
Qed.

Lemma X9_typescript_run_cleans_up_witness :
  snd (executeTypeScript (sandbox noon [ts_diagnostic] 2 false [] 0)
         (lit "const n: number = 'a'") ∅) !! ts_temp_filename noon
  = Some (lit "const n: number = 'a'")
  /\ snd (executeTypeScript (sandbox noon [] 0 true [lit "1"] 0)
            (lit "console.log(1)") ∅) !! ts_temp_filename noon
     = None.
Proof.
  split.
  - rewrite (proj1 (proj2 (X9_typescript_run_cleans_up
                      (sandbox noon [ts_diagnostic] 2 false [] 0)
                      (lit "const n: number = 'a'") ∅ eq_refl)
                    {| output_chunks := [ts_diagnostic]; exit := 2 |}
                    (<[lit "tsconfig.json" := tsconfig_json]>
                       (<[ts_temp_filename noon :=
                            lit "const n: number = 'a'"]> ∅))
                    eq_refl)).
    + vm_compute. reflexivity.
    + vm_compute. reflexivity.
  - refine (proj1 (proj2 (proj2 (proj2 (proj2 (X9_typescript_run_cleans_up
                      (sandbox noon [] 0 true [lit "1"] 0)
                      (lit "console.log(1)") ∅ eq_refl)
                    {| output_chunks := []; exit := 0 |}
                    (<[js_temp_filename noon := lit "compiled"]>
                       (<[lit "tsconfig.json" := tsconfig_json]>
                          (<[ts_temp_filename noon := lit "console.log(1)"]> ∅)))
                    _) _)
                 {| output_chunks := [lit "1"]; exit := 0 |}
                 (<[js_temp_filename noon := lit "compiled"]>
                    (<[lit "tsconfig.json" := tsconfig_json]>
                       (<[ts_temp_filename noon := lit "console.log(1)"]> ∅)))
                 _))).
    + vm_compute. reflexivity.
    + eexists. vm_compute. reflexivity.
    + vm_compute. reflexivity.
Defined.

Lemma executor_boot_failure (sb : Sandbox) (code : jsstring)
    (lang : CodeLanguage) (fs : FS) (e : Error) :
  boot sb = Throw e ->
  executeJsOrTs (Ok tt) sb code lang fs
  = (Ok {| output := []; error := Some (message e) |}, fs).
Proof.
  intros Hboot. rewrite executeJsOrTs_spec.
  destruct lang; unfold executeJsCode, executeTypeScript, try_catch, bind, await;
    rewrite Hboot; reflexivity.
Qed.

(** X10: the executor of a script run never throws.  When the provider
    module cannot be imported, or the sandbox failed to boot, it returns
    an empty output with the message of the error, and no file of the
    sandbox is touched. *)
Theorem X10_executor_reports_failures (imp : Result unit) (sb : Sandbox)
    (code : jsstring) (lang : CodeLanguage) (fs : FS) :
  exists result fs',
    executeJsOrTs imp sb code lang fs = (Ok result, fs')
    /\ (forall e, imp = Throw e ->
                  result = {| output := []; error := Some (message e) |}
                  /\ fs' = fs)
    /\ (forall e, imp = Ok tt -> boot sb = Throw e ->
                  result = {| output := []; error := Some (message e) |}
                  /\ fs' = fs).
Proof.
  destruct (executeJsOrTs_total imp sb code lang fs) as (result & fs' & H).
  exists result, fs'. split; [exact H|]. split.
  - intros e ->. unfold executeJsOrTs, try_catch, bind, await, ret in H.
    injection H as <- <-. auto.
  - intros e -> Hboot. rewrite (executor_boot_failure _ _ _ _ _ Hboot) in H.
    injection H as <- <-. auto.
Qed.

(** X11: a script run whose sandbox failed to boot ends [failed] with the
    text [Error: ] followed by the message of the error, unless that
    message is empty: an error with an empty message makes the run end
    [completed] with the no-output text. *)
Theorem X11_failure_with_empty_message_is_shown_as_success
    (sb : Sandbox) (py : Pyodide) (runId content : jsstring) (fs : FS)
    (e : Error) :
  CodeMarkers.language (parseCodeBlockMarkers content) <> python ->
  boot sb = Throw e ->
  (message e <> [] ->
   run_record (Ok tt) sb py runId content fs
   = Some {| id := runId;
             contents := [{| type := text;
                             value := lit "Error: " ++ message e |}];
             status := failed |})
  /\ (message e = [] ->
      run_record (Ok tt) sb py runId content fs
      = Some {| id := runId;
                contents := [{| type := text; value := no_output_value |}];
                status := completed |}).
Proof.
  intros Hlang Hboot.
  rewrite (script_run_record (Ok tt) sb py runId content fs fs
             {| output := []; error := Some (message e) |} Hlang
             (executor_boot_failure _ _ _ _ _ Hboot)).
  unfold script_terminal. cbn [error output truthy].
  split; intros Hmsg.
  - destruct (message e); [congruence | reflexivity].
  - rewrite Hmsg. reflexivity.
Qed.

Lemma X11_failure_with_empty_message_witness :
  run_record (Ok tt)
    {| boot := Throw {| message := [] |}; Date_now := noon;
       spawn := fun _ _ _ (fs : FS) => (Throw ENOENT, fs) |}
    no_interpreter run1 (lit "console.log(1)") ∅
  = Some {| id := run1;
            contents := [{| type := text; value := no_output_value |}];
            status := completed |}.
Proof.
  refine (proj2 (X11_failure_with_empty_message_is_shown_as_success
                   {| boot := Throw {| message := [] |}; Date_now := noon;
                      spawn := fun _ _ _ (fs : FS) => (Throw ENOENT, fs) |}
                   no_interpreter run1 (lit "console.log(1)") ∅
                   {| message := [] |} _ eq_refl) eq_refl).
  vm_compute. discriminate.
Defined.

(** X12: the run record of a script run holds, whatever happened, exactly
    one event, a text that is not empty, and its status is terminal. *)
Theorem X12_script_record_has_one_text (imp : Result unit) (sb : Sandbox)
    (py : Pyodide) (runId content : jsstring) (fs : FS) :
  CodeMarkers.language (parseCodeBlockMarkers content) <> python ->
  exists shown st,
    run_record imp sb py runId content fs
    = Some {| id := runId;
              contents := [{| type := text; value := shown |}];
              status := st |}
    /\ shown <> []
    /\ is_terminal st = true.
Proof.
  intros Hlang.
  destruct (executeJsOrTs_total imp sb
              (cleanedCode (parseCodeBlockMarkers content))
              (CodeMarkers.language (parseCodeBlockMarkers content)) fs)
    as (result & fs' & H).
  rewrite (script_run_record imp sb py runId content fs fs' result Hlang H).
  unfold script_terminal. eexists _, _. split; [reflexivity|]. split.
  - destruct (truthy (error result)); [discriminate|].
    destruct (output result); discriminate.
  - destruct (truthy (error result)); reflexivity.
Qed.

Lemma X12_script_record_has_one_text_witness :
  exists shown st,
    run_record (Ok tt) dead_sandbox no_interpreter run1 (lit "console.log(1)") ∅
    = Some {| id := run1;
              contents := [{| type := text; value := shown |}];
              status := st |}
    /\ shown <> []
    /\ is_terminal st = true.
Proof.
  refine (X12_script_record_has_one_text (Ok tt) dead_sandbox no_interpreter
            run1 (lit "console.log(1)") ∅ _).
  vm_compute. discriminate.
Defined.

End ScriptEdges.

(** ** The tracker under many runs *)

Section TrackerEdges.
Import Eff Provider Client Scenarios Observations.

Lemma in_ids_filter (P : ConsoleOutput -> Prop) `{!forall o, Decision (P o)}
    (outs : list ConsoleOutput) (x : jsstring) :
  In x (map id (filter P outs)) ->
  exists o, In o outs /\ id o = x /\ P o.
Proof.
  induction outs as [|o outs IH]; [intros []|].
  rewrite filter_cons. destruct (decide (P o)) as [Ho|Ho]; simpl.
  - intros [<- | Hin].
    + exists o. auto.
    + destruct (IH Hin) as (o' & H1 & H2 & H3). exists o'. auto.
  - intros Hin. destruct (IH Hin) as (o' & H1 & H2 & H3). exists o'. auto.
Qed.

Lemma NoDup_ids_filter (P : ConsoleOutput -> Prop) `{!forall o, Decision (P o)}
    (outs : list ConsoleOutput) :
  List.NoDup (map id outs) -> List.NoDup (map id (filter P outs)).
Proof.
  induction outs as [|o outs IH]; simpl; intros Hnd; [constructor|].
  inversion Hnd as [|x l Hx Hl]; subst.
  rewrite filter_cons. destruct (decide (P o)); [|exact (IH Hl)].
  simpl. constructor; [|exact (IH Hl)].
  intros Hin. apply Hx. apply in_ids_filter in Hin as (o' & H1 & H2 & _).
  rewrite <- H2. apply in_map. exact H1.
Qed.

(** One update keeps the ids apart, provided a record is appended only
    for an id the tracker does not hold. *)
Lemma apply_updater_ids_unique (u : Updater) (m : Metadata) :
  List.NoDup (run_ids m) ->
  (forall r, u = AppendRun r -> ~ In (id r) (run_ids m)) ->
  List.NoDup (run_ids (apply_updater u m)).
Proof.
  unfold run_ids. intros Hm Hfresh. destruct u as [r|r]; simpl.
  - rewrite map_app. simpl. apply List.NoDup_app.
    + exact Hm.
    + constructor; [intros [] | constructor].
    + intros x Hx [<- | []]. exact (Hfresh r eq_refl Hx).
  - rewrite map_app. simpl. apply List.NoDup_app.
    + apply NoDup_ids_filter. exact Hm.
    + constructor; [intros [] | constructor].
    + intros x Hx [<- | []].
      apply in_ids_filter in Hx as (o & _ & H1 & H2). exact (H2 H1).
Qed.

(** An id in the tracker comes from an update of that id, or was there
    before. *)
Lemma ids_come_from_updates (trace : list Updater) (m : Metadata)
    (rid : jsstring) :
  In rid (run_ids (apply_updaters trace m)) ->
  In rid (run_ids m) \/ own_updaters rid trace <> [].
Proof.
  induction trace as [|u trace IH] using rev_ind; [auto|].
  rewrite apply_updaters_snoc. unfold own_updaters in *.
  rewrite filter_app, filter_cons, filter_nil.
  intros Hin.
  destruct (decide (id (updated_run u) = rid)) as [Hu|Hu].
  - right. intros H. apply app_eq_nil in H as [_ H]. discriminate H.
  - rewrite app_nil_r.
    apply IH. unfold run_ids in *. destruct u as [r|r]; simpl in *.
    + rewrite map_app in Hin. apply in_app_or in Hin as [H | [H | []]];
        [exact H | contradiction].
    + rewrite map_app in Hin. apply in_app_or in Hin as [H | [H | []]];
        [|contradiction].
      apply in_ids_filter in H as (o & H1 & H2 & _).
      rewrite <- H2. apply in_map. exact H1.
Qed.

(** X13: from an empty tracker, when the record of every run is first
    appended and afterwards only replaced, the tracker never holds two
    records with the same id, however the updates of the runs are
    interleaved. *)
Theorem X13_tracker_ids_stay_unique (trace : list Updater) :
  (forall rid, appended_then_replaced (own_updaters rid trace)) ->
  List.NoDup (run_ids (apply_updaters trace no_runs)).
Proof.
  induction trace as [|u trace IH] using rev_ind; intros Hwf.
  - constructor.
  - assert (Hprefix : forall rid, appended_then_replaced (own_updaters rid trace)).
    { intros rid. specialize (Hwf rid). unfold own_updaters in *.
      rewrite filter_app in Hwf.
      exact (appended_then_replaced_prefix _ _ Hwf). }
    rewrite apply_updaters_snoc. apply apply_updater_ids_unique.
    + exact (IH Hprefix).
    + intros r -> Hin.
      apply ids_come_from_updates in Hin as [[] | Hown].
      specialize (Hwf (id r)). unfold own_updaters in Hwf, Hown.
      rewrite filter_app, filter_cons_True, filter_nil in Hwf by reflexivity.
      apply appended_then_replaced_snoc in Hwf as [_ Hnil].
      exact (Hown Hnil).
Qed.

Lemma X13_tracker_ids_stay_unique_witness :
  List.NoDup
    (run_ids
       (apply_updaters
          [run_appended run1; run_appended run2;
           loading run2 (lit "Loading numpy"); loading run1 (lit "Loading numpy")]
          no_runs)).
Proof.
  refine (X13_tracker_ids_stay_unique
            [run_appended run1; run_appended run2;
             loading run2 (lit "Loading numpy"); loading run1 (lit "Loading numpy")]
            _).
  intros rid. unfold own_updaters. rewrite !filter_cons, filter_nil.
  repeat case_decide; simpl in *;
    first [ solve [repeat constructor]
          | exfalso; subst;
            match goal with
            | H : _ = _ |- _ => vm_compute in H; discriminate H
            | H : _ <> _ |- _ => apply H; reflexivity
            end ].
Defined.

Lemma other_updates_leave_record (trace : list Updater) (rid : jsstring)
    (m : Metadata) :
  own_updaters rid trace = [] ->
  find_run rid (apply_updaters trace m) = find_run rid m.
Proof.
  induction trace as [|u trace IH] using rev_ind; intros Hown; [reflexivity|].
  unfold own_updaters in *. rewrite filter_app, filter_cons, filter_nil in Hown.
  apply app_eq_nil in Hown as [H1 H2].
  rewrite apply_updaters_snoc.
  destruct (decide (id (updated_run u) = rid)) as [Hu|Hu]; [discriminate H2|].
  rewrite find_run_other by exact Hu. exact (IH H1).
Qed.

(** X14: the updates of other runs never change what the tracker shows
    for a run: over any sequence of updates none of which carries the id,
    the record found for the id is the one found before. *)
Theorem X14_runs_are_independent (trace : list Updater) (rid : jsstring)
    (m : Metadata) :
  own_updaters rid trace = [] ->
  find_run rid (apply_updaters trace m) = find_run rid m.
Proof. apply other_updates_leave_record. Qed.

Lemma X14_runs_are_independent_witness :
  find_run run1
    (apply_updaters [run_appended run2; loading run2 (lit "Loading numpy")]
       (apply_updaters [run_appended run1] no_runs))
  = Some {| id := run1; contents := []; status := in_progress |}.
Proof.
  rewrite (X14_runs_are_independent
             [run_appended run2; loading run2 (lit "Loading numpy")] run1
             (apply_updaters [run_appended run1] no_runs) eq_refl).
  reflexivity.
Defined.

Lemma tracker_shows_latest_replaced (rid : jsstring) (trace : list Updater)
    (m : Metadata) :
  Forall is_replace (own_updaters rid trace) ->
  own_updaters rid trace <> [] ->
  find_run rid (apply_updaters trace m)
  = updated_run <$> last (own_updaters rid trace).
Proof.
  induction trace as [|u trace IH] using rev_ind; intros Hall Hne.
  - contradiction.
  - unfold own_updaters in *. rewrite filter_app, filter_cons, filter_nil in *.
    rewrite apply_updaters_snoc.
    destruct (decide (id (updated_run u) = rid)) as [Hu|Hu].
    + rewrite last_snoc. apply Forall_app in Hall as [_ Hu'].
      inversion Hu' as [|x l Hx _]; subst.
      destruct u as [r|r]; [contradiction|]. simpl. apply find_run_replace.
    + rewrite app_nil_r in *. rewrite find_run_other by exact Hu.
      apply IH; assumption.
Qed.

(** X15: clearing the console empties the tracker but cancels nothing.  A
    run that makes no further update is no longer shown; a run in flight
    is shown again as soon as it replaces its record, with the record of
    its latest update. *)
Theorem X15_clear_does_not_cancel_a_run (rendered : Metadata)
    (later : list Updater) (rid : jsstring) :
  outputs (Artifact.clear_console rendered) = []
  /\ (own_updaters rid later = [] ->
      find_run rid (apply_updaters later (Artifact.clear_console rendered)) = None)
  /\ (Forall is_replace (own_updaters rid later) ->
      own_updaters rid later <> [] ->
      find_run rid (apply_updaters later (Artifact.clear_console rendered))
      = updated_run <$> last (own_updaters rid later)).
Proof.
  split; [reflexivity|]. split.
  - intros Hown. rewrite (other_updates_leave_record later rid _ Hown). reflexivity.
  - apply tracker_shows_latest_replaced.
Qed.

Lemma X15_clear_does_not_cancel_a_run_witness :
  find_run run1
    (apply_updaters [loading run2 (lit "Loading numpy");
                     loading run1 (lit "Loading pandas")]
       (Artifact.clear_console
          (apply_updaters [run_appended run1; run_appended run2] no_runs)))
  = Some {| id := run1;
            contents := [{| type := text; value := lit "Loading pandas" |}];
            status := loading_packages |}.
Proof.
  refine (proj2 (proj2 (X15_clear_does_not_cancel_a_run
                          (apply_updaters [run_appended run1; run_appended run2]
                             no_runs)
                          [loading run2 (lit "Loading numpy");
                           loading run1 (lit "Loading pandas")] run1)) _ _).
  - vm_compute. repeat constructor.
  - vm_compute. discriminate.
Defined.

End TrackerEdges.

(** ** Streaming into the artifact *)

Section Streaming.
Import Artifact.

Lemma onStreamPart_step (p : StreamPart) (a : UIArtifact) (m : Client.Metadata) :
  (isVisible a = true -> isVisible (fst (onStreamPart p a m)) = true)
  /\ Client.outputs (snd (onStreamPart p a m)) = Client.outputs m
  /\ (isVisible (fst (onStreamPart p a m)) = true ->
      isVisible a = true
      \/ (status a = streaming
          /\ part_type p = lit "code-delta"
          /\ (300 < length (cleanedCode (parseCodeBlockMarkers (part_content p)))
              < 310)%nat)).
Proof.
  unfold onStreamPart, jsstring_eqb. case_bool_decide as Htype; simpl.
  - destruct (status a); simpl.
    + destruct (300 <? _)%nat eqn:H1; simpl.
      * destruct (_ <? 310)%nat eqn:H2; simpl.
        -- apply Nat.ltb_lt in H1, H2. split; [auto|]. split; [reflexivity|].
           intros _. right. auto.
        -- auto.
      * auto.
    + auto.
  - auto.
Qed.

(** X16: over any sequence of stream parts the artifact, once visible,
    stays visible; the run records in the metadata are never touched; and
    an artifact that was not visible is visible afterwards only if some
    part was a code delta whose cleaned code has more than 300 and fewer
    than 310 code units.  A part that reaches an idle artifact never
    changes its visibility. *)
Theorem X16_streaming_keeps_the_artifact_visible (parts : list StreamPart)
    (a : UIArtifact) (m : Client.Metadata) :
  (isVisible a = true -> isVisible (fst (stream parts a m)) = true)
  /\ Client.outputs (snd (stream parts a m)) = Client.outputs m
  /\ (isVisible (fst (stream parts a m)) = true ->
      isVisible a = true
      \/ Exists (fun p =>
                   part_type p = lit "code-delta"
                   /\ (300 < length (cleanedCode
                                       (parseCodeBlockMarkers (part_content p)))
                       < 310)%nat) parts)
  /\ (forall p, status a = idle ->
                isVisible (fst (onStreamPart p a m)) = isVisible a).
Proof.
  split; [|split; [|split]].
  - revert a m. induction parts as [|p parts IH]; intros a m Ha; [exact Ha|].
    unfold stream in *. simpl.
    destruct (onStreamPart p a m) as [a' m'] eqn:E. simpl.
    apply IH. pose proof (proj1 (onStreamPart_step p a m) Ha) as H.
    rewrite E in H. exact H.
  - revert a m. induction parts as [|p parts IH]; intros a m; [reflexivity|].
    unfold stream in *. simpl.
    pose proof (proj1 (proj2 (onStreamPart_step p a m))) as H.
    destruct (onStreamPart p a m) as [a' m'] eqn:E. simpl in *.
    rewrite IH. exact H.
  - revert a m. induction parts as [|p parts IH]; intros a m Hv; [auto|].
    unfold stream in *. simpl in Hv.
    pose proof (proj2 (proj2 (onStreamPart_step p a m))) as H.
    destruct (onStreamPart p a m) as [a' m'] eqn:E. simpl in *.
    destruct (IH a' m' Hv) as [Ha' | Hex].
    + destruct (H Ha') as [Ha | (_ & H1 & H2)]; [auto|].
      right. apply Exists_cons_hd. auto.
    + right. apply Exists_cons_tl. exact Hex.
  - intros p Hidle. unfold onStreamPart, jsstring_eqb.
    case_bool_decide; simpl; [|reflexivity]. rewrite Hidle. reflexivity.
Qed.

Lemma X16_streaming_keeps_the_artifact_visible_witness :
  isVisible
    (fst (stream [{| part_type := lit "code-delta";
                     part_content := lit "print(1)" |};
                  {| part_type := lit "finish"; part_content := [] |}]
            {| content := []; isVisible := true; status := idle |}
            Observations.no_runs)) = true.
Proof.
  exact (proj1 (X16_streaming_keeps_the_artifact_visible
                  [{| part_type := lit "code-delta";
                      part_content := lit "print(1)" |};
                   {| part_type := lit "finish"; part_content := [] |}]
                  {| content := []; isVisible := true; status := idle |}
                  Observations.no_runs) eq_refl).
Defined.

End Streaming.

(** ** The Python branch: order of execution and captured events *)

Section PythonEdges.
Import Eff Provider Client Scenarios Observations.

Lemma run_python_ran (py : Pyodide) (src : jsstring) (s : ClientState) :
  py_ran (snd (run_python py src s)) = py_ran s ++ [src]
  /\ exists more,
       outputContent (snd (run_python py src s))
       = outputContent s ++ map batched more.
Proof.
  unfold run_python. destruct (runPythonAsync py (py_ran s) src) as [lines r].
  simpl. eauto.
Qed.

Lemma batched_well_typed (lines : list jsstring) :
  Forall well_typed_event (map batched lines).
Proof.
  induction lines as [|l lines IH]; constructor; [reflexivity | exact IH].
Qed.

Lemma run_python_advances (py : Pyodide) (src : jsstring) (s : ClientState) :
  advances [src] s (snd (run_python py src s)).
Proof.
  destruct (run_python_ran py src s) as [H1 (more & H2)]. split.
  - exists [src]. split; [exact H1 | exists []; reflexivity].
  - intros H. rewrite H2. apply Forall_app. split; [exact H|].
    apply batched_well_typed.
Qed.

Lemma advances_refl (todo : list jsstring) (s : ClientState) : advances todo s s.
Proof.
  split; [|auto]. exists []. rewrite app_nil_r. split; [reflexivity|].
  exists todo. reflexivity.
Qed.

Lemma advances_weaken (todo more : list jsstring) (s s' : ClientState) :
  advances todo s s' -> advances (todo ++ more) s s'.
Proof.
  intros [(done & H1 & rest & ->) H2]. split; [|exact H2].
  exists done. split; [exact H1|]. exists (rest ++ more).
  rewrite app_assoc. reflexivity.
Qed.

(** A computation that ran all of [todo1] and was not interrupted, followed
    by one that advances in [todo2]. *)
Lemma advances_seq (todo1 todo2 : list jsstring) (s s1 s2 : ClientState) :
  py_ran s1 = py_ran s ++ todo1 ->
  (Forall well_typed_event (outputContent s) ->
   Forall well_typed_event (outputContent s1)) ->
  advances todo2 s1 s2 ->
  advances (todo1 ++ todo2) s s2.
Proof.
  intros H1 Hw [(done & H2 & rest & ->) Hw2]. split; [|auto].
  exists (todo1 ++ done). split.
  - rewrite H2, H1, <- app_assoc. reflexivity.
  - exists rest. rewrite <- app_assoc. reflexivity.
Qed.

Lemma run_handlers_basic (py : Pyodide) (hs : list Handler) (s : ClientState) :
  run_handlers py (basic :: hs) s
  = match run_python py basic_handler s with
    | (Ok _, s1) => run_handlers py hs s1
    | (Throw e, s1) => (Throw e, s1)
    end.
Proof.
  cbn [run_handlers]. unfold bind.
  change (truthy (Some (OUTPUT_HANDLERS basic))) with true. cbv beta iota.
  change (OUTPUT_HANDLERS basic) with basic_handler.
  destruct (run_python py basic_handler s) as [[[]|e] s1]; reflexivity.
Qed.

Lemma run_handlers_matplotlib (py : Pyodide) (hs : list Handler)
    (s : ClientState) :
  run_handlers py (matplotlib :: hs) s
  = match run_python py matplotlib_handler s with
    | (Ok _, s1) =>
        match run_python py (lit "setup_matplotlib_output()") s1 with
        | (Ok _, s2) => run_handlers py hs s2
        | (Throw e, s2) => (Throw e, s2)
        end
    | (Throw e, s1) => (Throw e, s1)
    end.
Proof.
  cbn [run_handlers]. unfold bind.
  change (truthy (Some (OUTPUT_HANDLERS matplotlib))) with true. cbv beta iota.
  change (OUTPUT_HANDLERS matplotlib) with matplotlib_handler.
  destruct (run_python py matplotlib_handler s) as [[[]|e] s1]; [|reflexivity].
  destruct (run_python py (lit "setup_matplotlib_output()") s1)
    as [[[]|e] s2]; reflexivity.
Qed.

Lemma run_handlers_advances (py : Pyodide) (hs : list Handler) (s : ClientState) :
  advances (handler_sources hs) s (snd (run_handlers py hs s))
  /\ (fst (run_handlers py hs s) = Ok tt ->
      py_ran (snd (run_handlers py hs s)) = py_ran s ++ handler_sources hs).
Proof.
  revert s. induction hs as [|h hs IH]; intros s.
  - simpl. split; [apply advances_refl|]. intros _. rewrite app_nil_r. reflexivity.
  - destruct h.
    + (* the basic handler: one source *)
      change (handler_sources (basic :: hs))
        with ([basic_handler] ++ handler_sources hs).
      rewrite run_handlers_basic.
      pose proof (run_python_advances py basic_handler s) as Ha1.
      destruct (run_python_ran py basic_handler s) as [Hr1 _].
      destruct (run_python py basic_handler s) as [[[]|e] s1];
        cbn [fst snd] in *.
      * destruct (IH s1) as [IHa IHok].
        destruct (run_handlers py hs s1) as [r2 s2]; cbn [fst snd] in *.
        split.
        -- apply (advances_seq [basic_handler] _ s s1 s2);
             [exact Hr1 | exact (proj2 Ha1) | exact IHa].
        -- intros Hok. rewrite (IHok Hok), Hr1, <- app_assoc. reflexivity.
      * split; [|discriminate]. apply advances_weaken. exact Ha1.
    + (* the matplotlib handler: the preamble, then the call that installs it *)
      change (handler_sources (matplotlib :: hs))
        with ([matplotlib_handler; lit "setup_matplotlib_output()"]
                ++ handler_sources hs).
      rewrite run_handlers_matplotlib.
      pose proof (run_python_advances py matplotlib_handler s) as Ha1.
      destruct (run_python_ran py matplotlib_handler s) as [Hr1 _].
      destruct (run_python py matplotlib_handler s) as [[[]|e] s1];
        cbn [fst snd] in *.
      * pose proof (run_python_advances py (lit "setup_matplotlib_output()") s1)
          as Ha2.
        destruct (run_python_ran py (lit "setup_matplotlib_output()") s1)
          as [Hr2 _].
        destruct (run_python py (lit "setup_matplotlib_output()") s1)
          as [[[]|e] s2]; cbn [fst snd] in *.
        -- destruct (IH s2) as [IHa IHok].
           destruct (run_handlers py hs s2) as [r3 s3]; cbn [fst snd] in *.
           split.
           ++ apply (advances_seq
                       [matplotlib_handler; lit "setup_matplotlib_output()"]
                       _ s s2 s3).
              ** rewrite Hr2, Hr1, <- app_assoc. reflexivity.
              ** intros Hw. exact (proj2 Ha2 (proj2 Ha1 Hw)).
              ** exact IHa.
           ++ intros Hok. rewrite (IHok Hok), Hr2, Hr1, <- !app_assoc. reflexivity.
        -- split; [|discriminate]. apply advances_weaken.
           apply (advances_seq [matplotlib_handler] _ s s1 s2);
             [exact Hr1 | exact (proj2 Ha1) | exact Ha2].
      * split; [|discriminate].
        apply (advances_weaken [matplotlib_handler]
                 ([lit "setup_matplotlib_output()"] ++ handler_sources hs)).
        exact Ha1.
Qed.

Lemma bind_apply {S A B} (c : M S A) (k : A -> M S B) (s : S) :
  bind c k s
  = match c s with
    | (Ok a, s') => k a s'
    | (Throw e, s') => (Throw e, s')
    end.
Proof. reflexivity. Qed.

Lemma load_packages_keeps (py : Pyodide) (runId content : jsstring)
    (s : ClientState) :
  py_ran (snd (load_packages py runId content s)) = py_ran s
  /\ outputContent (snd (load_packages py runId content s)) = outputContent s.
Proof.
  unfold load_packages.
  destruct (loadPackagesFromImports py content) as [messages r].
  assert (H : forall s0,
             exists s1,
               fold_right
                 (fun message rest =>
                    bind (setMetadata (loading runId message)) (fun _ => rest))
                 (ret tt) messages s0 = (Ok tt, s1)
               /\ py_ran s1 = py_ran s0
               /\ outputContent s1 = outputContent s0).
  { induction messages as [|m ms IH]; intros s0; simpl.
    - eexists. split; [reflexivity|]. auto.
    - rewrite bind_apply. unfold setMetadata at 1, modify.
      match goal with
      | |- context [fold_right _ _ ms ?s'] =>
          destruct (IH s') as (s1 & H1 & H2 & H3)
      end.
      exists s1. split; [exact H1|]. simpl in *. auto. }
  destruct (H s) as (s1 & H1 & H2 & H3).
  rewrite !bind_apply, H1. unfold await. simpl. split; assumption.
Qed.

Lemma python_execute_eq (py : Pyodide) (runId content cleaned : jsstring)
    (s : ClientState) :
  python_execute py runId content cleaned s
  = match loadPyodide py with
    | Throw e => (Throw e, s)
    | Ok _ =>
        match load_packages py runId content s with
        | (Throw e, s1) => (Throw e, s1)
        | (Ok _, s1) =>
            match run_handlers py (detectRequiredHandlers content) s1 with
            | (Throw e, s2) => (Throw e, s2)
            | (Ok _, s2) => run_python py cleaned s2
            end
        end
    end.
Proof.
  unfold python_execute, bind, await.
  destruct (loadPyodide py) as [[]|e]; [|reflexivity].
  destruct (load_packages py runId content s) as [[[]|e] s1]; [|reflexivity].
  destruct (run_handlers py (detectRequiredHandlers content) s1)
    as [[[]|e] s2]; reflexivity.
Qed.

(** The Python branch up to the end of the user's code. *)
Lemma python_execute_advances (py : Pyodide) (runId content cleaned : jsstring)
    (s : ClientState) :
  advances (handler_sources (detectRequiredHandlers content) ++ [cleaned]) s
    (snd (python_execute py runId content cleaned s))
  /\ (fst (python_execute py runId content cleaned s) = Ok tt ->
      py_ran (snd (python_execute py runId content cleaned s))
      = py_ran s ++ handler_sources (detectRequiredHandlers content) ++ [cleaned]).
Proof.
  rewrite python_execute_eq.
  destruct (loadPyodide py) as [[]|e]; [|split; [apply advances_refl|discriminate]].
  destruct (load_packages_keeps py runId content s) as [Hl1 Hl2].
  destruct (load_packages py runId content s) as [[[]|e] s1]; cbn [fst snd] in *.
  - destruct (run_handlers_advances py (detectRequiredHandlers content) s1)
      as [Ha Hok].
    destruct (run_handlers py (detectRequiredHandlers content) s1)
      as [[[]|e] s2]; cbn [fst snd] in *.
    + pose proof (run_python_advances py cleaned s2) as Ha2.
      destruct (run_python_ran py cleaned s2) as [Hr _].
      destruct (run_python py cleaned s2) as [r3 s3]; cbn [fst snd] in *.
      specialize (Hok eq_refl). split.
      * apply (advances_seq _ _ s s2 s3).
        -- rewrite Hok, Hl1. reflexivity.
        -- rewrite <- Hl2. exact (proj2 Ha).
        -- exact Ha2.
      * intros _. rewrite Hr, Hok, Hl1, <- app_assoc. reflexivity.
    + split; [|discriminate]. apply advances_weaken.
      destruct Ha as [Ha1 Ha2]. split.
      * rewrite <- Hl1. exact Ha1.
      * rewrite <- Hl2. exact Ha2.
  - split; [|discriminate]. split.
    + exists []. rewrite app_nil_r. split; [exact Hl1|]. eexists. reflexivity.
    + rewrite Hl2. auto.
Qed.

Lemma python_click_state (imp : Result unit) (sb : Sandbox) (py : Pyodide)
    (runId content : jsstring) (fs : FS) :
  CodeMarkers.language (parseCodeBlockMarkers content) = python ->
  let run := python_execute py runId content
               (cleanedCode (parseCodeBlockMarkers content))
               (try_begins runId fs) in
  py_ran (click imp sb py runId content fs) = py_ran (snd run)
  /\ outputContent (click imp sb py runId content fs) = outputContent (snd run)
  /\ run_record imp sb py runId content fs
     = Some (python_terminal runId (fst run) (snd run)).
Proof.
  intros Hlang run.
  pose proof (python_click imp sb py runId content fs Hlang) as Hclick.
  fold run in Hclick.
  assert (Hrec : run_record imp sb py runId content fs
                 = Some (python_terminal runId (fst run) (snd run))).
  { apply python_run_record; [exact Hlang|]. unfold run.
    destruct (python_execute py runId content
                (cleanedCode (parseCodeBlockMarkers content))
                (try_begins runId fs)); reflexivity. }
  destruct run as [r s1]. cbn [fst snd] in *.
  rewrite Hclick. cbn [py_ran outputContent].
  split; [reflexivity|]. split; [reflexivity|exact Hrec].
Qed.

(** X17: in a Python run the interpreter is given the sources of the
    output handlers first, in the order of the handlers (for matplotlib
    the preamble, then the call that installs it), and the user's code
    last: what it ran is always a beginning of that sequence, and it is
    the whole sequence when the run ends [completed]. *)
Theorem X17_handlers_run_before_the_code (imp : Result unit) (sb : Sandbox)
    (py : Pyodide) (runId content : jsstring) (fs : FS) :
  CodeMarkers.language (parseCodeBlockMarkers content) = python ->
  let planned := handler_sources (detectRequiredHandlers content)
                 ++ [cleanedCode (parseCodeBlockMarkers content)] in
  (exists rest, planned = py_ran (click imp sb py runId content fs) ++ rest)
  /\ (status <$> run_record imp sb py runId content fs = Some completed ->
      py_ran (click imp sb py runId content fs) = planned).
Proof.
  intros Hlang planned.
  destruct (python_click_state imp sb py runId content fs Hlang)
    as (Hran & _ & Hrec).
  destruct (python_execute_advances py runId content
              (cleanedCode (parseCodeBlockMarkers content)) (try_begins runId fs))
    as [[(done & Hdone & rest & Hplanned) _] Hok].
  rewrite Hran, Hrec. cbn [py_ran try_begins app] in *. split.
  - exists rest. rewrite Hdone. exact Hplanned.
  - destruct (fst (python_execute py runId content
                     (cleanedCode (parseCodeBlockMarkers content))
                     (try_begins runId fs))) as [[]|e];
      [intros _; exact (Hok eq_refl) | discriminate].
Qed.

Lemma X17_handlers_run_before_the_code_witness :
  py_ran (click (Ok tt) dead_sandbox
            (interpreter [] (lit "plt.plot([1, 2]); plt.show()") [] (Ok tt))
            run1 (fenced "python" "plt.plot([1, 2]); plt.show()") ∅)
  = [basic_handler; matplotlib_handler; lit "setup_matplotlib_output()";
     lit "plt.plot([1, 2]); plt.show()"].
Proof.
  refine (proj2 (X17_handlers_run_before_the_code (Ok tt) dead_sandbox
                   (interpreter [] (lit "plt.plot([1, 2]); plt.show()") [] (Ok tt))
                   run1 (fenced "python" "plt.plot([1, 2]); plt.show()") ∅
                   eq_refl) _).
  vm_compute. reflexivity.
Defined.

Lemma stdout_of_app (py : Pyodide) (history a b : list jsstring) :
  Observations.stdout_of py history (a ++ b)
  = Observations.stdout_of py history a
    ++ Observations.stdout_of py (history ++ a) b.
Proof.
  revert history. induction a as [|x a IH]; intros history; simpl.
  - rewrite app_nil_r. reflexivity.
  - rewrite IH, <- !app_assoc. reflexivity.
Qed.

(** Running one source pushes the batches the interpreter writes for it,
    in order, behind what was collected before. *)
Lemma run_python_collects (py : Pyodide) (src : jsstring) (s : ClientState) :
  outputContent (snd (run_python py src s))
  = outputContent s ++ map batched (fst (runPythonAsync py (py_ran s) src)).
Proof.
  unfold run_python. destruct (runPythonAsync py (py_ran s) src) as [lines r].
  reflexivity.
Qed.

Lemma run_handlers_collects (py : Pyodide) (hs : list Handler)
    (s : ClientState) :
  fst (run_handlers py hs s) = Ok tt ->
  outputContent (snd (run_handlers py hs s))
  = outputContent s
    ++ map batched (Observations.stdout_of py (py_ran s) (handler_sources hs)).
Proof.
  revert s. induction hs as [|h hs IH]; intros s.
  - intros _. simpl. rewrite app_nil_r. reflexivity.
  - destruct h.
    + change (handler_sources (basic :: hs))
        with ([basic_handler] ++ handler_sources hs).
      rewrite run_handlers_basic.
      pose proof (run_python_collects py basic_handler s) as Ho1.
      destruct (run_python_ran py basic_handler s) as [Hr1 _].
      destruct (run_python py basic_handler s) as [[[]|e] s1];
        cbn [fst snd] in *; [|discriminate].
      intros Hok. rewrite (IH s1 Hok), Ho1, Hr1.
      cbn [app Observations.stdout_of]. rewrite map_app, <- app_assoc.
      reflexivity.
    + change (handler_sources (matplotlib :: hs))
        with ([matplotlib_handler; lit "setup_matplotlib_output()"]
                ++ handler_sources hs).
      rewrite run_handlers_matplotlib.
      pose proof (run_python_collects py matplotlib_handler s) as Ho1.
      destruct (run_python_ran py matplotlib_handler s) as [Hr1 _].
      destruct (run_python py matplotlib_handler s) as [[[]|e] s1];
        cbn [fst snd] in *; [|discriminate].
      pose proof (run_python_collects py (lit "setup_matplotlib_output()") s1)
        as Ho2.
      destruct (run_python_ran py (lit "setup_matplotlib_output()") s1)
        as [Hr2 _].
      destruct (run_python py (lit "setup_matplotlib_output()") s1)
        as [[[]|e] s2]; cbn [fst snd] in *; [|discriminate].
      intros Hok. rewrite (IH s2 Hok), Ho2, Ho1, Hr2, Hr1.
      cbn [app Observations.stdout_of]. rewrite !map_app, <- !app_assoc.
      reflexivity.
Qed.

(** When the Python branch reaches the end of the user's code, the
    collector holds what it held before and then, in order, the batches
    the interpreter wrote for the handler sources and for the code. *)
Lemma python_execute_collects (py : Pyodide) (runId content cleaned : jsstring)
    (s : ClientState) :
  fst (python_execute py runId content cleaned s) = Ok tt ->
  outputContent (snd (python_execute py runId content cleaned s))
  = outputContent s
    ++ map batched
         (Observations.stdout_of py (py_ran s)
            (handler_sources (detectRequiredHandlers content) ++ [cleaned])).
Proof.
  rewrite python_execute_eq.
  destruct (loadPyodide py) as [[]|e]; [|discriminate].
  destruct (load_packages_keeps py runId content s) as [Hl1 Hl2].
  destruct (load_packages py runId content s) as [[[]|e] s1];
    cbn [fst snd] in *; [|discriminate].
  pose proof (run_handlers_collects py (detectRequiredHandlers content) s1)
    as Hc.
  destruct (run_handlers_advances py (detectRequiredHandlers content) s1)
    as [_ Hran].
  destruct (run_handlers py (detectRequiredHandlers content) s1)
    as [[[]|e] s2]; cbn [fst snd] in *; [|discriminate].
  intros _. rewrite run_python_collects, (Hc eq_refl), (Hran eq_refl), Hl1, Hl2.
  rewrite stdout_of_app. cbn [Observations.stdout_of].
  rewrite map_app, app_nil_r, <- app_assoc. reflexivity.
Qed.

(** X18: the record of a Python run that ends [completed] holds exactly
    the events made from the batches the interpreter wrote to stdout
    while it ran the handler sources and then the user's code, one event
    per batch and in the order they were written; each is typed as an
    image exactly when its value begins with [data:image/png;base64] and
    as a text otherwise. *)
Theorem X18_completed_python_events_are_typed (imp : Result unit)
    (sb : Sandbox) (py : Pyodide) (runId content : jsstring) (fs : FS)
    (record : ConsoleOutput) :
  CodeMarkers.language (parseCodeBlockMarkers content) = python ->
  run_record imp sb py runId content fs = Some record ->
  status record = completed ->
  contents record
  = map batched
      (Observations.stdout_of py []
         (handler_sources (detectRequiredHandlers content)
          ++ [cleanedCode (parseCodeBlockMarkers content)]))
  /\ contents record = outputContent (click imp sb py runId content fs)
  /\ Forall well_typed_event (contents record).
Proof.
  intros Hlang Hrec Hstatus.
  destruct (python_click_state imp sb py runId content fs Hlang)
    as (_ & Hout & Hrec').
  destruct (python_execute_advances py runId content
              (cleanedCode (parseCodeBlockMarkers content)) (try_begins runId fs))
    as [[_ Hw] _].
  pose proof (python_execute_collects py runId content
                (cleanedCode (parseCodeBlockMarkers content))
                (try_begins runId fs)) as Hcollect.
  rewrite Hrec' in Hrec. injection Hrec as <-.
  destruct (fst (python_execute py runId content
                   (cleanedCode (parseCodeBlockMarkers content))
                   (try_begins runId fs))) as [[]|e];
    [|discriminate Hstatus].
  cbn [python_terminal contents]. split; [|split].
  - rewrite (Hcollect eq_refl). reflexivity.
  - symmetry. exact Hout.
  - apply Hw. constructor.
Qed.

Lemma X18_completed_python_events_are_typed_witness :
  let py := interpreter [] (lit "print('hello'); plot()")
              [lit "hello"; lit "data:image/png;base64,iVBORw0KGgo="] (Ok tt) in
  let content := fenced "python" "print('hello'); plot()" in
  let events := [{| type := text; value := lit "hello" |};
                 {| type := image;
                    value := lit "data:image/png;base64,iVBORw0KGgo=" |}] in
  run_record (Ok tt) dead_sandbox py run1 content ∅
  = Some {| id := run1; contents := events; status := completed |}
  /\ map batched
       (Observations.stdout_of py []
          (handler_sources (detectRequiredHandlers content)
           ++ [cleanedCode (parseCodeBlockMarkers content)]))
     = events
  /\ Forall well_typed_event events.
Proof.
  intros py content events.
  assert (Hrec : run_record (Ok tt) dead_sandbox py run1 content ∅
                 = Some {| id := run1; contents := events;
                           status := completed |})
    by (vm_compute; reflexivity).
  pose proof (X18_completed_python_events_are_typed (Ok tt) dead_sandbox py
                run1 content ∅ _ eq_refl Hrec eq_refl) as (Hstdout & _ & Htyped).
  split; [exact Hrec|]. split.
  - symmetry. exact Hstdout.
  - exact Htyped.
Defined.

End PythonEdges.

(** ** Booting: without a window, and the provisioning callback *)

Section BootEdges.
Import Eff Provider Boot Scenarios.

Lemma run_events_no_window_fresh (evs : list Event) (st : ModuleState) :
  webcontainerInstance st = None ->
  let '(ps, st') := run_events false evs st in
  Forall (fun p => next_promise st <= p)%nat ps
  /\ List.NoDup ps
  /\ (next_promise st <= next_promise st')%nat
  /\ webcontainerInstance st' = None
  /\ boot_calls st' = boot_calls st
  /\ loaded st' = loaded st.
Proof.
  revert st. induction evs as [|ev evs IH]; intros st Hst; simpl.
  - repeat split; auto; constructor.
  - destruct ev as [|ok]; simpl.
    + match goal with
      | |- context [run_events false evs ?s] =>
          specialize (IH s Hst); destruct (run_events false evs s) as [ps st']
      end.
      simpl in IH. destruct IH as (H1 & H2 & H3 & H4 & H5 & H6).
      split; [|split; [|split; [lia|auto]]].
      * constructor; [lia|]. eapply List.Forall_impl; [|exact H1].
        intros p Hp. simpl in Hp. lia.
      * constructor; [|exact H2]. intros Hin.
        rewrite List.Forall_forall in H1. specialize (H1 _ Hin). lia.
    + assert (Hs : settle ok st = st) by (unfold settle; rewrite Hst; reflexivity).
      rewrite Hs. specialize (IH st Hst).
      destruct (run_events false evs st) as [ps st']. exact IH.
Qed.

(** X19: without a window no call ever boots the sandbox or stores a
    promise, the flag [loaded] stays unset, and every call is handed a
    promise of its own: no two calls get the same one. *)
Theorem X19_without_a_window_nothing_is_shared (evs : list Event) :
  let '(ps, st) := run_events false evs module_init in
  List.NoDup ps
  /\ webcontainerInstance st = None
  /\ boot_calls st = 0%nat
  /\ loaded st = false.
Proof.
  pose proof (run_events_no_window_fresh evs module_init eq_refl) as H.
  destruct (run_events false evs module_init) as [ps st].
  destruct H as (_ & H2 & _ & H4 & H5 & H6). auto.
Qed.

(** X20: the callback that provisions the booted sandbox sets [loaded]
    and returns whenever the files could be mounted, whatever the
    installation of the compiler does (it may end with any exit code, or
    fail to start); when mounting fails the callback throws that error,
    [loaded] is left as it was and the installation is not started. *)
Theorem X20_provisioning_failure_does_not_abort_boot (mount : M FS unit)
    (sb : Sandbox) (s : BootState) :
  (forall fs1,
      mount (boot_fs s) = (Ok tt, fs1) ->
      provision mount sb s
      = (Ok tt,
         {| boot_fs := snd (spawn sb (lit "npm") npm_install_args [] fs1);
            context_loaded := true |}))
  /\ (forall e fs1,
        mount (boot_fs s) = (Throw e, fs1) ->
        provision mount sb s
        = (Throw e, {| boot_fs := fs1; context_loaded := context_loaded s |})).
Proof.
  split.
  - intros fs1 Hmount.
    unfold provision, bind, on_fs, zoom, try_catch, spawn_and_wait, modify, ret.
    rewrite Hmount. cbn [boot_fs context_loaded].
    destruct (spawn sb (lit "npm") npm_install_args [] fs1) as [[p|e] fs2];
      cbn [snd]; [destruct (negb (exit p =? 0)%Z)|]; reflexivity.
  - intros e fs1 Hmount.
    unfold provision, bind, on_fs, zoom. rewrite Hmount. reflexivity.
Qed.

Lemma X20_provisioning_failure_witness :
  provision (ret tt) dead_sandbox {| boot_fs := ∅; context_loaded := false |}
  = (Ok tt, {| boot_fs := ∅; context_loaded := true |}).
Proof.
  exact (proj1 (X20_provisioning_failure_does_not_abort_boot
                  (ret tt) dead_sandbox
                  {| boot_fs := ∅; context_loaded := false |}) ∅ eq_refl).
Defined.

End BootEdges.
